(** * Skill Forker: a shallow embedding of [fork_skill.py]

    The development follows the script top to bottom: text helpers, paths,
    the file system, root discovery, the settings loader, the tier entry
    loader and registry builder, source and destination resolution, metadata
    injection and the [main] workflow.  Theorems come after the definitions.

    Modelling conventions.
    - A Python [str] is a Rocq [string] holding its UTF-8 bytes.
    - A [pathlib.Path] is a record of an anchor flag and its components.  The
      file system has no symbolic links, so [Path.resolve] makes a path
      absolute and folds [..] lexically.  A leading [//] is read like [/],
      which is what [resolve] returns for it.
    - The file system is a finite map from absolute component lists to nodes;
      the data of a file is its bytes.  [read_text] decodes them with
      universal newlines, as Python's text mode does: a carriage return, with
      the line feed after it if there is one, is read as one line feed.
      [write_text] stores the text as it is, which is what it does where the
      line separator is the line feed.  File contents are valid UTF-8.
    - [exists], [is_dir] and [is_file] answer for every path.  The errors
      pathlib passes on from the operating system for a name that is too long
      or a directory that cannot be searched are outside the model, so what
      is proved of a probe's answer holds of the runs in which it answers.
    - Exceptions are values of [exn]; a function that can raise returns a
      [result].  [main] runs in a small state monad over the file system and
      the lines printed so far.
    - PyYAML, [json.loads], the optional [quick_validate] module, the clock
      and [tempfile.mkdtemp] are parameters gathered in [Lib] and [World].
    - The home directory is known and no text handed to the operating system
      holds a NUL byte, so that [Path.home] and [Path.resolve] return. *)

From Stdlib Require Import String Ascii List ZArith Bool Sorted Permutation.
From stdpp Require Import base option list gmap strings fin_maps sorting pretty.

Set Warnings "-register-all".

Local Open Scope string_scope.
Local Open Scope list_scope.

(** ** Text helpers *)

Module Text.

Definition byte_is (n : nat) (c : ascii) : bool := Nat.eqb (nat_of_ascii c) n.

Definition byte_in (lo hi : nat) (c : ascii) : bool :=
  Nat.leb lo (nat_of_ascii c) && Nat.leb (nat_of_ascii c) hi.

(** The characters [str.isspace] accepts, by their UTF-8 encodings:
    U+0009..U+000D, U+001C..U+0020 on one byte; U+0085 and U+00A0 on two;
    U+1680, U+2000..U+200A, U+2028, U+2029, U+202F, U+205F and U+3000 on
    three. *)
Definition ws1 (c : ascii) : bool := byte_in 9 13 c || byte_in 28 32 c.

Definition ws2 (c1 c2 : ascii) : bool :=
  byte_is 194 c1 && (byte_is 133 c2 || byte_is 160 c2).

Definition ws3 (c1 c2 c3 : ascii) : bool :=
  (byte_is 225 c1 && byte_is 154 c2 && byte_is 128 c3)
  || (byte_is 226 c1 && byte_is 128 c2
      && (byte_in 128 138 c3 || byte_is 168 c3 || byte_is 169 c3 || byte_is 175 c3))
  || (byte_is 226 c1 && byte_is 129 c2 && byte_is 159 c3)
  || (byte_is 227 c1 && byte_is 128 c2 && byte_is 128 c3).

(** [strip_front fwd l] drops leading whitespace; with [fwd = false] the list
    is read back to front, so multi-byte encodings are matched reversed. *)
Fixpoint strip_front (fwd : bool) (l : list ascii) : list ascii :=
  match l with
  | [] => []
  | c1 :: r1 =>
      if ws1 c1 then strip_front fwd r1
      else match r1 with
           | [] => l
           | c2 :: r2 =>
               if (if fwd then ws2 c1 c2 else ws2 c2 c1) then strip_front fwd r2
               else match r2 with
                    | [] => l
                    | c3 :: r3 =>
                        if (if fwd then ws3 c1 c2 c3 else ws3 c3 c2 c1)
                        then strip_front fwd r3
                        else l
                    end
           end
  end.

(** [str.strip()] *)
Definition strip (s : string) : string :=
  string_of_list_ascii
    (rev (strip_front false (rev (strip_front true (list_ascii_of_string s))))).

(** [s.startswith(p)] *)
Fixpoint startswith (p s : string) : bool :=
  match p, s with
  | EmptyString, _ => true
  | String a p', String b s' => if Ascii.eqb a b then startswith p' s' else false
  | String _ _, EmptyString => false
  end.

(** [s[n:]] *)
Fixpoint drop_str (n : nat) (s : string) : string :=
  match n, s with
  | O, _ => s
  | S n', String _ s' => drop_str n' s'
  | S _, EmptyString => EmptyString
  end.

(** [s.split(sep)] for a one-character separator. *)
Fixpoint split_on (sep : ascii) (s : string) : list string :=
  match s with
  | EmptyString => [EmptyString]
  | String c r =>
      if Ascii.eqb c sep then EmptyString :: split_on sep r
      else match split_on sep r with
           | h :: t => String c h :: t
           | [] => [String c EmptyString]
           end
  end.

(** [sep.join(items)] *)
Definition join (sep : string) (items : list string) : string :=
  String.concat sep items.

(** Universal newlines, the translation of Python's text mode on reading:
    [\r\n] and a lone [\r] both become [\n]. *)
Fixpoint universal_newlines (s : string) : string :=
  match s with
  | EmptyString => EmptyString
  | String c rest =>
      if byte_is 13 c
      then String "010"
             match rest with
             | String c' rest' =>
                 if byte_is 10 c' then universal_newlines rest'
                 else universal_newlines rest
             | EmptyString => EmptyString
             end
      else String c (universal_newlines rest)
  end.

(** The pieces of [FRONTMATTER_RE]: [find_close s] splits [s] at the first
    occurrence of a newline followed by three dashes. *)
Definition nl : string := String "010" EmptyString.
Definition close_delim : string := nl ++ "---".
Definition open_delim : string := "---" ++ nl.

Fixpoint find_close (s : string) : option (string * string) :=
  if startswith close_delim s then Some (EmptyString, drop_str 4 s)
  else match s with
       | EmptyString => None
       | String c r =>
           match find_close r with
           | Some (pre, post) => Some (String c pre, post)
           | None => None
           end
       end.

End Text.

Export Text.

(** ** Paths ([pathlib.Path] on POSIX) *)

Record Path := mkPath { absolute : bool; parts : list string }.

Global Instance Path_eq_dec : EqDecision Path.
Proof. solve_decision. Defined.

(** [Path(text)]: empty components and [.] are dropped, [..] is kept. *)
Definition Path_of_str (text : string) : Path :=
  {| absolute := startswith "/" text;
     parts := filter (fun c => c <> "" /\ c <> ".") (split_on "/" text) |}.

(** [str(path)] *)
Definition str (p : Path) : string :=
  if absolute p then "/" ++ join "/" (parts p)
  else match parts p with [] => "." | _ => join "/" (parts p) end.

(** [a / b] *)
Definition joinpath (a b : Path) : Path :=
  if absolute b then b
  else {| absolute := absolute a; parts := parts a ++ parts b |}.

(** [a / "name"] for a literal component. *)
Definition child (a : Path) (c : string) : Path := joinpath a (Path_of_str c).

(** [path.parent] and [path.name] *)
Definition parent (p : Path) : Path :=
  {| absolute := absolute p; parts := removelast (parts p) |}.

Definition name_of (p : Path) : string := List.last (parts p) "".

(** Folding [..] from left to right; at the root [..] stays at the root. *)
Definition fold_dotdot (cs : list string) : list string :=
  foldl (fun acc c => if decide (c = "..") then removelast acc else acc ++ [c]) [] cs.

(** [path.resolve()], with [cwd] the components of the working directory. *)
Definition resolve (cwd : list string) (p : Path) : Path :=
  {| absolute := true;
     parts := fold_dotdot (if absolute p then parts p else cwd ++ parts p) |}.

(** Python orders paths by their component lists, strings by code point. *)
Fixpoint parts_leb (a b : list string) : bool :=
  match a, b with
  | [], _ => true
  | _ :: _, [] => false
  | x :: a', y :: b' =>
      match String.compare x y with
      | Lt => true
      | Gt => false
      | Eq => parts_leb a' b'
      end
  end.

Definition path_le (p q : Path) : Prop := parts_leb (parts p) (parts q) = true.

Global Instance path_le_dec p q : Decision (path_le p q).
Proof. unfold path_le. apply _. Defined.

(** [sorted(paths)] *)
Definition sorted (l : list Path) : list Path := merge_sort path_le l.

(** ** Exceptions *)

(** [RuntimeError] is told apart because [main] catches it by name; every
    other exception the script can meet is an [Exception] that is not a
    [RuntimeError].  The text of an operating-system error is the platform's
    and is kept only as a label. *)
Inductive exn :=
| RuntimeError (msg : string)
| KeyError (key : string)
| IndexError
| OSError (label : string).

Definition exn_str (e : exn) : string :=
  match e with
  | RuntimeError m => m
  | KeyError k => "'" ++ k ++ "'"
  | IndexError => "list index out of range"
  | OSError l => l
  end.

Inductive result (A : Type) :=
| Ok (a : A)
| Raise (e : exn).
Arguments Ok {A} a.
Arguments Raise {A} e.

Definition rbind {A B} (r : result A) (k : A -> result B) : result B :=
  match r with Ok a => k a | Raise e => Raise e end.

(** ** The file system *)

Inductive node :=
| Dir
| File (readable : bool) (data : string).

Global Instance node_eq_dec : EqDecision node.
Proof. solve_decision. Defined.

Abbreviation FS := (gmap (list string) node).

Module Fs.

(** The root directory always exists. *)
Definition node_at (fs : FS) (p : Path) : option node :=
  match parts p with [] => Some Dir | k => fs !! k end.

Definition exists_ (fs : FS) (p : Path) : bool :=
  match node_at fs p with Some _ => true | None => false end.

Definition is_dir (fs : FS) (p : Path) : bool :=
  match node_at fs p with Some Dir => true | _ => false end.

Definition is_file (fs : FS) (p : Path) : bool :=
  match node_at fs p with Some (File _ _) => true | _ => false end.

(** [path.read_text(encoding="utf8")]: the bytes of the file, decoded with
    universal newlines. *)
Definition read_text (fs : FS) (p : Path) : result string :=
  match node_at fs p with
  | Some (File true data) => Ok (universal_newlines data)
  | Some (File false _) => Raise (OSError "Permission denied")
  | Some Dir => Raise (OSError "Is a directory")
  | None => Raise (OSError "No such file or directory")
  end.

(** [path.write_text(text, encoding="utf8")]: the parent must be a directory
    and the path must not be one. *)
Definition write_text (fs : FS) (p : Path) (text : string) : result FS :=
  match node_at fs p with
  | Some Dir => Raise (OSError "Is a directory")
  | Some (File _ _) => Ok (<[parts p := File true text]> fs)
  | None =>
      if is_dir fs (parent p) then Ok (<[parts p := File true text]> fs)
      else Raise (OSError "No such file or directory")
  end.

Definition keys (fs : FS) : list (list string) := (map_to_list fs).*1.

(** [k] lies strictly below [d]. *)
Definition below (d k : list string) : bool :=
  bool_decide (take (length d) k = d) && bool_decide (length d < length k).

(** [path.iterdir()]: the entries directly inside [p], in directory order. *)
Definition iterdir (fs : FS) (p : Path) : list Path :=
  (fun k => mkPath true k)
    <$> filter (fun k => k <> [] /\ removelast k = parts p) (keys fs).

(** [path.rglob("SKILL.md")]: everything below [p] with that name. *)
Definition rglob_skill_md (fs : FS) (p : Path) : list Path :=
  (fun k => mkPath true k)
    <$> filter (fun k => below (parts p) k = true /\ List.last k "" = "SKILL.md")
          (keys fs).

(** [path.mkdir(parents=True, exist_ok=True)]: every missing prefix becomes
    a directory; a prefix that is a file is an error. *)
Fixpoint mkdir_from (fs : FS) (done todo : list string) : result FS :=
  match todo with
  | [] => Ok fs
  | c :: rest =>
      let here := done ++ [c] in
      match fs !! here with
      | Some Dir => mkdir_from fs here rest
      | Some (File _ _) => Raise (OSError "File exists")
      | None => mkdir_from (<[here := Dir]> fs) here rest
      end
  end.

Definition mkdir_parents (fs : FS) (p : Path) : result FS :=
  mkdir_from fs [] (parts p).

(** Everything at or below [d] is removed. *)
Definition remove_tree (fs : FS) (d : list string) : FS :=
  filter (fun kv => ~ (kv.1 = d \/ below d kv.1 = true)) fs.

(** [shutil.rmtree(path)] *)
Definition rmtree (fs : FS) (p : Path) : result FS :=
  if is_dir fs p then Ok (remove_tree fs (parts p))
  else Raise (OSError "Not a directory").

(** [shutil.rmtree(path, ignore_errors=True)] *)
Definition rmtree_ignore_errors (fs : FS) (p : Path) : FS :=
  match rmtree fs p with Ok fs' => fs' | Raise _ => fs end.

(** The nodes [copytree] can copy from below [src], rebased onto [dst], and
    whether some file below [src] could not be read. *)
Definition copied (fs : FS) (src dst : list string) : list (list string * node) :=
  omap (fun kv : list string * node =>
          if below src kv.1
          then match kv.2 with
               | File false _ => None
               | n => Some (dst ++ drop (length src) kv.1, n)
               end
          else None)
       (map_to_list fs).

Definition has_unreadable (fs : FS) (src : list string) : bool :=
  existsb (fun kv : list string * node =>
             below src kv.1
             && match kv.2 with File false _ => true | _ => false end)
          (map_to_list fs).

(** [shutil.copytree(src, dst)]: [src] must be a directory, [dst] must not
    exist; missing parents of [dst] are created.  Files that cannot be read
    are skipped, the rest is copied, and the error is raised at the end. *)
Definition copytree (fs : FS) (src dst : Path) : FS * result unit :=
  if negb (is_dir fs src) then (fs, Raise (OSError "Not a directory"))
  else if exists_ fs dst then (fs, Raise (OSError "File exists"))
  else match mkdir_parents fs dst with
       | Raise e => (fs, Raise e)
       | Ok fs1 =>
           let fs2 := list_to_map (copied fs (parts src) (parts dst)) ∪ fs1 in
           (fs2, if has_unreadable fs (parts src)
                 then Raise (OSError "shutil.Error")
                 else Ok tt)
       end.

End Fs.

(** ** Data model *)

(** The keys of [TIER_PRIORITY] and [TIER_DIRS]. *)
Inductive Tier := base | pack | project.

Global Instance Tier_eq_dec : EqDecision Tier.
Proof. solve_decision. Defined.

Definition tier_str (t : Tier) : string :=
  match t with base => "base" | pack => "pack" | project => "project" end.

Definition TIER_PRIORITY (t : Tier) : nat :=
  match t with base => 1 | pack => 2 | project => 3 end.

Definition TIER_DIRS (t : Tier) : string :=
  match t with base => "base" | pack => "packs" | project => "project" end.

(** The values the [source] field of a root takes; [explicit] has no entry
    in [SOURCE_PRIORITIES]. *)
Inductive Source :=
| module_ancestor | exec_ancestor | global_root | project_root | config_root
| explicit.

Global Instance Source_eq_dec : EqDecision Source.
Proof. solve_decision. Defined.

Definition source_str (s : Source) : string :=
  match s with
  | module_ancestor => "module_ancestor"
  | exec_ancestor => "exec_ancestor"
  | global_root => "global_root"
  | project_root => "project_root"
  | config_root => "config_root"
  | explicit => "explicit"
  end.

Definition SOURCE_PRIORITIES (s : Source) : result nat :=
  match s with
  | module_ancestor => Ok 1
  | exec_ancestor => Ok 2
  | global_root => Ok 3
  | project_root => Ok 4
  | config_root => Ok 5
  | explicit => Raise (KeyError "explicit")
  end.

Definition MAX_ANCESTOR_DEPTH : nat := 10.
Definition DEFAULT_PACKS : list string := ["typescript"; "react"; "bun"; "skill-creator"].

Record SkillRoot := mkSkillRoot {
  root_dir : Path;
  skill_dir : Path;
  source : Source
}.

Record SkillEntry := mkSkillEntry {
  name : string;
  tier : Tier;
  file_path : Path;
  base_dir : Path;
  root : SkillRoot
}.

Global Instance SkillRoot_eq_dec : EqDecision SkillRoot.
Proof. solve_decision. Defined.

Global Instance SkillEntry_eq_dec : EqDecision SkillEntry.
Proof. solve_decision. Defined.

(** ** Values of the YAML and JSON libraries *)

(** A scalar PyYAML can build; [SOther] stands for floats, dates and binary
    data by their text. *)
Inductive scalar :=
| SNull
| SBool (b : bool)
| SInt (z : Z)
| SStr (s : string)
| SOther (text : string).

Global Instance scalar_eq_dec : EqDecision scalar.
Proof. solve_decision. Defined.

(** A mapping is a Python [dict]: an association list in insertion order. *)
Inductive yaml :=
| YScalar (s : scalar)
| YSeq (items : list yaml)
| YMap (items : list (scalar * yaml)).

Inductive json :=
| JNull
| JBool (b : bool)
| JNum (text : string)
| JStr (s : string)
| JArr (items : list json)
| JObj (items : list (string * json)).

Module Dict.
Section Dict.
Context {K V : Type} `{EqDecision K}.

(** [d.get(k)] *)
Fixpoint get (k : K) (d : list (K * V)) : option V :=
  match d with
  | [] => None
  | (k', v) :: rest => if decide (k' = k) then Some v else get k rest
  end.

(** [d[k] = v]: in place when the key is there, else at the end. *)
Fixpoint set (k : K) (v : V) (d : list (K * V)) : list (K * V) :=
  match d with
  | [] => [(k, v)]
  | (k', v') :: rest =>
      if decide (k' = k) then (k, v) :: rest else (k', v') :: set k v rest
  end.
End Dict.
End Dict.

(** ** The outside world *)

Record Lib := mkLib {
  (** [yaml.safe_load]; [None] is a [yaml.YAMLError]. *)
  yaml_safe_load : string -> option yaml;
  (** [yaml.safe_dump(value, sort_keys=False, allow_unicode=False)] *)
  yaml_safe_dump : yaml -> string;
  (** [json.loads]; [None] is any exception it raises. *)
  json_loads : string -> option json;
  (** [quick_validate.validate_skill], [None] when the import failed; the
      result is [(bool(ok), str(message))]. *)
  validate_skill : option (FS -> string -> result (bool * string))
}.

Record World := mkWorld {
  getcwd : list string;               (** [os.getcwd()] *)
  home : Path;                        (** [Path.home()] *)
  environ : gmap string string;       (** [os.environ] *)
  module_dir : Path;                  (** [Path(__file__).resolve().parent] *)
  exec_dir : Path;                    (** [Path(sys.executable).resolve().parent] *)
  utc_now : string;                   (** the clock, as [inject_fork_metadata] formats it *)
  mkdtemp : Path                      (** the directory [tempfile.mkdtemp] makes *)
}.

(** [os.environ.get(key, "")] *)
Definition environ_get (w : World) (key : string) : string :=
  default "" (environ w !! key).

(** Python truthiness of an optional string argument. *)
Definition truthy (o : option string) : option string :=
  match o with
  | Some s => if decide (s = "") then None else Some s
  | None => None
  end.

(** ** The script, up to the registry builder *)

Section Script.
Context (lib : Lib) (w : World).

(** [path.resolve()] in this process. *)
Definition resolved (p : Path) : Path := resolve (getcwd w) p.

Definition normalize_path_input (path_text : string) : string :=
  let trimmed := strip path_text in
  if decide (trimmed = "") then trimmed
  else if decide (trimmed = "~") then str (home w)
  else if startswith "~/" trimmed
       then str (joinpath (home w) (Path_of_str (drop_str 2 trimmed)))
  else trimmed.

Definition resolve_maybe_absolute (path_text : string) (base_dir : Path) : Path :=
  let normalized := normalize_path_input path_text in
  let candidate := Path_of_str normalized in
  if absolute candidate then resolved candidate
  else resolved (joinpath base_dir candidate).

Definition resolve_global_brewva_root (cwd : Path) : Path :=
  let agent_dir := strip (environ_get w "BREWVA_CODING_AGENT_DIR") in
  if decide (agent_dir <> "")
  then resolved (child (resolve_maybe_absolute agent_dir cwd) "..")
  else
    let xdg := strip (environ_get w "XDG_CONFIG_HOME") in
    if decide (xdg <> "") then resolve_maybe_absolute (xdg ++ "/brewva") cwd
    else resolved (child (child (home w) ".config") "brewva").

Definition resolve_project_brewva_root (cwd : Path) : Path :=
  resolved (child cwd ".brewva").

Definition has_tier_directories (fs : FS) (path : Path) : bool :=
  Fs.is_dir fs (child path "base")
  || Fs.is_dir fs (child path "packs")
  || Fs.is_dir fs (child path "project").

Definition resolve_skill_directory (fs : FS) (root_dir : Path) : option Path :=
  let normalized := resolved root_dir in
  if has_tier_directories fs normalized then Some normalized
  else
    let nested := child normalized "skills" in
    if has_tier_directories fs nested then Some (resolved nested) else None.

(** The loop of [collect_bounded_ancestors], [n] rounds left. *)
Fixpoint ancestors_loop (n : nat) (current : Path) (out : list Path) : list Path :=
  match n with
  | O => out
  | S n' =>
      let out := out ++ [current] in
      if decide (parent current = current) then out
      else ancestors_loop n' (parent current) out
  end.

Definition collect_bounded_ancestors (start_dir : Path) : list Path :=
  ancestors_loop MAX_ANCESTOR_DEPTH (resolved start_dir) [].

(** The two mutable arguments of [append_discovered_root] are threaded
    through as a pair. *)
Definition append_discovered_root (fs : FS)
    (st : list SkillRoot * gmap string nat) (root_dir : Path) (source : Source)
    : result (list SkillRoot * gmap string nat) :=
  let '(roots, index_by_skill_dir) := st in
  match resolve_skill_directory fs root_dir with
  | None => Ok (roots, index_by_skill_dir)
  | Some skill_dir =>
      let key := str (resolved skill_dir) in
      match index_by_skill_dir !! key with
      | Some existing_index =>
          match roots !! existing_index with
          | None => Raise IndexError
          | Some (mkSkillRoot _ existing_skill_dir existing_source) =>
              rbind (SOURCE_PRIORITIES source) (fun new_priority =>
              rbind (SOURCE_PRIORITIES existing_source) (fun old_priority =>
              if Nat.ltb old_priority new_priority
              then Ok (<[existing_index :=
                           mkSkillRoot (resolved root_dir) existing_skill_dir source]> roots,
                       index_by_skill_dir)
              else Ok (roots, index_by_skill_dir)))
          end
      | None =>
          Ok (roots ++ [mkSkillRoot (resolved root_dir) (resolved skill_dir) source],
              <[key := length roots]> index_by_skill_dir)
      end
  end.

(** [for d in dirs: append_discovered_root(roots, index, d, source)] *)
Definition append_all (fs : FS) (source : Source) (dirs : list Path)
    (st : result (list SkillRoot * gmap string nat))
    : result (list SkillRoot * gmap string nat) :=
  foldl (fun acc d => rbind acc (fun st => append_discovered_root fs st d source))
        st dirs.

Definition normalize_string_array (value : option json) (fallback : list string)
    : list string :=
  match value with
  | Some (JArr items) =>
      omap (fun item =>
              match item with
              | JStr s => let trimmed := strip s in
                          if decide (trimmed = "") then None else Some trimmed
              | _ => None
              end) items
  | _ => fallback
  end.

Definition read_json_file (fs : FS) (path : Path) : option (list (string * json)) :=
  if negb (Fs.exists_ fs path) then None
  else match Fs.read_text fs path with
       | Raise _ => None
       | Ok text =>
           match json_loads lib text with
           | Some (JObj payload) => Some payload
           | _ => None
           end
       end.

(** One round of the loop over [config_files]. *)
Definition load_settings_step (fs : FS)
    (acc : list string * list Path * list string) (cfg_path : Path)
    : list string * list Path * list string :=
  let '(packs, configured_roots, disabled) := acc in
  match read_json_file fs cfg_path with
  | None | Some [] => acc
  | Some loaded =>
      match Dict.get "skills" loaded with
      | Some (JObj skills) =>
          let packs :=
            if Dict.get "packs" skills is Some _
            then normalize_string_array (Dict.get "packs" skills) packs
            else packs in
          let configured_roots :=
            if Dict.get "roots" skills is Some roots
            then match roots with
                 | JArr entries =>
                     omap (fun entry =>
                             match entry with
                             | JStr s =>
                                 let trimmed := strip s in
                                 if decide (trimmed = "") then None
                                 else Some (resolve_maybe_absolute trimmed (parent cfg_path))
                             | _ => None
                             end) entries
                 | _ => []
                 end
            else configured_roots in
          let disabled :=
            if Dict.get "disabled" skills is Some _
            then normalize_string_array (Dict.get "disabled" skills) disabled
            else disabled in
          (packs, configured_roots, disabled)
      | _ => acc
      end
  end.

Definition load_skill_settings (fs : FS) (cwd : Path) (config_path : option string)
    : list string * list Path * list string * list Path :=
  let config_files :=
    match truthy config_path with
    | Some config_path => [resolve_maybe_absolute config_path cwd]
    | None => [child (resolve_global_brewva_root cwd) "brewva.json";
               child (resolve_project_brewva_root cwd) "brewva.json"]
    end in
  let '(packs, configured_roots, disabled) :=
    foldl (load_settings_step fs) (DEFAULT_PACKS, [], []) config_files in
  (packs, configured_roots, disabled, config_files).

Definition discover_skill_roots (fs : FS) (cwd : Path) (configured_roots : list Path)
    : result (list SkillRoot) :=
  let st := Ok ([], ∅) in
  let module_ancestors := rev (collect_bounded_ancestors (module_dir w)) in
  let st := append_all fs module_ancestor module_ancestors st in
  let exec_ancestors := rev (collect_bounded_ancestors (exec_dir w)) in
  let st := append_all fs exec_ancestor exec_ancestors st in
  let st := append_all fs global_root [resolve_global_brewva_root cwd] st in
  let st := append_all fs project_root [resolve_project_brewva_root cwd] st in
  let st := append_all fs config_root configured_roots st in
  rbind st (fun st => Ok st.1).

Definition parse_frontmatter (content : string) : list (scalar * yaml) * string :=
  if startswith open_delim content
  then match find_close (drop_str 4 content) with
       | None => ([], content)
       | Some (yaml_text, rest) =>
           let body := if startswith nl rest then drop_str 1 rest else rest in
           let parsed :=
             match yaml_safe_load lib yaml_text with
             | Some (YMap items) => items
             | _ => []
             end in
           (parsed, body)
       end
  else ([], content).

(** The name an entry gets from a parsed header, with the directory name
    as the fallback. *)
Definition entry_name (frontmatter : list (scalar * yaml)) (skill_md : Path) : string :=
  match Dict.get (SStr "name") frontmatter with
  | Some (YScalar (SStr candidate_name)) =>
      if decide (strip candidate_name <> "") then strip candidate_name
      else name_of (parent skill_md)
  | _ => name_of (parent skill_md)
  end.

Definition load_tier_entries (fs : FS) (tier_dir : Path) (tier : Tier) (root : SkillRoot)
    : list SkillEntry :=
  if negb (Fs.is_dir fs tier_dir) then []
  else
    omap (fun skill_md =>
            match Fs.read_text fs skill_md with
            | Raise _ => None
            | Ok raw =>
                let '(frontmatter, _) := parse_frontmatter raw in
                Some (mkSkillEntry (entry_name frontmatter skill_md) tier
                        (resolved skill_md) (resolved (parent skill_md)) root)
            end)
         (sorted (Fs.rglob_skill_md fs tier_dir)).

(** Whether the loop over [packs_dir] loads [pack_dir]. *)
Definition pack_loaded (fs : FS) (active_pack_set : gset string)
    (include_all_packs : bool) (pack_dir : Path) : bool :=
  if negb (Fs.is_dir fs pack_dir) then false
  else if negb include_all_packs && negb (bool_decide (name_of pack_dir ∈ active_pack_set))
  then false
  else true.

(** The [tier_entries] list [load_registry] builds for one root. *)
Definition root_tier_entries (fs : FS) (active_pack_set : gset string)
    (root : SkillRoot) : list SkillEntry :=
  let tier_entries := load_tier_entries fs (child root.(skill_dir) "base") base root in
  let packs_dir := child root.(skill_dir) "packs" in
  let include_all_packs :=
    bool_decide (root.(source) = project_root \/ root.(source) = config_root) in
  let tier_entries :=
    if Fs.is_dir fs packs_dir
    then foldl (fun tier_entries pack_dir =>
                  if pack_loaded fs active_pack_set include_all_packs pack_dir
                  then tier_entries ++ load_tier_entries fs pack_dir pack root
                  else tier_entries)
               tier_entries (sorted (Fs.iterdir fs packs_dir))
    else tier_entries in
  tier_entries ++ load_tier_entries fs (child root.(skill_dir) "project") project root.

(** The body of the inner loop of [load_registry]. *)
Definition merge_entry (acc : gmap string SkillEntry * list SkillEntry)
    (entry : SkillEntry) : gmap string SkillEntry * list SkillEntry :=
  let '(loaded, all_entries) := acc in
  let all_entries := all_entries ++ [entry] in
  match loaded !! entry.(name) with
  | None => (<[entry.(name) := entry]> loaded, all_entries)
  | Some existing =>
      if Nat.leb (TIER_PRIORITY existing.(tier)) (TIER_PRIORITY entry.(tier))
      then (<[entry.(name) := entry]> loaded, all_entries)
      else (loaded, all_entries)
  end.

Definition load_registry (fs : FS) (roots : list SkillRoot) (active_packs : list string)
    : gmap string SkillEntry * list SkillEntry :=
  let active_pack_set : gset string := list_to_set active_packs in
  foldl (fun acc root => foldl merge_entry acc (root_tier_entries fs active_pack_set root))
        (∅, []) roots.

End Script.

(** ** Source and destination resolution, metadata injection *)

Section Fork.
Context (lib : Lib) (w : World).

Definition resolve_explicit_source (fs : FS) (skill_name source_path : string)
    (cwd : Path) : result SkillEntry :=
  let candidate := resolve_maybe_absolute w source_path cwd in
  let skill_md := if Fs.is_dir fs candidate then child candidate "SKILL.md" else candidate in
  if negb (Fs.is_file fs skill_md)
  then Raise (RuntimeError ("Source path does not contain SKILL.md: " ++ str candidate))
  else if decide (name_of skill_md <> "SKILL.md")
  then Raise (RuntimeError
                ("Source path must point to SKILL.md or its directory: " ++ str candidate))
  else
    let parent_tier := name_of (parent (parent skill_md)) in
    let tier :=
      if decide (parent_tier = "base") then base
      else if decide (parent_tier = "packs") then pack
      else if decide (parent_tier = "project") then project
      else pack in
    rbind (Fs.read_text fs skill_md) (fun raw =>
    let '(frontmatter, _) := parse_frontmatter lib raw in
    let resolved_name := entry_name frontmatter skill_md in
    if decide (resolved_name <> skill_name)
    then Raise (RuntimeError
                  ("Requested skill '" ++ skill_name ++ "' but source declares '"
                   ++ resolved_name ++ "' (" ++ str skill_md ++ ")"))
    else
      let synthetic_root :=
        mkSkillRoot (parent (parent skill_md)) (parent (parent skill_md)) explicit in
      Ok (mkSkillEntry resolved_name tier (resolved w skill_md)
            (resolved w (parent skill_md)) synthetic_root)).

Definition resolve_destination_skill_root (fs : FS) (path_arg : option string)
    (cwd : Path) : Path * string :=
  match truthy path_arg with
  | None =>
      let project_dir := resolve_project_brewva_root w cwd in
      if Fs.is_dir fs project_dir
      then (resolved w (child project_dir "skills"), "project_default")
      else (resolved w (child (resolve_global_brewva_root w cwd) "skills"), "global_default")
  | Some path_arg =>
      let explicit_path := resolve_maybe_absolute w path_arg cwd in
      match resolve_skill_directory w fs explicit_path with
      | Some found => (resolved w found, "explicit_existing")
      | None =>
          if decide (name_of explicit_path = ".brewva")
          then (resolved w (child explicit_path "skills"), "explicit_brewva_root")
          else if decide (name_of explicit_path = "skills")
          then (resolved w explicit_path, "explicit_skills_root")
          else (resolved w (child explicit_path "skills"), "explicit_generic")
      end
  end.

Definition ystr (s : string) : yaml := YScalar (SStr s).

(** The record stored under [metadata.fork]. *)
Definition fork_record (source_entry : SkillEntry) : list (scalar * yaml) :=
  [ (SStr "source_name", ystr source_entry.(name));
    (SStr "source_tier", ystr (tier_str source_entry.(tier)));
    (SStr "source_file", ystr (str source_entry.(file_path)));
    (SStr "source_root", ystr (str source_entry.(root).(skill_dir)));
    (SStr "source_origin", ystr (source_str source_entry.(root).(source)));
    (SStr "forked_at", ystr (utc_now w));
    (SStr "forked_by", ystr (environ_get w "USER"));
    (SStr "tool", ystr "skill-creator/scripts/fork_skill.py") ].

(** The header [inject_fork_metadata] serializes. *)
Definition with_fork_metadata (frontmatter : list (scalar * yaml))
    (source_entry : SkillEntry) : list (scalar * yaml) :=
  let metadata :=
    match Dict.get (SStr "metadata") frontmatter with
    | Some (YMap metadata) => metadata
    | _ => []
    end in
  let metadata := Dict.set (SStr "fork") (YMap (fork_record source_entry)) metadata in
  Dict.set (SStr "metadata") (YMap metadata) frontmatter.

Definition inject_fork_metadata (fs : FS) (destination_skill_md : Path)
    (source_entry : SkillEntry) : result FS :=
  rbind (Fs.read_text fs destination_skill_md) (fun raw =>
  let '(frontmatter, body) := parse_frontmatter lib raw in
  match frontmatter with
  | [] => Raise (RuntimeError ("Missing frontmatter in destination SKILL.md: "
                                ++ str destination_skill_md))
  | _ =>
      let frontmatter := with_fork_metadata frontmatter source_entry in
      let yaml_text := strip (yaml_safe_dump lib (YMap frontmatter)) in
      let rebuilt := ("---" ++ nl ++ yaml_text ++ nl ++ "---" ++ nl ++ body)%string in
      Fs.write_text fs destination_skill_md rebuilt
  end).

Definition format_candidate_chain (skill_name : string) (entries : list SkillEntry)
    : list string :=
  let relevant := filter (fun entry => entry.(name) = skill_name) entries in
  imap (fun index entry =>
          (pretty (S index) ++ ". name=" ++ entry.(name)
           ++ " tier=" ++ tier_str entry.(tier)
           ++ " source=" ++ source_str entry.(root).(source)
           ++ " path=" ++ str entry.(file_path))%string)
       relevant.

Definition run_validation (fs : FS) (skill_dir : Path) : bool * string :=
  match validate_skill lib with
  | None => (true, "quick_validate unavailable; skipped")
  | Some validate =>
      match validate fs (str skill_dir) with
      | Ok (ok, message) => (ok, message)
      | Raise error => (false, ("validator execution failed: " ++ exn_str error)%string)
      end
  end.

End Fork.

(** ** The command line *)

Module Args.
(** The namespace [build_parser().parse_args()] returns. *)
Record t := mk {
  skill_name : string;
  source_path : option string;
  target_path : option string;
  tier : option Tier;
  config_path : option string;
  force : bool;
  dry_run : bool;
  no_metadata : bool;
  allow_inactive : bool;
  verbose : bool
}.
End Args.

(** ** The monad of [main] *)

(** What [main] acts on: the file system and the lines printed so far. *)
Record State := mkState { st_fs : FS; st_out : list string }.

(** How a statement ends: it falls through with a value, [main] returns an
    exit code, or an exception is on its way out. *)
Inductive ctl (A : Type) :=
| Next (a : A)
| Return (code : Z)
| Uncaught (e : exn).
Arguments Next {A} a.
Arguments Return {A} code.
Arguments Uncaught {A} e.

Definition M (A : Type) : Type := State -> ctl A * State.

Global Instance M_ret : MRet M := fun A a st => (Next a, st).

Global Instance M_bind : MBind M := fun A B k m st =>
  match m st with
  | (Next a, st') => k a st'
  | (Return code, st') => (Return code, st')
  | (Uncaught e, st') => (Uncaught e, st')
  end.

Module Run.

Definition print (line : string) : M unit :=
  fun st => (Next tt, mkState (st_fs st) (st_out st ++ [line])).

Definition return_ {A} (code : Z) : M A := fun st => (Return code, st).

Definition raise {A} (e : exn) : M A := fun st => (Uncaught e, st).

Definition get_fs : M FS := fun st => (Next (st_fs st), st).

Definition put_fs (fs : FS) : M unit := fun st => (Next tt, mkState fs (st_out st)).

(** A step on the file system that either yields a new one or raises and
    leaves it as it was. *)
Definition update_fs (f : FS -> result FS) : M unit :=
  fun st =>
    match f (st_fs st) with
    | Ok fs' => (Next tt, mkState fs' (st_out st))
    | Raise e => (Uncaught e, st)
    end.

Definition copytree (src dst : Path) : M unit :=
  fun st =>
    let '(fs', r) := Fs.copytree (st_fs st) src dst in
    (match r with Ok _ => Next tt | Raise e => Uncaught e end,
     mkState fs' (st_out st)).

(** [try: body / except Exception as error: handler(error)] *)
Definition try_except {A} (body : M A) (handler : exn -> M A) : M A :=
  fun st =>
    match body st with
    | (Uncaught e, st') => handler e st'
    | other => other
    end.

(** [try: body / finally: cleanup], for a cleanup that cannot raise. *)
Definition try_finally {A} (body : M A) (cleanup : State -> State) : M A :=
  fun st => let '(r, st') := body st in (r, cleanup st').

Fixpoint for_each {A} (items : list A) (f : A -> M unit) : M unit :=
  match items with
  | [] => mret tt
  | x :: rest => f x ;; for_each rest f
  end.

Definition when (b : bool) (m : M unit) : M unit := if b then m else mret tt.

End Run.

(** The local variables of [main] that outlive the gates. *)
Record Plan := mkPlan {
  plan_skill_name : string;
  plan_cwd : Path;
  plan_packs : list string;
  plan_configured_roots : list Path;
  plan_disabled : list string;
  plan_source_entry : SkillEntry;
  plan_destination_skill_dir : Path
}.

(** ** The workflow *)

Section Main.
Context (lib : Lib) (w : World) (args : Args.t).

Import Run.

(** The [if args.verbose:] block. *)
Definition print_verbose (config_files : list Path) (roots : list SkillRoot)
    (packs disabled : list string) (skill_name : string)
    (all_entries : list SkillEntry) : M unit :=
  print "Resolved config files:" ;;
  for_each config_files (fun cfg => print ("  - " ++ str cfg)) ;;
  print "Resolved skill roots:" ;;
  for_each roots (fun root =>
    print ("  - source=" ++ source_str root.(source)
           ++ " skill_dir=" ++ str root.(skill_dir))) ;;
  print "Active packs:" ;;
  print ("  - " ++ match packs with [] => "(none)" | _ => join ", " packs end) ;;
  print "Disabled skills:" ;;
  print ("  - " ++ match disabled with [] => "(none)" | _ => join ", " disabled end) ;;
  print "Candidate chain:" ;;
  match format_candidate_chain skill_name all_entries with
  | [] => print "  (none)"
  | chain => for_each chain (fun line => print ("  " ++ line))
  end ;;
  print "".

(** Lines 497-511: the source entry, from [--from] or from the registry. *)
Definition find_source (fs : FS) (cwd : Path) (skill_name : string)
    (loaded : gmap string SkillEntry) (disabled_set : gset string) : M SkillEntry :=
  match truthy (Args.source_path args) with
  | Some source_path =>
      match resolve_explicit_source lib w fs skill_name source_path cwd with
      | Ok source_entry => mret source_entry
      | Raise (RuntimeError error) => print ("❌ Error: " ++ error) ;; return_ 1
      | Raise other => raise other
      end
  | None =>
      match loaded !! skill_name with
      | None =>
          print ("❌ Error: Skill '" ++ skill_name
                 ++ "' not found in resolved registry roots.") ;;
          return_ 1
      | Some source_entry =>
          when (bool_decide (skill_name ∈ disabled_set))
               (print ("⚠️ Note: '" ++ skill_name
                       ++ "' is listed in skills.disabled and is currently inactive at runtime.")) ;;
          mret source_entry
      end
  end.

(** [Path(tempfile.mkdtemp(prefix=...)).resolve()]: the directory the
    world hands out must be new and its parent must be a directory. *)
Definition make_stage_dir : M Path :=
  let staged_temp_dir := resolved w (mkdtemp w) in
  update_fs (fun fs =>
    if Fs.exists_ fs staged_temp_dir then Raise (OSError "File exists")
    else if Fs.is_dir fs (parent staged_temp_dir)
    then Ok (<[parts staged_temp_dir := Dir]> fs)
    else Raise (OSError "No such file or directory")) ;;
  mret staged_temp_dir.

(** The [finally:] clause of the copy. *)
Definition cleanup_stage (staged_temp_dir : option Path) (st : State) : State :=
  match staged_temp_dir with
  | Some d =>
      if Fs.exists_ (st_fs st) d
      then mkState (Fs.rmtree_ignore_errors (st_fs st) d) (st_out st)
      else st
  | None => st
  end.

(** Lines 537-575: staging, copy, metadata and validation. *)
Definition materialize (source_entry : SkillEntry) (destination_skill_dir : Path)
    : M Path :=
  let source_dir_for_copy := resolved w source_entry.(base_dir) in
  '(source_dir_for_copy, staged_temp_dir) ←
    (if Args.force args
        && bool_decide (source_dir_for_copy = resolved w destination_skill_dir)
     then
       staged_temp_dir ← make_stage_dir ;
       let staged_source := resolved w (child staged_temp_dir "source") in
       copytree source_dir_for_copy staged_source ;;
       mret (staged_source, Some staged_temp_dir)
     else mret (source_dir_for_copy, None)) ;
  try_finally
    (try_except
       (fs ← get_fs ;
        when (Fs.exists_ fs destination_skill_dir && Args.force args)
             (update_fs (fun fs => Fs.rmtree fs destination_skill_dir)) ;;
        update_fs (fun fs => Fs.mkdir_parents fs (parent destination_skill_dir)) ;;
        copytree source_dir_for_copy destination_skill_dir)
       (fun error =>
          print ("❌ Error: Failed to copy skill contents: " ++ exn_str error) ;;
          return_ 1))
    (cleanup_stage staged_temp_dir) ;;
  let destination_skill_md := child destination_skill_dir "SKILL.md" in
  fs ← get_fs ;
  (if negb (Fs.exists_ fs destination_skill_md)
   then print "❌ Error: Destination SKILL.md missing after copy." ;; return_ 1
   else mret tt) ;;
  when (negb (Args.no_metadata args))
       (try_except
          (update_fs (fun fs => inject_fork_metadata lib w fs destination_skill_md source_entry))
          (fun error =>
             print ("❌ Error: Failed to inject fork metadata: " ++ exn_str error) ;;
             return_ 1)) ;;
  fs ← get_fs ;
  let '(valid, message) := run_validation lib fs destination_skill_dir in
  (if valid then print ("✅ Validation: " ++ message)
   else print ("❌ Validation failed: " ++ message) ;; return_ 1) ;;
  mret destination_skill_md.

(** The effective entry after the fork: a fresh registry without the
    disabled names. *)
Definition refreshed_effective (fs : FS) (cwd : Path) (configured_roots : list Path)
    (packs disabled : list string) (skill_name : string)
    : result (option SkillEntry) :=
  rbind (discover_skill_roots w fs cwd configured_roots) (fun refreshed_roots =>
  let '(refreshed_loaded, _) := load_registry lib w fs refreshed_roots packs in
  let refreshed_loaded :=
    foldl (fun loaded disabled_name => delete disabled_name loaded)
          refreshed_loaded disabled in
  Ok (refreshed_loaded !! skill_name)).

Definition is_active (effective : option SkillEntry) (destination_skill_dir : Path)
    : bool :=
  match effective with
  | Some e => bool_decide (resolved w e.(base_dir) = resolved w destination_skill_dir)
  | None => false
  end.

(** Lines 577-616: is the fork the effective skill now? *)
Definition verify (cwd : Path) (configured_roots : list Path)
    (packs disabled : list string) (skill_name : string)
    (destination_skill_dir destination_skill_md : Path) : M unit :=
  fs ← get_fs ;
  effective ←
    (match refreshed_effective fs cwd configured_roots packs disabled skill_name with
     | Ok effective => mret effective
     | Raise e => raise e
     end) ;
  let disabled_set : gset string := list_to_set disabled in
  (if is_active effective destination_skill_dir
   then
     print "✅ Active override confirmed:" ;;
     print ("   Effective skill path: "
            ++ match effective with Some e => str e.(file_path) | None => "" end)
   else
     print "⚠️ Fork created, but it is not currently the effective skill." ;;
     match effective with
     | None => print "   No effective skill with this name is currently loaded."
     | Some e =>
         print ("   Effective path remains: " ++ str e.(file_path)) ;;
         print ("   Effective tier/source: " ++ tier_str e.(tier) ++ "/"
                ++ source_str e.(root).(source))
     end ;;
     print (nl ++ "Possible fixes:") ;;
     (if bool_decide (skill_name ∈ disabled_set)
      then
        print "1. Remove the skill from skills.disabled in brewva config." ;;
        print "2. Fork into project .brewva/skills to ensure higher precedence." ;;
        print "3. If using a custom root, add it to skills.roots in brewva config." ;;
        print "4. For pack-tier skills outside project/config roots, add the pack name to skills.packs."
      else
        print "1. Fork into project .brewva/skills to ensure higher precedence." ;;
        print "2. If using a custom root, add it to skills.roots in brewva config." ;;
        print "3. For pack-tier skills outside project/config roots, add the pack name to skills.packs.") ;;
     (if negb (Args.allow_inactive args) then return_ 2 else mret tt)) ;;
  print (nl ++ "✅ Skill fork completed.") ;;
  print "Next steps:" ;;
  print ("1. Edit " ++ str destination_skill_md) ;;
  print "2. Keep the same frontmatter name to preserve override semantics." ;;
  print "3. Run your normal runtime/docs checks for the target project." ;;
  return_ 0.

(** The destination directory of the fork. *)
Definition destination_of (fs : FS) (cwd : Path) (skill_name : string)
    (source_entry : SkillEntry) : Path * string * Tier * Path :=
  let '(destination_skill_root, destination_source) :=
    resolve_destination_skill_root w fs (Args.target_path args) cwd in
  let destination_tier := default source_entry.(tier) (Args.tier args) in
  let destination_tier_dir := TIER_DIRS destination_tier in
  let destination_skill_dir :=
    resolved w (joinpath (child destination_skill_root destination_tier_dir)
                         (Path_of_str skill_name)) in
  (destination_skill_root, destination_source, destination_tier, destination_skill_dir).

(** Lines 466-526: what [main] has worked out when it reaches the gates. *)
Definition plan : M Plan :=
  let skill_name := strip (Args.skill_name args) in
  if decide (skill_name = "")
  then print "❌ Error: skill_name is required." ;; return_ 1
  else
    let cwd := mkPath true (getcwd w) in
    fs ← get_fs ;
    let '(packs, configured_roots, disabled, config_files) :=
      load_skill_settings lib w fs cwd (Args.config_path args) in
    let disabled_set : gset string := list_to_set disabled in
    roots ← (match discover_skill_roots w fs cwd configured_roots with
             | Ok roots => mret roots
             | Raise e => raise e
             end) ;
    let '(loaded, all_entries) := load_registry lib w fs roots packs in
    when (Args.verbose args)
         (print_verbose config_files roots packs disabled skill_name all_entries) ;;
    source_entry ← find_source fs cwd skill_name loaded disabled_set ;
    let '(destination_skill_root, destination_source, destination_tier,
          destination_skill_dir) := destination_of fs cwd skill_name source_entry in
    print ("🔀 Forking skill: " ++ skill_name) ;;
    print ("   Source: " ++ str source_entry.(file_path)) ;;
    print ("   Source tier: " ++ tier_str source_entry.(tier)) ;;
    print ("   Source root source: " ++ source_str source_entry.(root).(source)) ;;
    print ("   Destination root: " ++ str destination_skill_root) ;;
    print ("   Destination tier: " ++ tier_str destination_tier) ;;
    print ("   Destination path: " ++ str destination_skill_dir) ;;
    print ("   Destination root mode: " ++ destination_source) ;;
    print "" ;;
    mret (mkPlan skill_name cwd packs configured_roots disabled source_entry
                 destination_skill_dir).

Definition main : M unit :=
  p ← plan ;
  fs ← get_fs ;
  if Fs.exists_ fs p.(plan_destination_skill_dir) && negb (Args.force args)
  then
    print ("❌ Error: Destination already exists: "
           ++ str p.(plan_destination_skill_dir)) ;;
    print "   Use --force to overwrite." ;;
    return_ 1
  else if Args.dry_run args
  then print "✅ Dry-run complete. No files were written." ;; return_ 0
  else
    destination_skill_md ←
      materialize p.(plan_source_entry) p.(plan_destination_skill_dir) ;
    verify p.(plan_cwd) p.(plan_configured_roots) p.(plan_packs) p.(plan_disabled)
           p.(plan_skill_name) p.(plan_destination_skill_dir) destination_skill_md.

End Main.

(** * Specification predicates *)

(** ** Root discovery *)

(** The key [append_discovered_root] files a root under. *)
Definition root_key (r : SkillRoot) : string := str r.(skill_dir).

(** What ties the two mutable arguments together: the index sends a key to
    a position exactly when the root stored there has that key. *)
Definition index_ok (roots : list SkillRoot) (index : gmap string nat) : Prop :=
  forall k i, index !! k = Some i <-> exists r, roots !! i = Some r /\ root_key r = k.

(** A provenance with an entry in [SOURCE_PRIORITIES]. *)
Definition ranked (s : Source) : Prop := s <> explicit.

(** What one registration does, case by case: nothing to register, a new
    key, a duplicate key of strictly higher priority, a duplicate key of
    lower or equal priority. *)
Inductive registered (w : World) (fs : FS)
    (roots : list SkillRoot) (index : gmap string nat)
    (dir : Path) (src : Source)
    : list SkillRoot -> gmap string nat -> Prop :=
| reg_no_skill_dir :
    resolve_skill_directory w fs dir = None ->
    registered w fs roots index dir src roots index
| reg_new found :
    resolve_skill_directory w fs dir = Some found ->
    index !! str (resolved w found) = None ->
    registered w fs roots index dir src
      (roots ++ [mkSkillRoot (resolved w dir) (resolved w found) src])
      (<[str (resolved w found) := length roots]> index)
| reg_upgrade found i existing new_priority old_priority :
    resolve_skill_directory w fs dir = Some found ->
    index !! str (resolved w found) = Some i ->
    roots !! i = Some existing ->
    SOURCE_PRIORITIES src = Ok new_priority ->
    SOURCE_PRIORITIES existing.(source) = Ok old_priority ->
    old_priority < new_priority ->
    registered w fs roots index dir src
      (<[i := mkSkillRoot (resolved w dir) existing.(skill_dir) src]> roots)
      index
| reg_dropped found i existing new_priority old_priority :
    resolve_skill_directory w fs dir = Some found ->
    index !! str (resolved w found) = Some i ->
    roots !! i = Some existing ->
    SOURCE_PRIORITIES src = Ok new_priority ->
    SOURCE_PRIORITIES existing.(source) = Ok old_priority ->
    new_priority <= old_priority ->
    registered w fs roots index dir src roots index.

(** ** Registry builder *)

(** [e] is the entry named [n] that wins in the processing order [entries]:
    nothing named [n] before it has a higher tier, and everything named [n]
    after it has a strictly lower one. *)
Definition effective_in (entries : list SkillEntry) (n : string) (e : SkillEntry) : Prop :=
  exists before after,
    entries = before ++ e :: after
    /\ e.(name) = n
    /\ (forall e', e' ∈ before -> e'.(name) = n ->
          TIER_PRIORITY e'.(tier) <= TIER_PRIORITY e.(tier))
    /\ (forall e', e' ∈ after -> e'.(name) = n ->
          TIER_PRIORITY e'.(tier) < TIER_PRIORITY e.(tier)).

(** [loaded] holds, for every name, the winner among [entries]. *)
Definition registry_of (entries : list SkillEntry) (loaded : gmap string SkillEntry) : Prop :=
  forall n,
    match loaded !! n with
    | Some e => effective_in entries n e
    | None => forall e, e ∈ entries -> e.(name) <> n
    end.

(** The condition under which a pack directory is loaded for [root]. *)
Definition pack_included (fs : FS) (active_pack_set : gset string) (root : SkillRoot)
    (pack_dir : Path) : Prop :=
  Fs.is_dir fs pack_dir = true
  /\ (name_of pack_dir ∈ active_pack_set
      \/ root.(source) = project_root \/ root.(source) = config_root).

Global Instance pack_included_dec fs aps root d : Decision (pack_included fs aps root d).
Proof. unfold pack_included. apply _. Defined.

(** The pack directories of [root] in the order the loop visits them. *)
Definition pack_dirs (fs : FS) (root : SkillRoot) : list Path :=
  if Fs.is_dir fs (child root.(skill_dir) "packs")
  then sorted (Fs.iterdir fs (child root.(skill_dir) "packs"))
  else [].

(** ** Paths *)

(** [s] holds the character [a]. *)
Fixpoint contains_char (a : ascii) (s : string) : bool :=
  match s with
  | EmptyString => false
  | String c r => Ascii.eqb c a || contains_char a r
  end.

(** What [Path(text)] keeps as a component. *)
Definition component (c : string) : Prop :=
  c <> "" /\ c <> "." /\ contains_char "/" c = false.

(** A path pathlib can hold. *)
Definition wf_path (p : Path) : Prop := Forall component (parts p).

(** ** Headers *)

(** The ways the text of a definition gives [inject_fork_metadata] nothing
    to work on: no header block at all, or a block whose YAML is malformed,
    an empty mapping, or not a mapping. *)
Inductive header_unusable (lib : Lib) (raw : string) : Prop :=
| no_opening :
    startswith open_delim raw = false -> header_unusable lib raw
| no_closing :
    startswith open_delim raw = true ->
    find_close (drop_str 4 raw) = None -> header_unusable lib raw
| malformed_yaml yaml_text rest :
    startswith open_delim raw = true ->
    find_close (drop_str 4 raw) = Some (yaml_text, rest) ->
    yaml_safe_load lib yaml_text = None -> header_unusable lib raw
| empty_mapping yaml_text rest :
    startswith open_delim raw = true ->
    find_close (drop_str 4 raw) = Some (yaml_text, rest) ->
    yaml_safe_load lib yaml_text = Some (YMap []) -> header_unusable lib raw
| not_a_mapping yaml_text rest value :
    startswith open_delim raw = true ->
    find_close (drop_str 4 raw) = Some (yaml_text, rest) ->
    yaml_safe_load lib yaml_text = Some value ->
    (forall items, value <> YMap items) -> header_unusable lib raw.

(** ** The workflow *)

(** [m] only prints: it falls through, leaves the file system alone and
    appends lines to the output. *)
Definition only_prints (m : M unit) : Prop :=
  forall st, exists lines,
    m st = (Next tt, mkState (st_fs st) (st_out st ++ lines)).

(** [m] does not write: however it ends, the file system is as before and
    the output has only grown. *)
Definition reads_only {A} (m : M A) : Prop :=
  forall st, exists r lines,
    m st = (r, mkState (st_fs st) (st_out st ++ lines)).

(** [m] lets no exception out. *)
Definition never_raises {A} (m : M A) : Prop :=
  forall st e, (m st).1 <> Uncaught e.

(** ** Further properties *)

(** What root discovery guarantees of a root it returns: a ranked
    provenance, a resolved [skill_dir] that holds a tier directory, a
    resolved [root_dir], and a [skill_dir] that prints as the [root_dir] or
    as its [skills] subdirectory. *)
Definition root_ok (w : World) (fs : FS) (r : SkillRoot) : Prop :=
  ranked r.(source)
  /\ has_tier_directories fs r.(skill_dir) = true
  /\ resolved w r.(skill_dir) = r.(skill_dir)
  /\ resolved w r.(root_dir) = r.(root_dir)
  /\ (str r.(skill_dir) = str r.(root_dir)
      \/ str r.(skill_dir) = str (child r.(root_dir) "skills")).

(** A settings file that contributes nothing: it cannot be read as a JSON
    object, the object is empty, or its [skills] entry is not an object. *)
Definition no_skills (lib : Lib) (fs : FS) (cfg_path : Path) : Prop :=
  match read_json_file lib fs cfg_path with
  | None | Some [] => True
  | Some loaded =>
      match Dict.get "skills" loaded with
      | Some (JObj _) => False
      | _ => True
      end
  end.

(** The [skills] object of a settings file that has one. *)
Definition skills_of (lib : Lib) (fs : FS) (cfg_path : Path)
    (skills : list (string * json)) : Prop :=
  exists loaded,
    read_json_file lib fs cfg_path = Some loaded
    /\ loaded <> []
    /\ Dict.get "skills" loaded = Some (JObj skills).

(** Settings as [load_skill_settings] hands them out: no empty pack or
    disabled name, and only absolute configured roots without [..]. *)
Definition settings_ok (acc : list string * list Path * list string) : Prop :=
  Forall (fun s => s <> "") acc.1.1
  /\ Forall (fun p => absolute p = true /\ ".." ∉ parts p) acc.1.2
  /\ Forall (fun s => s <> "") acc.2.

(** Every exit code [m] returns satisfies [P]. *)
Definition returns_in {A} (P : Z -> Prop) (m : M A) : Prop :=
  forall st code st', m st = (Return code, st') -> P code.

(** [copytree] can copy the node. *)
Definition readable_node (n : node) : bool :=
  match n with File false _ => false | _ => true end.

(** The directory [d] and each of its ancestors below the root is a
    directory of [fs]. *)
Definition dirs_along (fs : FS) (d : list string) : Prop :=
  forall k, k `prefix_of` d -> k <> [] -> fs !! k = Some Dir.

(** What a fork of a skill onto itself needs from the file system: the
    skill directory [d] and its ancestors are directories, everything below
    it can be read, and the staging directory [s] is new, lies outside [d]
    and has directories above it. *)
Definition self_fork_ready (fs : FS) (d s : list string) : Prop :=
  dirs_along fs d
  /\ d <> []
  /\ (forall t n, fs !! (d ++ t) = Some n -> readable_node n = true)
  /\ (forall k, s `prefix_of` k -> fs !! k = None)
  /\ s <> []
  /\ dirs_along fs (removelast s)
  /\ ~ d `prefix_of` s.

(** The file systems a fork of the directory [d] onto itself goes through,
    with the staging directory [s]: after the copy to [s/source], after the
    removal of [d], and after the copy back. *)
Definition after_staging (fs : FS) (d s : list string) : FS :=
  list_to_map (Fs.copied (<[s := Dir]> fs) d (s ++ ["source"]))
  ∪ <[s ++ ["source"] := Dir]> (<[s := Dir]> fs).

Definition after_removal (fs : FS) (d s : list string) : FS :=
  Fs.remove_tree (after_staging fs d s) d.

Definition after_copy_back (fs : FS) (d s : list string) : FS :=
  list_to_map (Fs.copied (after_removal fs d s) (s ++ ["source"]) d)
  ∪ <[d := Dir]> (after_removal fs d s).

(** [self_fork_ready] as a check that runs. *)
Definition dirs_alongb (fs : FS) (d : list string) : bool :=
  forallb (fun i => bool_decide (fs !! take i d = Some Dir)) (seq 1 (length d)).

Definition self_fork_readyb (fs : FS) (d s : list string) : bool :=
  dirs_alongb fs d
  && negb (bool_decide (d = []))
  && negb (Fs.has_unreadable fs d)
  && forallb (fun k => negb (bool_decide (take (length s) k = s))) (Fs.keys fs)
  && negb (bool_decide (s = []))
  && dirs_alongb fs (removelast s)
  && negb (bool_decide (take (length d) s = d)).

(** * Example data *)

Module Example.

Definition skill_text : string :=
  ("---" ++ nl ++ "name: foo" ++ nl ++ "---" ++ nl ++ "Body")%string.

Definition header : list (scalar * yaml) := [(SStr "name", YScalar (SStr "foo"))].

(** A process started in [/p] by user [u]. *)
Definition world : World :=
  mkWorld ["p"] (mkPath true ["home"; "u"]) {["USER" := "u"]}
          (mkPath true ["opt"; "tool"; "scripts"]) (mkPath true ["usr"; "bin"])
          "2026-01-01T00:00:00Z"
          (mkPath true ["tmp"; "brewva-skill-fork-stage-0"]).

(** A project with one project-tier skill [foo]. *)
Definition project_fs : FS :=
  list_to_map
    [ (["p"], Dir); (["tmp"], Dir);
      (["p"; ".brewva"], Dir);
      (["p"; ".brewva"; "skills"], Dir);
      (["p"; ".brewva"; "skills"; "project"], Dir);
      (["p"; ".brewva"; "skills"; "project"; "foo"], Dir);
      (["p"; ".brewva"; "skills"; "project"; "foo"; "SKILL.md"], File true skill_text) ].

Definition project_skills : Path := mkPath true ["p"; ".brewva"; "skills"].

(** The project root as an ancestor walk would have registered it. *)
Definition ancestor_root : SkillRoot :=
  mkSkillRoot (mkPath true ["p"; ".brewva"]) project_skills module_ancestor.

End Example.

Module Example2.

(** What PyYAML prints for the header of [Example.skill_text] once the
    fork record of a project-tier [foo] is in it. *)
Definition dumped : string :=
  ("name: foo" ++ nl
   ++ "metadata:" ++ nl
   ++ "  fork:" ++ nl
   ++ "    source_name: foo" ++ nl
   ++ "    source_tier: project" ++ nl
   ++ "    source_file: /p/.brewva/skills/project/foo/SKILL.md" ++ nl
   ++ "    source_root: /p/.brewva/skills" ++ nl
   ++ "    source_origin: project_root" ++ nl
   ++ "    forked_at: '2026-01-01T00:00:00Z'" ++ nl
   ++ "    forked_by: u" ++ nl
   ++ "    tool: skill-creator/scripts/fork_skill.py" ++ nl)%string.

Definition project_root_of_p : SkillRoot :=
  mkSkillRoot (mkPath true ["p"; ".brewva"]) Example.project_skills project_root.

Definition foo_entry : SkillEntry :=
  mkSkillEntry "foo" project
    (mkPath true ["p"; ".brewva"; "skills"; "project"; "foo"; "SKILL.md"])
    (mkPath true ["p"; ".brewva"; "skills"; "project"; "foo"])
    project_root_of_p.

Definition forked_header : list (scalar * yaml) :=
  with_fork_metadata Example.world Example.header foo_entry.

(** PyYAML on the two headers of the examples; no settings files, no
    validator module. *)
Definition lib : Lib :=
  mkLib (fun text =>
           if decide (text = "name: foo") then Some (YMap Example.header)
           else if decide (text = strip dumped) then Some (YMap forked_header)
           else None)
        (fun _ => dumped)
        (fun _ => None)
        None.

(** The tool ships [foo] in its base tier and in the [react] and [vue]
    packs; the project overrides it. *)
Definition layered_fs : FS :=
  list_to_map
    [ (["opt"], Dir); (["opt"; "tool"], Dir);
      (["opt"; "tool"; "skills"], Dir);
      (["opt"; "tool"; "skills"; "base"], Dir);
      (["opt"; "tool"; "skills"; "base"; "foo"], Dir);
      (["opt"; "tool"; "skills"; "base"; "foo"; "SKILL.md"], File true Example.skill_text);
      (["opt"; "tool"; "skills"; "packs"], Dir);
      (["opt"; "tool"; "skills"; "packs"; "vue"], Dir);
      (["opt"; "tool"; "skills"; "packs"; "vue"; "foo"], Dir);
      (["opt"; "tool"; "skills"; "packs"; "vue"; "foo"; "SKILL.md"], File true Example.skill_text);
      (["opt"; "tool"; "skills"; "packs"; "react"], Dir);
      (["opt"; "tool"; "skills"; "packs"; "react"; "foo"], Dir);
      (["opt"; "tool"; "skills"; "packs"; "react"; "foo"; "SKILL.md"], File true Example.skill_text) ]
  ∪ Example.project_fs.

Definition tool_root : SkillRoot :=
  mkSkillRoot (mkPath true ["opt"; "tool"]) (mkPath true ["opt"; "tool"; "skills"])
              module_ancestor.

End Example2.

Module Example3.

(** A definition whose header block holds a list, not a mapping. *)
Definition list_header_text : string :=
  ("---" ++ nl ++ "- foo" ++ nl ++ "---" ++ nl ++ "Body")%string.

Definition lib : Lib :=
  mkLib (fun text =>
           if decide (text = "- foo") then Some (YSeq [YScalar (SStr "foo")])
           else None)
        (fun _ => "")
        (fun _ => None)
        None.

Definition fs : FS :=
  <[ ["p"; ".brewva"; "skills"; "project"; "foo"; "SKILL.md"]
     := File true list_header_text ]> Example.project_fs.

End Example3.

Module Example4.

(** [fork_skill.py foo]: fork the effective [foo] to the default place. *)
Definition fork_foo : Args.t :=
  Args.mk "foo" None None None None false false false false false.

(** [fork_skill.py foo --force] *)
Definition fork_foo_force : Args.t :=
  Args.mk "foo" None None None None true false false false false.

(** [fork_skill.py bar --from /p/.brewva/skills/project/foo] *)
Definition fork_bar_from_foo : Args.t :=
  Args.mk "bar" (Some "/p/.brewva/skills/project/foo") None None None
          false false false false false.

(** The project skill with a file next to [SKILL.md] that cannot be read. *)
Definition unreadable_fs : FS :=
  <[ ["p"; ".brewva"; "skills"; "project"; "foo"; "notes.txt"] := File false "" ]>
    Example.project_fs.

(** The value a run fell through with, for runs that do. *)
Definition from_next {A} (d : A) (c : ctl A) : A :=
  match c with Next a => a | _ => d end.

Definition no_plan : Plan :=
  mkPlan "" (mkPath true []) [] [] [] Example2.foo_entry (mkPath true []).

End Example4.

Module Example5.

(** Only the tool ships [foo], in its [react] pack, next to a file that
    cannot be read; the user has no project directory. *)
Definition tool_fs : FS :=
  list_to_map
    [ (["home"], Dir); (["home"; "u"], Dir); (["p"], Dir); (["tmp"], Dir);
      (["opt"], Dir); (["opt"; "tool"], Dir); (["opt"; "tool"; "scripts"], Dir);
      (["opt"; "tool"; "skills"], Dir);
      (["opt"; "tool"; "skills"; "packs"], Dir);
      (["opt"; "tool"; "skills"; "packs"; "react"], Dir);
      (["opt"; "tool"; "skills"; "packs"; "react"; "foo"], Dir);
      (["opt"; "tool"; "skills"; "packs"; "react"; "foo"; "SKILL.md"],
       File true Example.skill_text);
      (["opt"; "tool"; "skills"; "packs"; "react"; "foo"; "notes.txt"],
       File false "") ].

End Example5.

Module Example6.

(** The text of a project settings file and the object [json.loads] makes
    of it: packs [" vue ", 3, ""], roots ["../shared"], disabled ["foo"]. *)
Definition settings_text : string := "project settings".

Definition settings_object : json :=
  JObj [("skills",
         JObj [("packs", JArr [JStr " vue "; JNum "3"; JStr ""]);
               ("roots", JArr [JStr "../shared"]);
               ("disabled", JArr [JStr "foo"])])].

Definition lib : Lib :=
  mkLib (yaml_safe_load Example2.lib) (yaml_safe_dump Example2.lib)
        (fun text => if decide (text = settings_text) then Some settings_object else None)
        None.

Definition fs : FS :=
  <[ ["p"; ".brewva"; "brewva.json"] := File true settings_text ]> Example.project_fs.

End Example6.

Module Example7.

(** The project skill with a definition that cannot be read. *)
Definition unreadable_definition_fs : FS :=
  <[ ["p"; ".brewva"; "skills"; "project"; "foo"; "SKILL.md"] := File false "" ]>
    Example.project_fs.

(** [fork_skill.py foo --from /p/.brewva/skills/project/foo] *)
Definition fork_from_unreadable : Args.t :=
  Args.mk "foo" (Some "/p/.brewva/skills/project/foo") None None None
          false false false false false.

End Example7.

Module Example8.

(** [fork_skill.py foo --force --dry-run] *)
Definition dry_fork_foo_force : Args.t :=
  Args.mk "foo" None None None None true true false false false.

(** [fork_skill.py foo]: the tool's [foo], with nothing in the way. *)
Definition tool_only_fs : FS :=
  delete ["opt"; "tool"; "skills"; "packs"; "react"; "foo"; "notes.txt"] Example5.tool_fs.

End Example8.

Module Example9.

(** [fork_skill.py foo --force --no-metadata] *)
Definition refork_foo_plain : Args.t :=
  Args.mk "foo" None None None None true false true false false.

End Example9.

Module Example10.

Definition cr : string := String "013" EmptyString.

(** The project skill of [Example.project_fs] saved with Windows line
    endings. *)
Definition crlf_text : string :=
  ("---" ++ cr ++ nl ++ "name: foo" ++ cr ++ nl ++ "---" ++ cr ++ nl
   ++ "Body" ++ cr ++ nl)%string.

Definition crlf_fs : FS :=
  <[ ["p"; ".brewva"; "skills"; "project"; "foo"; "SKILL.md"] := File true crlf_text ]>
    Example.project_fs.

End Example10.

(** * Theorems *)

(** ** Root discovery *)

Section DiscoveryFacts.
Context (w : World) (fs : FS).

Lemma ranked_priority s : ranked s -> exists n, SOURCE_PRIORITIES s = Ok n.
Proof. destruct s; intros H; try (eexists; reflexivity). by destruct H. Qed.

Lemma index_ok_empty : index_ok [] ∅.
Proof.
  intros k i. rewrite lookup_empty. split; [done|].
  intros (r & Hr & _). by rewrite lookup_nil in Hr.
Qed.

Lemma index_ok_NoDup roots index :
  index_ok roots index -> NoDup (root_key <$> roots).
Proof.
  intros Hok. apply NoDup_alt. intros i j k Hi Hj.
  rewrite list_lookup_fmap in Hi, Hj.
  destruct (roots !! i) as [ri|] eqn:Ei; [|done].
  destruct (roots !! j) as [rj|] eqn:Ej; [|done].
  simpl in *. simplify_eq.
  assert (index !! root_key ri = Some i) as H1 by (apply Hok; eauto).
  assert (index !! root_key ri = Some j) as H2 by (apply Hok; eauto).
  congruence.
Qed.

Lemma index_ok_append roots index r :
  index_ok roots index -> index !! root_key r = None ->
  index_ok (roots ++ [r]) (<[root_key r := length roots]> index).
Proof.
  intros Hok Hfresh k i. split.
  - intros Hk. destruct (decide (root_key r = k)) as [<-|Hne].
    + rewrite lookup_insert_eq in Hk. simplify_eq.
      exists r. split; [|done]. by rewrite lookup_app_r, Nat.sub_diag.
    + rewrite lookup_insert_ne in Hk by done.
      apply Hok in Hk as (r' & Hr' & Hkey). exists r'. split; [|done].
      by apply lookup_app_l_Some.
  - intros (r' & Hr' & Hkey). apply lookup_app_Some in Hr' as [Hr'|[Hlen Hr']].
    + assert (index !! k = Some i) as Hi by (apply Hok; eauto).
      rewrite lookup_insert_ne; [done|]. intros <-. congruence.
    + apply list_lookup_singleton_Some in Hr' as [Hi ->].
      subst k. assert (i = length roots) as -> by lia.
      by rewrite lookup_insert_eq.
Qed.

Lemma index_ok_replace roots index i old new :
  index_ok roots index -> roots !! i = Some old -> root_key new = root_key old ->
  index_ok (<[i := new]> roots) index.
Proof.
  intros Hok Hold Hkey k j. rewrite (Hok k j). split.
  - intros (r & Hr & Hk). destruct (decide (i = j)) as [->|Hne].
    + exists new. split; [|congruence].
      apply list_lookup_insert_eq. by eapply lookup_lt_Some.
    + exists r. split; [|done]. by rewrite list_lookup_insert_ne.
  - intros (r & Hr & Hk). destruct (decide (i = j)) as [->|Hne].
    + rewrite list_lookup_insert_eq in Hr by (by eapply lookup_lt_Some).
      simplify_eq. exists old. split; [done|congruence].
    + rewrite list_lookup_insert_ne in Hr by done. eauto.
Qed.

(** One registration never raises on ranked provenances, does one of the
    four things [registered] lists, and keeps the index in step. *)
Lemma append_discovered_root_registered roots index dir src :
  index_ok roots index ->
  ranked src ->
  Forall (fun r => ranked r.(source)) roots ->
  exists roots' index',
    append_discovered_root w fs (roots, index) dir src = Ok (roots', index')
    /\ registered w fs roots index dir src roots' index'
    /\ index_ok roots' index'
    /\ Forall (fun r => ranked r.(source)) roots'.
Proof.
  intros Hok Hsrc Hall. unfold append_discovered_root.
  destruct (resolve_skill_directory w fs dir) as [found|] eqn:Efound.
  2:{ exists roots, index. split_and!; try done. by constructor. }
  destruct (index !! str (resolved w found)) as [i|] eqn:Ei.
  - destruct (proj1 (Hok _ _) Ei) as (existing & Hex & Hkey).
    rewrite Hex. destruct existing as [erd esd esrc]. simpl in *.
    destruct (ranked_priority src Hsrc) as [pn Hpn].
    assert (ranked esrc) as Hesrc.
    { rewrite Forall_forall in Hall. apply (Hall (mkSkillRoot erd esd esrc)).
      by eapply list_elem_of_lookup_2. }
    destruct (ranked_priority esrc Hesrc) as [po Hpo].
    rewrite Hpn, Hpo. simpl.
    destruct (Nat.ltb po pn) eqn:Elt.
    + apply Nat.ltb_lt in Elt. eexists _, _. split_and!; [done| | |].
      * eapply (reg_upgrade w fs roots index dir src found i
                  (mkSkillRoot erd esd esrc)); eauto.
      * eapply index_ok_replace; eauto.
      * apply Forall_insert; done.
    + apply Nat.ltb_ge in Elt. exists roots, index. split_and!; try done.
      eapply (reg_dropped w fs roots index dir src found i
                (mkSkillRoot erd esd esrc)); eauto.
  - eexists _, _. split_and!; [done| | |].
    + by constructor.
    + apply (index_ok_append roots index
               (mkSkillRoot (resolved w dir) (resolved w found) src)); done.
    + apply Forall_app. split; [done|]. by constructor.
Qed.

Lemma append_all_ok src dirs roots index :
  index_ok roots index ->
  ranked src ->
  Forall (fun r => ranked r.(source)) roots ->
  exists roots' index',
    append_all w fs src dirs (Ok (roots, index)) = Ok (roots', index')
    /\ index_ok roots' index'
    /\ Forall (fun r => ranked r.(source)) roots'.
Proof.
  intros Hok Hsrc. revert roots index Hok.
  induction dirs as [|d dirs IH]; intros roots index Hok Hall.
  - exists roots, index. done.
  - destruct (append_discovered_root_registered roots index d src Hok Hsrc Hall)
      as (r1 & i1 & Hstep & _ & Hok1 & Hall1).
    change (append_all w fs src (d :: dirs) (Ok (roots, index)))
      with (append_all w fs src dirs
              (append_discovered_root w fs (roots, index) d src)).
    rewrite Hstep. apply (IH r1 i1 Hok1 Hall1).
Qed.

(** Root discovery never raises, and its roots have pairwise distinct
    keys. *)
Lemma discover_skill_roots_ok cwd configured_roots :
  exists roots,
    discover_skill_roots w fs cwd configured_roots = Ok roots
    /\ NoDup (root_key <$> roots).
Proof.
  unfold discover_skill_roots.
  destruct (append_all_ok module_ancestor
              (rev (collect_bounded_ancestors w (module_dir w))) [] ∅)
    as (r1 & i1 & -> & Hok1 & Hall1); [apply index_ok_empty|done|done|].
  destruct (append_all_ok exec_ancestor
              (rev (collect_bounded_ancestors w (exec_dir w))) r1 i1)
    as (r2 & i2 & -> & Hok2 & Hall2); [done..|].
  destruct (append_all_ok global_root [resolve_global_brewva_root w cwd] r2 i2)
    as (r3 & i3 & -> & Hok3 & Hall3); [done..|].
  destruct (append_all_ok project_root [resolve_project_brewva_root w cwd] r3 i3)
    as (r4 & i4 & -> & Hok4 & Hall4); [done..|].
  destruct (append_all_ok config_root configured_roots r4 i4)
    as (r5 & i5 & -> & Hok5 & Hall5); [done..|].
  exists r5. split; [done|]. by eapply index_ok_NoDup.
Qed.

End DiscoveryFacts.

(** C2. Root Discovery keeps at most one Root per resolved [skill_dir]: a
    registration never raises and leaves the keys of the stored roots
    pairwise distinct; when the directory being registered resolves to the
    [skill_dir] of a stored root, a strictly higher priority replaces that
    root's provenance and [root_dir] and keeps its [skill_dir], while a lower
    or equal priority leaves the roots as they were. *)
Theorem append_discovered_root_dedup w fs roots index dir src :
  index_ok roots index ->
  ranked src ->
  Forall (fun r => ranked r.(source)) roots ->
  exists roots' index',
    append_discovered_root w fs (roots, index) dir src = Ok (roots', index')
    /\ index_ok roots' index'
    /\ NoDup (root_key <$> roots')
    /\ forall found i existing,
         resolve_skill_directory w fs dir = Some found ->
         roots !! i = Some existing ->
         str existing.(skill_dir) = str (resolved w found) ->
         index' = index
         /\ exists new_priority old_priority,
              SOURCE_PRIORITIES src = Ok new_priority
              /\ SOURCE_PRIORITIES existing.(source) = Ok old_priority
              /\ (old_priority < new_priority ->
                  roots' = <[i := mkSkillRoot (resolved w dir) existing.(skill_dir) src]> roots)
              /\ (new_priority <= old_priority -> roots' = roots).
Proof.
  intros Hok Hsrc Hall.
  destruct (append_discovered_root_registered w fs roots index dir src Hok Hsrc Hall)
    as (roots' & index' & Hrun & Hreg & Hok' & _).
  exists roots', index'. split_and!; [done|done|by eapply index_ok_NoDup|].
  intros found i existing Hfound Hi Hkey.
  assert (index !! str (resolved w found) = Some i) as Hidx
    by (apply Hok; exists existing; done).
  inversion Hreg; subst; simplify_eq.
  - split; [done|]. exists new_priority, old_priority. split_and!; [done|done|done|lia].
  - split; [done|]. exists new_priority, old_priority. split_and!; [done|done|lia|done].
Qed.

Lemma append_discovered_root_dedup_witness :
  index_ok [Example.ancestor_root] {[ "/p/.brewva/skills" := 0 ]}
  /\ append_discovered_root Example.world Example.project_fs
       ([Example.ancestor_root], {[ "/p/.brewva/skills" := 0 ]})
       (mkPath true ["p"; ".brewva"]) project_root
     = Ok ([mkSkillRoot (mkPath true ["p"; ".brewva"]) Example.project_skills project_root],
           {[ "/p/.brewva/skills" := 0 ]}).
Proof.
  assert (index_ok [Example.ancestor_root] {[ "/p/.brewva/skills" := 0 ]}) as Hok.
  { apply (index_ok_append [] ∅ Example.ancestor_root index_ok_empty). reflexivity. }
  split; [exact Hok|].
  destruct (append_discovered_root_dedup Example.world Example.project_fs
              [Example.ancestor_root] {[ "/p/.brewva/skills" := 0 ]}
              (mkPath true ["p"; ".brewva"]) project_root Hok)
    as (roots' & index' & Hrun & _ & _ & Hdup).
  - discriminate.
  - repeat constructor; discriminate.
  - destruct (Hdup Example.project_skills 0 Example.ancestor_root)
      as (-> & pn & po & Hpn & Hpo & Hup & _); [reflexivity..|].
    injection Hpn as <-. injection Hpo as <-.
    rewrite Hrun, Hup by lia. reflexivity.
Defined.

(** ** Registry builder *)

Lemma parts_leb_total a b : parts_leb a b = true \/ parts_leb b a = true.
Proof.
  revert b. induction a as [|x a IH]; intros [|y b]; simpl; auto.
  rewrite (String.compare_antisym y x).
  destruct (String.compare x y); simpl; auto.
Qed.

Global Instance path_le_total : Total path_le.
Proof. intros p q. apply parts_leb_total. Qed.

Lemma sorted_Sorted l : Sorted path_le (sorted l).
Proof. apply (Sorted_merge_sort path_le). Qed.

Lemma sorted_Permutation l : sorted l ≡ₚ l.
Proof. apply (merge_sort_Permutation path_le). Qed.

Lemma foldl_app_if {A B} (p : A -> bool) (f : A -> list B) (l : list A) (init : list B) :
  foldl (fun acc x => if p x then acc ++ f x else acc) init l
  = init ++ flat_map f (filter (fun x => p x = true) l).
Proof.
  revert init. induction l as [|x l IH]; intros init; simpl.
  - by rewrite app_nil_r.
  - rewrite IH. rewrite filter_cons. destruct (p x) eqn:E.
    + rewrite decide_True by done. simpl. by rewrite <- app_assoc.
    + rewrite decide_False by (by intros ?). done.
Qed.

Section RegistryFacts.
Context (lib : Lib) (w : World) (fs : FS).

Lemma pack_loaded_included aps root d :
  pack_loaded fs aps
    (bool_decide (root.(source) = project_root \/ root.(source) = config_root)) d = true
  <-> pack_included fs aps root d.
Proof.
  unfold pack_loaded, pack_included.
  destruct (Fs.is_dir fs d); simpl; [|by intuition].
  repeat case_bool_decide; simpl; intuition; done.
Qed.

(** The loops of [load_registry] for one root, as one expression: base,
    then the included packs in sorted order, then project. *)
Lemma root_tier_entries_order aps root :
  root_tier_entries lib w fs aps root
  = load_tier_entries lib w fs (child root.(skill_dir) "base") base root
    ++ flat_map (fun d => load_tier_entries lib w fs d pack root)
         (filter (pack_included fs aps root) (pack_dirs fs root))
    ++ load_tier_entries lib w fs (child root.(skill_dir) "project") project root.
Proof.
  unfold root_tier_entries, pack_dirs.
  destruct (Fs.is_dir fs (child (skill_dir root) "packs")).
  - rewrite foldl_app_if, <- app_assoc.
    rewrite (list_filter_iff _ (pack_included fs aps root)); [done|].
    intros d. apply pack_loaded_included.
  - simpl. done.
Qed.

Lemma merge_entry_all loaded es e :
  (merge_entry (loaded, es) e).2 = es ++ [e].
Proof. unfold merge_entry. repeat case_match; done. Qed.

Lemma effective_in_max es n e e' :
  effective_in es n e -> e' ∈ es -> e'.(name) = n ->
  TIER_PRIORITY e'.(tier) <= TIER_PRIORITY e.(tier).
Proof.
  intros (before & after & -> & Hn & Hb & Ha) Hin Hname.
  apply elem_of_app in Hin as [Hin|Hin]; [by apply Hb|].
  apply elem_of_cons in Hin as [->|Hin]; [done|].
  apply Nat.lt_le_incl. by apply Ha.
Qed.

Lemma merge_entry_registry loaded es e :
  registry_of es loaded ->
  registry_of (es ++ [e]) (merge_entry (loaded, es) e).1.
Proof.
  intros Hreg n. unfold merge_entry.
  assert (forall winner, effective_in es n winner ->
            (e.(name) = n -> TIER_PRIORITY e.(tier) < TIER_PRIORITY winner.(tier)) ->
            effective_in (es ++ [e]) n winner) as Hkeep.
  { intros winner (before & after & -> & Hn & Hb & Ha) Hlow.
    exists before, (after ++ [e]). split_and!; [by rewrite <- app_assoc|done|done|].
    intros e' Hin Hname. apply elem_of_app in Hin as [Hin|Hin]; [by apply Ha|].
    apply list_elem_of_singleton in Hin as ->. by apply Hlow. }
  assert (e.(name) = n ->
          (forall e', e' ∈ es -> e'.(name) = n ->
             TIER_PRIORITY e'.(tier) <= TIER_PRIORITY e.(tier)) ->
          effective_in (es ++ [e]) n e) as Hnew.
  { intros Hn Hle. exists es, []. split_and!; [done|done|done|].
    intros e' Hin. by apply elem_of_nil in Hin. }
  pose proof (Hreg (name e)) as Hself. pose proof (Hreg n) as Hn.
  destruct (loaded !! name e) as [existing|] eqn:Eex.
  - destruct (Nat.leb (TIER_PRIORITY (tier existing)) (TIER_PRIORITY (tier e))) eqn:Ele;
      simpl.
    + apply Nat.leb_le in Ele. destruct (decide (name e = n)) as [<-|Hne].
      * rewrite lookup_insert_eq. apply Hnew; [done|].
        intros e' Hin Hname. etrans; [|exact Ele].
        by eapply effective_in_max.
      * rewrite lookup_insert_ne by done.
        destruct (loaded !! n) as [winner|].
        -- apply Hkeep; [done|]. intros ?; done.
        -- intros e' Hin. apply elem_of_app in Hin as [Hin|Hin]; [by apply Hn|].
           apply list_elem_of_singleton in Hin as ->. done.
    + apply Nat.leb_gt in Ele. destruct (decide (name e = n)) as [<-|Hne].
      * rewrite Eex. apply Hkeep; [done|]. intros _. done.
      * destruct (loaded !! n) as [winner|].
        -- apply Hkeep; [done|]. intros ?; done.
        -- intros e' Hin. apply elem_of_app in Hin as [Hin|Hin]; [by apply Hn|].
           apply list_elem_of_singleton in Hin as ->. done.
  - simpl. destruct (decide (name e = n)) as [<-|Hne].
    + rewrite lookup_insert_eq. apply Hnew; [done|].
      intros e' Hin Hname. by destruct (Hself e' Hin).
    + rewrite lookup_insert_ne by done.
      destruct (loaded !! n) as [winner|].
      * apply Hkeep; [done|]. intros ?; done.
      * intros e' Hin. apply elem_of_app in Hin as [Hin|Hin]; [by apply Hn|].
        apply list_elem_of_singleton in Hin as ->. done.
Qed.

Lemma merge_entries_registry new loaded es :
  registry_of es loaded ->
  registry_of (es ++ new) (foldl merge_entry (loaded, es) new).1
  /\ (foldl merge_entry (loaded, es) new).2 = es ++ new.
Proof.
  revert loaded es. induction new as [|e new IH]; intros loaded es Hreg; cbn [foldl].
  - by rewrite app_nil_r.
  - pose proof (merge_entry_registry loaded es e Hreg) as H1.
    pose proof (merge_entry_all loaded es e) as H2.
    destruct (merge_entry (loaded, es) e) as [loaded1 es1]. simpl in *. subst es1.
    destruct (IH loaded1 (es ++ [e]) H1) as [H3 H4].
    rewrite <- !app_assoc in H3, H4. done.
Qed.

Lemma load_registry_flat roots active_packs :
  load_registry lib w fs roots active_packs
  = foldl merge_entry (∅, [])
      (flat_map (root_tier_entries lib w fs (list_to_set active_packs)) roots).
Proof.
  unfold load_registry. generalize (∅ : gmap string SkillEntry, [] : list SkillEntry).
  induction roots as [|r roots IH]; intros acc; simpl; [done|].
  by rewrite IH, foldl_app.
Qed.

Lemma registry_of_empty : registry_of [] ∅.
Proof. intros n. rewrite lookup_empty. intros e Hin. by apply elem_of_nil in Hin. Qed.

(** The registry holds the winners of the processing order, and the
    processing order is the roots' entries one root after the other. *)
Lemma load_registry_spec roots active_packs :
  registry_of (load_registry lib w fs roots active_packs).2
              (load_registry lib w fs roots active_packs).1
  /\ (load_registry lib w fs roots active_packs).2
     = flat_map (root_tier_entries lib w fs (list_to_set active_packs)) roots.
Proof.
  rewrite load_registry_flat.
  destruct (merge_entries_registry
              (flat_map (root_tier_entries lib w fs (list_to_set active_packs)) roots)
              ∅ [] registry_of_empty) as [H1 H2].
  simpl in *. rewrite H2. done.
Qed.

End RegistryFacts.

(** C1. For every list of roots and every name, the effective entry of the
    registry is an entry of that name with the highest tier priority among
    all entries of that name, and every entry of that name processed after
    it has a strictly lower priority, so among the entries of the highest
    tier it is the last one processed; the processing order is the roots in
    the given order and, within a root, base, then the loaded packs in
    sorted order, then project.  A name is absent from the registry only
    when no entry has it. *)
Theorem load_registry_effective lib w fs roots active_packs :
  let loaded := (load_registry lib w fs roots active_packs).1 in
  let all_entries := (load_registry lib w fs roots active_packs).2 in
  all_entries
  = flat_map
      (fun root =>
         load_tier_entries lib w fs (child root.(skill_dir) "base") base root
         ++ flat_map (fun d => load_tier_entries lib w fs d pack root)
              (filter (pack_included fs (list_to_set active_packs) root)
                      (pack_dirs fs root))
         ++ load_tier_entries lib w fs (child root.(skill_dir) "project") project root)
      roots
  /\ forall n,
       match loaded !! n with
       | Some e =>
           effective_in all_entries n e
           /\ forall e', e' ∈ all_entries -> e'.(name) = n ->
                TIER_PRIORITY e'.(tier) <= TIER_PRIORITY e.(tier)
       | None => forall e, e ∈ all_entries -> e.(name) <> n
       end.
Proof.
  intros loaded all_entries.
  destruct (load_registry_spec lib w fs roots active_packs) as [Hreg Hall].
  split.
  - unfold all_entries. rewrite Hall. apply flat_map_ext.
    intros root. apply root_tier_entries_order.
  - intros n. pose proof (Hreg n) as Hn. fold loaded in Hn. fold all_entries in Hn.
    destruct (loaded !! n) as [e|]; [|done].
    split; [done|]. intros e' Hin Hname. by eapply effective_in_max.
Qed.

Lemma load_registry_effective_witness :
  (load_registry Example2.lib Example.world Example2.layered_fs
     [Example2.project_root_of_p; Example2.tool_root] DEFAULT_PACKS).1 !! "foo"
  = Some Example2.foo_entry
  /\ effective_in
       (load_registry Example2.lib Example.world Example2.layered_fs
          [Example2.project_root_of_p; Example2.tool_root] DEFAULT_PACKS).2
       "foo" Example2.foo_entry.
Proof.
  assert ((load_registry Example2.lib Example.world Example2.layered_fs
             [Example2.project_root_of_p; Example2.tool_root] DEFAULT_PACKS).1 !! "foo"
          = Some Example2.foo_entry) as Hfoo by (vm_compute; reflexivity).
  split; [exact Hfoo|].
  pose proof (proj2 (load_registry_effective Example2.lib Example.world
                       Example2.layered_fs
                       [Example2.project_root_of_p; Example2.tool_root]
                       DEFAULT_PACKS) "foo") as H.
  cbv zeta in H. rewrite Hfoo in H. exact (proj1 H).
Defined.

(** C6. For every root the registry builder loads the base tier, then the
    entries of each pack directory taken in sorted order, a pack directory
    being loaded exactly when it is a directory and its name is among the
    active packs or the root's provenance is [project_root] or [config_root],
    then the project tier; the sorted order is a sorted rearrangement of the
    directory listing; and the builder processes the roots one after the
    other. *)
Theorem load_registry_tier_order lib w fs roots active_packs root :
  root_tier_entries lib w fs (list_to_set active_packs) root
  = load_tier_entries lib w fs (child root.(skill_dir) "base") base root
    ++ flat_map (fun pack_dir => load_tier_entries lib w fs pack_dir pack root)
         (filter (fun pack_dir =>
                    Fs.is_dir fs pack_dir = true
                    /\ (name_of pack_dir ∈ active_packs
                        \/ root.(source) = project_root
                        \/ root.(source) = config_root))
                 (pack_dirs fs root))
    ++ load_tier_entries lib w fs (child root.(skill_dir) "project") project root
  /\ Sorted path_le (pack_dirs fs root)
  /\ (pack_dirs fs root
      ≡ₚ if Fs.is_dir fs (child root.(skill_dir) "packs")
         then Fs.iterdir fs (child root.(skill_dir) "packs") else [])
  /\ (load_registry lib w fs roots active_packs).2
     = flat_map (root_tier_entries lib w fs (list_to_set active_packs)) roots.
Proof.
  split_and!.
  - rewrite root_tier_entries_order.
    rewrite (list_filter_iff (pack_included fs (list_to_set active_packs) root)
               (fun pack_dir =>
                  Fs.is_dir fs pack_dir = true
                  /\ (name_of pack_dir ∈ active_packs
                      \/ root.(source) = project_root
                      \/ root.(source) = config_root))); [done|].
    intros d. unfold pack_included. by rewrite elem_of_list_to_set.
  - unfold pack_dirs. case_match; [apply sorted_Sorted|constructor].
  - unfold pack_dirs. case_match; [apply sorted_Permutation|done].
  - apply load_registry_spec.
Qed.

Lemma load_registry_tier_order_witness :
  (name <$> root_tier_entries Example2.lib Example.world Example2.layered_fs
              (list_to_set DEFAULT_PACKS) Example2.tool_root) = ["foo"; "foo"]
  /\ pack_dirs Example2.layered_fs Example2.tool_root
     = [mkPath true ["opt"; "tool"; "skills"; "packs"; "react"];
        mkPath true ["opt"; "tool"; "skills"; "packs"; "vue"]]
  /\ Sorted path_le (pack_dirs Example2.layered_fs Example2.tool_root).
Proof.
  split_and!; [vm_compute; reflexivity..|].
  apply (load_registry_tier_order Example2.lib Example.world Example2.layered_fs
           [Example2.tool_root] DEFAULT_PACKS Example2.tool_root).
Defined.

(** ** Paths *)

Lemma split_on_cons sep s : exists c cs, split_on sep s = c :: cs.
Proof.
  induction s as [|a s (c & cs & IH)]; simpl; [by eauto|].
  destruct (Ascii.eqb a sep); [by eauto|]. rewrite IH. by eauto.
Qed.

Lemma split_on_no_sep sep s :
  Forall (fun c => contains_char sep c = false) (split_on sep s).
Proof.
  induction s as [|a s IH]; simpl; [by repeat constructor|].
  destruct (Ascii.eqb a sep) eqn:E; [by constructor|].
  destruct (split_on sep s) as [|h t]; [by repeat constructor; simpl; rewrite E|].
  inversion IH; subst. constructor; [|done]. simpl. by rewrite E.
Qed.

Lemma split_on_single sep c :
  contains_char sep c = false -> split_on sep c = [c].
Proof.
  induction c as [|a c IH]; simpl; [done|].
  intros [Ha Hc]%orb_false_iff. rewrite Ha, (IH Hc). done.
Qed.

Lemma split_on_app sep c rest :
  contains_char sep c = false ->
  split_on sep (c ++ String sep rest) = c :: split_on sep rest.
Proof.
  induction c as [|a c IH]; simpl.
  - intros _. by rewrite Ascii.eqb_refl.
  - intros [Ha Hc]%orb_false_iff. rewrite Ha, (IH Hc). done.
Qed.

Lemma split_on_join cs :
  cs <> [] -> Forall (fun c => contains_char "/" c = false) cs ->
  split_on "/" (join "/" cs) = cs.
Proof.
  induction cs as [|c cs IH]; [done|]. intros _ Hall.
  inversion Hall as [|? ? Hc Hcs]; subst.
  destruct cs as [|c' cs].
  - simpl. by apply split_on_single.
  - change (join "/" (c :: c' :: cs)) with (c ++ String "/" (join "/" (c' :: cs)))%string.
    rewrite split_on_app by done. f_equal. by apply IH.
Qed.

Lemma filter_components cs :
  Forall component cs -> filter (fun c => c <> "" /\ c <> ".") cs = cs.
Proof.
  induction 1 as [|c cs (H1 & H2 & _) _ IH]; [done|].
  rewrite filter_cons, decide_True by done. by rewrite IH.
Qed.

Lemma Path_of_str_wf text : wf_path (Path_of_str text).
Proof.
  unfold wf_path, Path_of_str. simpl.
  pose proof (split_on_no_sep "/" text) as H.
  induction H as [|c cs Hc _ IH]; [constructor|].
  rewrite filter_cons. case_decide as Hd; [|done].
  constructor; [|done]. destruct Hd. by split_and!.
Qed.

Lemma join_head_not_slash c cs :
  component c -> startswith "/" (join "/" (c :: cs)) = false.
Proof.
  intros (Hne & _ & Hslash). destruct c as [|a c]; [done|].
  simpl in Hslash. apply orb_false_iff in Hslash as [Ha _].
  assert (Ascii.eqb "/" a = false) as Ha' by (by rewrite Ascii.eqb_sym).
  assert (forall r, startswith "/" (String a r) = false) as Hs.
  { intros r.
    change (startswith "/" (String a r))
      with (if Ascii.eqb "/" a then startswith "" r else false).
    by rewrite Ha'. }
  destruct cs; exact (Hs _).
Qed.

(** Printing a path and reading it back gives the same path. *)
Lemma Path_of_str_str p : wf_path p -> Path_of_str (str p) = p.
Proof.
  destruct p as [abs cs]. unfold wf_path, Path_of_str, str. cbn [parts absolute].
  intros Hwf.
  assert (Forall (fun c => contains_char "/" c = false) cs) as Hns.
  { eapply Forall_impl; [exact Hwf|]. by intros c (_ & _ & ?). }
  destruct abs.
  - destruct cs as [|c cs]; [done|]. f_equal.
    change (split_on "/" ("/" ++ join "/" (c :: cs)))
      with ("" :: split_on "/" (join "/" (c :: cs))).
    rewrite split_on_join by done.
    rewrite filter_cons, decide_False by (by intros [? _]).
    by apply filter_components.
  - destruct cs as [|c cs]; [done|].
    rewrite join_head_not_slash by (by inversion Hwf).
    f_equal. rewrite split_on_join by done. by apply filter_components.
Qed.

Lemma joinpath_wf a b : wf_path a -> wf_path b -> wf_path (joinpath a b).
Proof.
  unfold wf_path, joinpath. intros Ha Hb.
  destruct (absolute b); [done|]. simpl. by apply Forall_app.
Qed.

Lemma joinpath_empty p : joinpath p (Path_of_str "") = p.
Proof. destruct p as [abs cs]. unfold joinpath. simpl. by rewrite app_nil_r. Qed.

Lemma elem_of_removelast {A} (x : A) l : x ∈ removelast l -> x ∈ l.
Proof.
  induction l as [|y l IH]; simpl; [done|].
  destruct l as [|z l]; [by intros ?%elem_of_nil|].
  intros [->|H]%elem_of_cons; [left|right; by apply IH].
Qed.

Lemma fold_dotdot_no_dotdot cs : ".." ∉ fold_dotdot cs.
Proof.
  unfold fold_dotdot.
  assert (forall acc : list string, ".." ∉ acc ->
            ".." ∉ foldl (fun acc c => if decide (c = "..") then removelast acc
                                       else acc ++ [c]) acc cs) as H.
  { induction cs as [|c cs IH]; intros acc Hacc; simpl; [done|].
    apply IH. case_decide as Hc.
    - intros Hin. by apply Hacc, elem_of_removelast.
    - intros [Hin|Hin%list_elem_of_singleton]%elem_of_app; [done|]. by subst. }
  apply H. by intros ?%elem_of_nil.
Qed.

Section PathRules.
Context (w : World).
Hypothesis home_wf : wf_path (home w).

Lemma normalize_path_input_cases path_text :
  let trimmed := strip path_text in
  Path_of_str (normalize_path_input w path_text)
  = if decide (trimmed = "") then Path_of_str ""
    else if decide (trimmed = "~") then home w
    else if startswith "~/" trimmed
         then joinpath (home w) (Path_of_str (drop_str 2 trimmed))
    else Path_of_str trimmed.
Proof.
  intros trimmed. unfold normalize_path_input. fold trimmed.
  repeat case_decide; [by subst; rewrite ?H| |].
  - by apply Path_of_str_str.
  - destruct (startswith "~/" trimmed); [|done].
    apply Path_of_str_str, joinpath_wf; [done|apply Path_of_str_wf].
Qed.

End PathRules.


(** A remainder that begins with a slash replaces the home directory, as
    pathlib joins do. *)
Example tilde_then_absolute_remainder :
  resolve_maybe_absolute Example.world "~//etc" (mkPath true ["p"]) = mkPath true ["etc"].
Proof. reflexivity. Qed.



(** ** Headers and metadata injection *)

Lemma dict_get_set_eq {K V} `{EqDecision K} (k : K) (v : V) d :
  Dict.get k (Dict.set k v d) = Some v.
Proof.
  induction d as [|[k' v'] d IH]; simpl.
  - by rewrite decide_True.
  - case_decide; simpl; [by rewrite decide_True|by rewrite decide_False].
Qed.

Lemma dict_get_set_ne {K V} `{EqDecision K} (k k' : K) (v : V) d :
  k <> k' -> Dict.get k' (Dict.set k v d) = Dict.get k' d.
Proof.
  intros Hne. induction d as [|[k0 v0] d IH]; simpl.
  - by rewrite decide_False.
  - case_decide as E; simpl.
    + subst k0. by rewrite !decide_False.
    + by rewrite IH.
Qed.

Lemma dict_filter_set {K V} `{EqDecision K} (k : K) (v : V) d :
  filter (fun kv => kv.1 <> k) (Dict.set k v d) = filter (fun kv => kv.1 <> k) d.
Proof.
  induction d as [|[k0 v0] d IH]; simpl.
  - rewrite filter_cons, decide_False by (simpl; by intros ?). done.
  - case_decide as E.
    + subst k0. rewrite !filter_cons, !decide_False by (simpl; by intros ?). done.
    + rewrite !filter_cons, !decide_True by done. by rewrite IH.
Qed.

(** stdpp freezes [String.append] for [simpl]; the next proofs compute with
    it on literal prefixes. *)
#[local] Arguments String.append !_ _ / : simpl nomatch.

Lemma startswith_close_app s t :
  s <> "" ->
  startswith close_delim s = false ->
  startswith close_delim (s ++ close_delim ++ t) = false.
Proof.
  unfold close_delim, nl.
  destruct s as [|c1 s]; [done|]. intros _. cbn [String.append startswith].
  destruct (Ascii.eqb "010" c1); [|done].
  destruct s as [|c2 s]; cbn [String.append startswith]; [done|].
  destruct (Ascii.eqb "-" c2); [|done].
  destruct s as [|c3 s]; cbn [String.append startswith]; [done|].
  destruct (Ascii.eqb "-" c3); [|done].
  destruct s as [|c4 s]; cbn [String.append startswith]; [done|].
  destruct (Ascii.eqb "-" c4); done.
Qed.

(** A closing delimiter is found where it is put, when the text before it
    holds none. *)
Lemma find_close_app yaml_text rest :
  find_close yaml_text = None ->
  find_close (yaml_text ++ close_delim ++ rest) = Some (yaml_text, rest).
Proof.
  induction yaml_text as [|c s IH]; intros Hnone.
  - reflexivity.
  - assert (startswith close_delim (String c s) = false /\ find_close s = None)
      as [Hstart Hs].
    { revert Hnone. change (find_close (String c s))
        with (if startswith close_delim (String c s) then Some ("", drop_str 4 (String c s))
              else match find_close s with
                   | Some (pre, post) => Some (String c pre, post)
                   | None => None
                   end).
      destruct (startswith close_delim (String c s)); [done|].
      destruct (find_close s) as [[? ?]|]; done. }
    change (find_close (String c s ++ close_delim ++ rest))
      with (if startswith close_delim (String c s ++ close_delim ++ rest)
            then Some ("", drop_str 4 (String c s ++ close_delim ++ rest))
            else match find_close (s ++ close_delim ++ rest) with
                 | Some (pre, post) => Some (String c pre, post)
                 | None => None
                 end).
    rewrite startswith_close_app by done. by rewrite IH.
Qed.

Section HeaderFacts.
Context (lib : Lib) (w : World).

(** Parsing what [inject_fork_metadata] writes. *)
Lemma parse_rebuilt yaml_text body :
  find_close yaml_text = None ->
  parse_frontmatter lib ("---" ++ nl ++ yaml_text ++ nl ++ "---" ++ nl ++ body)
  = (match yaml_safe_load lib yaml_text with
     | Some (YMap items) => items
     | _ => []
     end, body).
Proof.
  intros Hnone. unfold parse_frontmatter.
  change (startswith open_delim ("---" ++ nl ++ yaml_text ++ nl ++ "---" ++ nl ++ body))
    with true. cbv iota.
  change (drop_str 4 ("---" ++ nl ++ yaml_text ++ nl ++ "---" ++ nl ++ body))
    with (yaml_text ++ nl ++ "---" ++ nl ++ body)%string.
  change (yaml_text ++ nl ++ "---" ++ nl ++ body)%string
    with (yaml_text ++ close_delim ++ (nl ++ body))%string.
  rewrite find_close_app by done. reflexivity.
Qed.

Lemma parse_unusable raw :
  header_unusable lib raw -> (parse_frontmatter lib raw).1 = [].
Proof.
  unfold parse_frontmatter.
  intros [H|H1 H2|y r H1 H2 H3|y r H1 H2 H3|y r v H1 H2 H3 H4];
    rewrite ?H, ?H1, ?H2; simpl; rewrite ?H3; try done.
  destruct v as [| |items]; try done. by destruct (H4 items).
Qed.

Lemma with_fork_metadata_get_name frontmatter source_entry :
  Dict.get (SStr "name") (with_fork_metadata w frontmatter source_entry)
  = Dict.get (SStr "name") frontmatter.
Proof. unfold with_fork_metadata. by apply dict_get_set_ne. Qed.

Lemma with_fork_metadata_others frontmatter source_entry :
  filter (fun kv => kv.1 <> SStr "metadata")
         (with_fork_metadata w frontmatter source_entry)
  = filter (fun kv => kv.1 <> SStr "metadata") frontmatter.
Proof. unfold with_fork_metadata. apply dict_filter_set. Qed.

Lemma with_fork_metadata_fork frontmatter source_entry :
  exists metadata,
    Dict.get (SStr "metadata") (with_fork_metadata w frontmatter source_entry)
    = Some (YMap metadata)
    /\ Dict.get (SStr "fork") metadata = Some (YMap (fork_record w source_entry)).
Proof.
  unfold with_fork_metadata. eexists. split; [apply dict_get_set_eq|].
  apply dict_get_set_eq.
Qed.

End HeaderFacts.

(** C10. A destination definition whose header block is malformed YAML, an
    empty mapping or not a mapping is treated like one with no header block:
    parsing gives the empty mapping in every such case and the injection
    raises the missing-frontmatter error, whatever delimiters the file
    holds. *)
Theorem inject_fork_metadata_unusable_header lib w fs destination_skill_md
    source_entry raw :
  Fs.read_text fs destination_skill_md = Ok raw ->
  header_unusable lib raw ->
  (parse_frontmatter lib raw).1 = []
  /\ inject_fork_metadata lib w fs destination_skill_md source_entry
     = Raise (RuntimeError ("Missing frontmatter in destination SKILL.md: "
                            ++ str destination_skill_md)).
Proof.
  intros Hread Hbad. pose proof (parse_unusable lib raw Hbad) as Hparse.
  split; [done|]. unfold inject_fork_metadata. rewrite Hread. simpl.
  destruct (parse_frontmatter lib raw) as [frontmatter body].
  simpl in Hparse. by subst frontmatter.
Qed.

Lemma inject_fork_metadata_unusable_header_witness :
  header_unusable Example3.lib Example3.list_header_text
  /\ inject_fork_metadata Example3.lib Example.world Example3.fs
       (mkPath true ["p"; ".brewva"; "skills"; "project"; "foo"; "SKILL.md"])
       Example2.foo_entry
     = Raise (RuntimeError
                "Missing frontmatter in destination SKILL.md: /p/.brewva/skills/project/foo/SKILL.md").
Proof.
  assert (header_unusable Example3.lib Example3.list_header_text) as Hbad.
  { apply (not_a_mapping Example3.lib Example3.list_header_text "- foo" (nl ++ "Body")
             (YSeq [YScalar (SStr "foo")])); [reflexivity..|]. discriminate. }
  split; [exact Hbad|].
  apply (inject_fork_metadata_unusable_header Example3.lib Example.world Example3.fs
           (mkPath true ["p"; ".brewva"; "skills"; "project"; "foo"; "SKILL.md"])
           Example2.foo_entry Example3.list_header_text); [reflexivity|exact Hbad].
Defined.

(** ** The workflow *)

Lemma bind_Next {A B} (m : M A) (k : A -> M B) st a st' :
  m st = (Next a, st') -> (m ≫= k) st = k a st'.
Proof. intros H. unfold mbind, M_bind. by rewrite H. Qed.

Lemma bind_Return {A B} (m : M A) (k : A -> M B) st code st' :
  m st = (Return code, st') -> (m ≫= k) st = (Return code, st').
Proof. intros H. unfold mbind, M_bind. by rewrite H. Qed.

Lemma bind_Uncaught {A B} (m : M A) (k : A -> M B) st e st' :
  m st = (Uncaught e, st') -> (m ≫= k) st = (Uncaught e, st').
Proof. intros H. unfold mbind, M_bind. by rewrite H. Qed.

Lemma state_eta st : mkState (st_fs st) (st_out st) = st.
Proof. by destruct st. Qed.

Lemma only_prints_print line : only_prints (Run.print line).
Proof. intros st. by exists [line]. Qed.

Lemma only_prints_ret : only_prints (mret tt).
Proof. intros st. exists []. by rewrite app_nil_r, state_eta. Qed.

Lemma only_prints_bind (m : M unit) (k : unit -> M unit) :
  only_prints m -> (forall u, only_prints (k u)) -> only_prints (m ≫= k).
Proof.
  intros Hm Hk st. destruct (Hm st) as [l1 H1].
  destruct (Hk tt (mkState (st_fs st) (st_out st ++ l1))) as [l2 H2].
  exists (l1 ++ l2). rewrite (bind_Next _ _ _ _ _ H1), H2. simpl.
  by rewrite app_assoc.
Qed.

Lemma only_prints_for_each {A} (items : list A) (f : A -> M unit) :
  (forall x, only_prints (f x)) -> only_prints (Run.for_each items f).
Proof.
  intros Hf. induction items as [|x items IH]; simpl.
  - apply only_prints_ret.
  - apply only_prints_bind; [apply Hf|]. by intros _.
Qed.

Lemma only_prints_when b m : only_prints m -> only_prints (Run.when b m).
Proof. intros Hm. destruct b; [done|apply only_prints_ret]. Qed.

Lemma only_prints_reads_only m : only_prints m -> reads_only m.
Proof. intros H st. destruct (H st) as [lines Hl]. by exists (Next tt), lines. Qed.

Lemma reads_only_ret {A} (a : A) : reads_only (mret a : M A).
Proof. intros st. exists (Next a), []. by rewrite app_nil_r, state_eta. Qed.

Lemma reads_only_return {A} code : reads_only (Run.return_ code : M A).
Proof. intros st. exists (Return code), []. by rewrite app_nil_r, state_eta. Qed.

Lemma reads_only_raise {A} e : reads_only (Run.raise e : M A).
Proof. intros st. exists (Uncaught e), []. by rewrite app_nil_r, state_eta. Qed.

Lemma reads_only_get_fs : reads_only Run.get_fs.
Proof. intros st. exists (Next (st_fs st)), []. by rewrite app_nil_r, state_eta. Qed.

Lemma reads_only_bind {A B} (m : M A) (k : A -> M B) :
  reads_only m -> (forall a, reads_only (k a)) -> reads_only (m ≫= k).
Proof.
  intros Hm Hk st. destruct (Hm st) as (r & l1 & H1). destruct r as [a|code|e].
  - destruct (Hk a (mkState (st_fs st) (st_out st ++ l1))) as (r2 & l2 & H2).
    exists r2, (l1 ++ l2). rewrite (bind_Next _ _ _ _ _ H1), H2. simpl.
    by rewrite app_assoc.
  - exists (Return code), l1. by rewrite (bind_Return _ _ _ _ _ H1).
  - exists (Uncaught e), l1. by rewrite (bind_Uncaught _ _ _ _ _ H1).
Qed.

Lemma reads_only_fs {A} (m : M A) st r st' :
  reads_only m -> m st = (r, st') ->
  st_fs st' = st_fs st /\ exists lines, st_out st' = st_out st ++ lines.
Proof.
  intros Hm Hrun. destruct (Hm st) as (r0 & lines & H0).
  rewrite Hrun in H0. simplify_eq. simpl. eauto.
Qed.

Create HintDb run.

#[local] Hint Resolve only_prints_print only_prints_ret only_prints_bind
  only_prints_for_each only_prints_when reads_only_ret reads_only_return
  reads_only_raise reads_only_get_fs reads_only_bind only_prints_reads_only : run.

(** Running the straight-line steps of the monad inside a hypothesis. *)
Ltac run_in H :=
  unfold mbind, M_bind, Run.print, Run.return_, Run.raise, Run.get_fs, mret, M_ret in H;
  simplify_eq.

Section MainFacts.
Context (lib : Lib) (w : World) (args : Args.t).

Lemma only_prints_print_verbose config_files roots packs disabled skill_name all_entries :
  only_prints (print_verbose config_files roots packs disabled skill_name all_entries).
Proof.
  unfold print_verbose.
  repeat (first [ apply only_prints_bind; [|intros _]
                | apply only_prints_for_each; intros ?
                | apply only_prints_print
                | case_match ]).
Qed.

Lemma reads_only_find_source fs cwd skill_name loaded disabled_set :
  reads_only (find_source lib w args fs cwd skill_name loaded disabled_set).
Proof.
  unfold find_source. repeat case_match; eauto 10 with run.
Qed.

Lemma reads_only_plan : reads_only (plan lib w args).
Proof.
  unfold plan. case_decide; [eauto 10 with run|].
  apply reads_only_bind; [apply reads_only_get_fs|]. intros fs.
  destruct (load_skill_settings _ _ _ _ _) as [[[packs croots] disabled] cfgs].
  apply reads_only_bind; [case_match; eauto with run|]. intros roots.
  destruct (load_registry _ _ _ _ _) as [loaded all_entries].
  apply reads_only_bind.
  { apply only_prints_reads_only, only_prints_when, only_prints_print_verbose. }
  intros _. apply reads_only_bind; [apply reads_only_find_source|]. intros e.
  destruct (destination_of _ _ _ _ _ _) as [[[droot dsrc] dtier] ddir].
  eauto 20 with run.
Qed.

(** What a plan that reaches the gates holds. *)
Lemma plan_Next st p st' :
  plan lib w args st = (Next p, st') ->
  let skill_name := strip (Args.skill_name args) in
  let cwd := mkPath true (getcwd w) in
  let settings := load_skill_settings lib w (st_fs st) cwd (Args.config_path args) in
  skill_name <> ""
  /\ p = mkPlan skill_name cwd settings.1.1.1 settings.1.1.2 settings.1.2
                (plan_source_entry p)
                (destination_of w args (st_fs st) cwd skill_name (plan_source_entry p)).2
  /\ exists roots,
       discover_skill_roots w (st_fs st) cwd settings.1.1.2 = Ok roots
       /\ match truthy (Args.source_path args) with
          | Some source_path =>
              resolve_explicit_source lib w (st_fs st) skill_name source_path cwd
              = Ok (plan_source_entry p)
          | None =>
              (load_registry lib w (st_fs st) roots settings.1.1.1).1 !! skill_name
              = Some (plan_source_entry p)
          end.
Proof.
  intros Hplan skill_name cwd settings. unfold plan in Hplan.
  fold skill_name in Hplan. fold cwd in Hplan.
  case_decide as Hname; [done|]. split; [done|].
  unfold mbind at 1, M_bind at 1 in Hplan. cbn [Run.get_fs] in Hplan.
  fold settings in Hplan.
  destruct settings as [[[packs croots] disabled] cfgs]. cbn [fst snd].
  destruct (discover_skill_roots_ok w (st_fs st) cwd croots) as (roots & Hroots & _).
  rewrite Hroots in Hplan.
  unfold mbind at 1, M_bind at 1 in Hplan. cbn [mret M_ret] in Hplan.
  destruct (load_registry lib w (st_fs st) roots packs) as [loaded all_entries] eqn:Ereg.
  destruct (only_prints_when (Args.verbose args) _
              (only_prints_print_verbose cfgs roots packs disabled skill_name all_entries) st)
    as [l1 Hv].
  rewrite (bind_Next _ _ _ _ _ Hv) in Hplan.
  destruct (find_source lib w args (st_fs st) cwd skill_name loaded (list_to_set disabled)
              (mkState (st_fs st) (st_out st ++ l1))) as [[e|code|err] st1] eqn:Esrc;
    [rewrite (bind_Next _ _ _ _ _ Esrc) in Hplan
    |by rewrite (bind_Return _ _ _ _ _ Esrc) in Hplan
    |by rewrite (bind_Uncaught _ _ _ _ _ Esrc) in Hplan].
  destruct (destination_of w args (st_fs st) cwd skill_name e)
    as [[[droot dsrc] dtier] ddir] eqn:Edest.
  assert (p = mkPlan skill_name cwd packs croots disabled e ddir) as ->.
  { run_in Hplan. done. }
  cbn [plan_source_entry]. rewrite Edest. split; [done|].
  exists roots. split; [done|]. rewrite Ereg. cbn [fst].
  unfold find_source in Esrc. destruct (truthy (Args.source_path args)) as [sp|].
  - destruct (resolve_explicit_source lib w (st_fs st) skill_name sp cwd) as [e'|[]];
      run_in Esrc; done.
  - destruct (loaded !! skill_name) as [e'|]; [|run_in Esrc; done].
    destruct (only_prints_when (bool_decide (skill_name ∈ (list_to_set disabled : gset string)))
                _ (only_prints_print
                     ("⚠️ Note: '" ++ skill_name
                      ++ "' is listed in skills.disabled and is currently inactive at runtime."))
                (mkState (st_fs st) (st_out st ++ l1))) as [l2 Hw].
    rewrite (bind_Next _ _ _ _ _ Hw) in Esrc. run_in Esrc. done.
Qed.

End MainFacts.

Section GateFacts.
Context (lib : Lib) (w : World) (args : Args.t).

Lemma plan_fs st r st' :
  plan lib w args st = (r, st') -> st_fs st' = st_fs st.
Proof. intros H. by destruct (reads_only_fs _ _ _ _ (reads_only_plan lib w args) H). Qed.

Lemma read_text_is_file fs p raw : Fs.read_text fs p = Ok raw -> Fs.is_file fs p = true.
Proof.
  unfold Fs.read_text, Fs.is_file.
  destruct (Fs.node_at fs p) as [[|[] ?]|]; by intros ?.
Qed.

(** An explicit source whose name differs from the requested one ends the
    plan with the error line, whatever was printed before. *)
Lemma plan_explicit_error st source_path msg :
  strip (Args.skill_name args) <> "" ->
  truthy (Args.source_path args) = Some source_path ->
  resolve_explicit_source lib w (st_fs st) (strip (Args.skill_name args)) source_path
    (mkPath true (getcwd w)) = Raise (RuntimeError msg) ->
  exists lines,
    plan lib w args st
    = (Return 1, mkState (st_fs st) (st_out st ++ lines ++ [("❌ Error: " ++ msg)%string])).
Proof.
  intros Hname Hsp Hraise. unfold plan. rewrite decide_False by done.
  unfold mbind at 1, M_bind at 1. cbn [Run.get_fs].
  destruct (load_skill_settings lib w (st_fs st) _ _) as [[[packs croots] disabled] cfgs].
  destruct (discover_skill_roots_ok w (st_fs st) (mkPath true (getcwd w)) croots)
    as (roots & Hroots & _).
  rewrite Hroots. unfold mbind at 1, M_bind at 1. cbn [mret M_ret].
  destruct (load_registry lib w (st_fs st) roots packs) as [loaded all_entries].
  destruct (only_prints_when (Args.verbose args) _
              (only_prints_print_verbose cfgs roots packs disabled
                 (strip (Args.skill_name args)) all_entries) st) as [l1 Hv].
  rewrite (bind_Next _ _ _ _ _ Hv). exists l1.
  apply bind_Return. unfold find_source. rewrite Hsp, Hraise.
  unfold mbind, M_bind, Run.print, Run.return_. cbn [st_fs st_out].
  by rewrite app_assoc.
Qed.

End GateFacts.

(** C4. When the plan reaches the gates with a destination directory that
    exists and force was not requested, [main] returns 1 after printing the
    destination-exists error, and the file system is the one it started
    with.  The destination is the resolved path of the skill name under the
    tier directory of the destination root. *)
Theorem destination_exists_gate lib w args st p st' :
  plan lib w args st = (Next p, st') ->
  Fs.exists_ (st_fs st) p.(plan_destination_skill_dir) = true ->
  Args.force args = false ->
  p.(plan_destination_skill_dir)
  = resolved w
      (joinpath
         (child (resolve_destination_skill_root w (st_fs st) (Args.target_path args)
                   (mkPath true (getcwd w))).1
                (TIER_DIRS (default p.(plan_source_entry).(tier) (Args.tier args))))
         (Path_of_str (strip (Args.skill_name args))))
  /\ main lib w args st
     = (Return 1,
        mkState (st_fs st)
          (st_out st'
           ++ [("❌ Error: Destination already exists: "
                ++ str p.(plan_destination_skill_dir))%string;
               "   Use --force to overwrite."])).
Proof.
  intros Hplan Hexists Hforce. split.
  - destruct (plan_Next lib w args st p st' Hplan) as (_ & Hp & _).
    rewrite Hp at 1. cbn [plan_destination_skill_dir]. unfold destination_of.
    by destruct (resolve_destination_skill_root _ _ _ _).
  - pose proof (plan_fs lib w args st _ st' Hplan) as Hfs.
    unfold main. rewrite (bind_Next _ _ _ _ _ Hplan).
    unfold mbind at 1, M_bind at 1. cbn [Run.get_fs].
    rewrite Hfs, Hexists, Hforce. cbn [negb andb].
    unfold mbind, M_bind, Run.print, Run.return_. cbn [st_fs st_out].
    by rewrite Hfs, <- app_assoc.
Qed.

Lemma destination_exists_gate_witness :
  (main Example2.lib Example.world Example4.fork_foo (mkState Example.project_fs [])).1
  = Return 1
  /\ st_fs (main Example2.lib Example.world Example4.fork_foo
              (mkState Example.project_fs [])).2 = Example.project_fs.
Proof.
  set (st := mkState Example.project_fs []).
  set (r := plan Example2.lib Example.world Example4.fork_foo st).
  assert (plan Example2.lib Example.world Example4.fork_foo st
          = (Next (Example4.from_next Example4.no_plan r.1), r.2)) as Hplan
    by (vm_compute; reflexivity).
  destruct (destination_exists_gate Example2.lib Example.world Example4.fork_foo
              st _ _ Hplan) as [_ Hmain]; [vm_compute; reflexivity|reflexivity|].
  rewrite Hmain. split; reflexivity.
Defined.



Lemma lookup_foldl_delete {V} (m : gmap string V) (names : list string) k :
  foldl (fun loaded n => delete n loaded) m names !! k
  = if decide (k ∈ names) then None else m !! k.
Proof.
  revert m. induction names as [|n names IH]; intros m; cbn [foldl].
  - rewrite decide_False; [done|]. by intros ?%elem_of_nil.
  - rewrite IH. destruct (decide (k ∈ names)) as [Hin|Hnin].
    + rewrite decide_True; [done|]. by right.
    + destruct (decide (k = n)) as [->|Hne].
      * rewrite lookup_delete_eq, decide_True; [done|]. by left.
      * rewrite lookup_delete_ne by done. rewrite decide_False; [done|].
        by intros [?|?]%elem_of_cons.
Qed.

Section VerifyFacts.
Context (lib : Lib) (w : World) (args : Args.t).

(** The last step of [main]: what it looks up, what it returns and the
    first line it prints. *)
Lemma verify_run cwd configured_roots packs disabled skill_name
    destination_skill_dir destination_skill_md st :
  exists roots lines,
    discover_skill_roots w (st_fs st) cwd configured_roots = Ok roots
    /\ let effective :=
         if decide (skill_name ∈ disabled) then None
         else (load_registry lib w (st_fs st) roots packs).1 !! skill_name in
       let active := is_active w effective destination_skill_dir in
       verify lib w args cwd configured_roots packs disabled skill_name
         destination_skill_dir destination_skill_md st
       = (Return (if active then 0 else if Args.allow_inactive args then 0 else 2)%Z,
          mkState (st_fs st) (st_out st ++ lines))
       /\ head lines
          = Some (if active then "✅ Active override confirmed:"
                  else "⚠️ Fork created, but it is not currently the effective skill.").
Proof.
  destruct (discover_skill_roots_ok w (st_fs st) cwd configured_roots)
    as (roots & Hroots & _).
  exists roots.
  assert (refreshed_effective lib w (st_fs st) cwd configured_roots packs disabled
            skill_name
          = Ok (if decide (skill_name ∈ disabled) then None
                else (load_registry lib w (st_fs st) roots packs).1 !! skill_name))
    as Heff.
  { unfold refreshed_effective. rewrite Hroots. cbn [rbind].
    destruct (load_registry lib w (st_fs st) roots packs) as [loaded all_entries].
    by rewrite lookup_foldl_delete. }
  unfold verify. unfold mbind at 1, M_bind at 1. cbn [Run.get_fs]. rewrite Heff.
  set (effective := if decide (skill_name ∈ disabled) then None
                    else (load_registry lib w (st_fs st) roots packs).1 !! skill_name).
  unfold mbind at 1, M_bind at 1. cbn [mret M_ret].
  destruct (is_active w effective destination_skill_dir) eqn:Eactive.
  - eexists. split; [done|].
    split; [unfold mbind, M_bind, Run.print, Run.return_; cbn [st_fs st_out];
            rewrite <- !app_assoc; reflexivity
           |reflexivity].
  - destruct effective as [e|];
      (destruct (bool_decide (skill_name ∈ (list_to_set disabled : gset string)));
       destruct (Args.allow_inactive args);
       eexists; (split; [done|]);
       (split; [unfold mbind, M_bind, Run.print, Run.return_, mret, M_ret;
                cbn [st_fs st_out negb]; rewrite <- !app_assoc; reflexivity
               |reflexivity])).
Qed.

End VerifyFacts.

(** C8. Once the copy, the metadata and the validation have gone through,
    [main] discovers the roots afresh on the file system as it is then,
    takes the effective entry of the forked name from the fresh registry
    with every disabled name removed, and reports the fork as active exactly
    when that entry exists and its resolved content directory is the
    resolved destination.  A disabled name is never active.  [main] returns
    0 when the fork is active or inactivity was allowed, and 2 otherwise. *)
Theorem main_reports_active lib w args st p st1 destination_skill_md st2 :
  plan lib w args st = (Next p, st1) ->
  Fs.exists_ (st_fs st) p.(plan_destination_skill_dir) && negb (Args.force args) = false ->
  Args.dry_run args = false ->
  materialize lib w args p.(plan_source_entry) p.(plan_destination_skill_dir) st1
  = (Next destination_skill_md, st2) ->
  exists roots lines,
    discover_skill_roots w (st_fs st2) p.(plan_cwd) p.(plan_configured_roots) = Ok roots
    /\ let effective :=
         if decide (p.(plan_skill_name) ∈ p.(plan_disabled)) then None
         else (load_registry lib w (st_fs st2) roots p.(plan_packs)).1
              !! p.(plan_skill_name) in
       let active :=
         match effective with
         | Some e => bool_decide (resolved w e.(base_dir)
                                  = resolved w p.(plan_destination_skill_dir))
         | None => false
         end in
       main lib w args st
       = (Return (if active then 0 else if Args.allow_inactive args then 0 else 2)%Z,
          mkState (st_fs st2) (st_out st2 ++ lines))
       /\ head lines
          = Some (if active then "✅ Active override confirmed:"
                  else "⚠️ Fork created, but it is not currently the effective skill.")
       /\ (p.(plan_skill_name) ∈ p.(plan_disabled) -> active = false).
Proof.
  intros Hplan Hgate Hdry Hmat.
  destruct (verify_run lib w args p.(plan_cwd) p.(plan_configured_roots) p.(plan_packs)
              p.(plan_disabled) p.(plan_skill_name) p.(plan_destination_skill_dir)
              destination_skill_md st2) as (roots & lines & Hroots & Hverify & Hhead).
  exists roots, lines. split; [done|]. cbv zeta. split_and!.
  - unfold main. rewrite (bind_Next _ _ _ _ _ Hplan).
    unfold mbind at 1, M_bind at 1. cbn [Run.get_fs].
    rewrite (plan_fs lib w args st _ st1 Hplan), Hgate, Hdry.
    rewrite (bind_Next _ _ _ _ _ Hmat). exact Hverify.
  - exact Hhead.
  - intros Hdis. by rewrite decide_True.
Qed.

Lemma main_reports_active_witness :
  (main Example2.lib Example.world Example4.fork_foo_force
     (mkState Example.project_fs [])).1 = Return 0.
Proof.
  set (st := mkState Example.project_fs []).
  set (r := plan Example2.lib Example.world Example4.fork_foo_force st).
  set (p := Example4.from_next Example4.no_plan r.1).
  assert (plan Example2.lib Example.world Example4.fork_foo_force st = (Next p, r.2))
    as Hplan by (vm_compute; reflexivity).
  set (m := materialize Example2.lib Example.world Example4.fork_foo_force
              (plan_source_entry p) (plan_destination_skill_dir p) r.2).
  assert (materialize Example2.lib Example.world Example4.fork_foo_force
            (plan_source_entry p) (plan_destination_skill_dir p) r.2
          = (Next (Example4.from_next (mkPath true []) m.1), m.2))
    as Hmat by (vm_compute; reflexivity).
  destruct (main_reports_active Example2.lib Example.world Example4.fork_foo_force
              st p r.2 (Example4.from_next (mkPath true []) m.1) m.2 Hplan)
    as (roots & lines & Hroots & Hmain & _);
    [vm_compute; reflexivity|reflexivity|exact Hmat|].
  assert (discover_skill_roots Example.world (st_fs m.2) (plan_cwd p)
            (plan_configured_roots p) = Ok [Example2.project_root_of_p]) as Hroots0
    by (vm_compute; reflexivity).
  rewrite Hroots0 in Hroots. injection Hroots as <-.
  rewrite Hmain. vm_compute. reflexivity.
Defined.

(** ** What the workflow catches *)

Lemma never_raises_ret {A} (a : A) : never_raises (mret a : M A).
Proof. by intros st e. Qed.

Lemma never_raises_return {A} code : never_raises (Run.return_ code : M A).
Proof. by intros st e. Qed.

Lemma never_raises_print line : never_raises (Run.print line).
Proof. by intros st e. Qed.

Lemma never_raises_get_fs : never_raises Run.get_fs.
Proof. by intros st e. Qed.

Lemma never_raises_bind {A B} (m : M A) (k : A -> M B) :
  never_raises m -> (forall a, never_raises (k a)) -> never_raises (m ≫= k).
Proof.
  intros Hm Hk st e. unfold mbind, M_bind.
  pose proof (Hm st) as Hm'. destruct (m st) as [[a|code|e'] st']; simpl in *.
  - apply Hk.
  - done.
  - by destruct (Hm' e').
Qed.

Lemma never_raises_when b m : never_raises m -> never_raises (Run.when b m).
Proof. intros Hm. destruct b; [done|apply never_raises_ret]. Qed.

Lemma never_raises_try_except {A} (body : M A) handler :
  (forall e, never_raises (handler e)) -> never_raises (Run.try_except body handler).
Proof.
  intros Hh st e. unfold Run.try_except.
  destruct (body st) as [[a|code|e'] st']; simpl; [done|done|apply Hh].
Qed.

Lemma never_raises_try_finally {A} (body : M A) cleanup :
  never_raises body -> never_raises (Run.try_finally body cleanup).
Proof.
  intros Hb st e. unfold Run.try_finally. pose proof (Hb st e) as H.
  by destruct (body st).
Qed.

(** Without the staging step, nothing in lines 537-575 lets an exception
    out: the copy and the injection are wrapped, the validator is run by
    [run_validation]. *)
Lemma materialize_without_staging_never_raises lib w args source_entry
    destination_skill_dir :
  Args.force args
  && bool_decide (resolved w source_entry.(base_dir) = resolved w destination_skill_dir)
  = false ->
  never_raises (materialize lib w args source_entry destination_skill_dir).
Proof.
  intros Hno. unfold materialize. rewrite Hno.
  apply never_raises_bind; [apply never_raises_ret|]. intros [src staged].
  apply never_raises_bind.
  { apply never_raises_try_finally, never_raises_try_except. intros e.
    apply never_raises_bind; [apply never_raises_print|]. intros _.
    apply never_raises_return. }
  intros _. apply never_raises_bind; [apply never_raises_get_fs|]. intros fs.
  apply never_raises_bind.
  { case_match; [|apply never_raises_ret].
    apply never_raises_bind; [apply never_raises_print|]. intros _.
    apply never_raises_return. }
  intros _. apply never_raises_bind.
  { apply never_raises_when, never_raises_try_except. intros e.
    apply never_raises_bind; [apply never_raises_print|]. intros _.
    apply never_raises_return. }
  intros _. apply never_raises_bind; [apply never_raises_get_fs|]. intros fs'.
  destruct (run_validation lib fs' destination_skill_dir) as [valid message].
  apply never_raises_bind; [|intros _; apply never_raises_ret].
  destruct valid; [apply never_raises_print|].
  apply never_raises_bind; [apply never_raises_print|]. intros _.
  apply never_raises_return.
Qed.

(** C9, at the failing input: forking [foo] onto itself with [--force] when
    a file of the skill cannot be read.  The staging copy is made before the
    [try] block, so its failure leaves [main] as an exception, with no exit
    code, and the staging directory stays behind. *)
Theorem staging_copy_failure_escapes :
  (main Example2.lib Example.world Example4.fork_foo_force
     (mkState Example4.unreadable_fs [])).1
  = Uncaught (OSError "shutil.Error")
  /\ Fs.is_dir (st_fs (main Example2.lib Example.world Example4.fork_foo_force
                         (mkState Example4.unreadable_fs [])).2)
               (mkdtemp Example.world) = true.
Proof. split; vm_compute; reflexivity. Qed.

(** The same failure in the copy to the destination is caught: [main]
    prints the error and returns 1. *)
Example destination_copy_failure_caught :
  (main Example2.lib Example.world Example4.fork_foo (mkState Example5.tool_fs [])).1
  = Return 1
  /\ last (st_out (main Example2.lib Example.world Example4.fork_foo
                     (mkState Example5.tool_fs [])).2)
     = Some "❌ Error: Failed to copy skill contents: shutil.Error".
Proof. split; vm_compute; reflexivity. Qed.

(** ** More on paths *)

Lemma fold_dotdot_from acc cs :
  ".." ∉ cs ->
  foldl (fun acc c => if decide (c = "..") then removelast acc else acc ++ [c]) acc cs
  = acc ++ cs.
Proof.
  revert acc. induction cs as [|c cs IH]; intros acc Hno; simpl.
  - by rewrite app_nil_r.
  - rewrite decide_False by (intros ->; apply Hno; left).
    rewrite IH by (intros H; apply Hno; by right).
    by rewrite <- app_assoc.
Qed.

Lemma fold_dotdot_id cs : ".." ∉ cs -> fold_dotdot cs = cs.
Proof. intros H. unfold fold_dotdot. by rewrite fold_dotdot_from. Qed.

Lemma resolved_absolute w p : absolute (resolved w p) = true.
Proof. done. Qed.

Lemma resolved_no_dotdot w p : ".." ∉ parts (resolved w p).
Proof. apply fold_dotdot_no_dotdot. Qed.

(** Resolving twice is resolving once. *)
Lemma resolved_idem w p : resolved w (resolved w p) = resolved w p.
Proof.
  unfold resolved, resolve. cbn [absolute parts]. f_equal.
  apply fold_dotdot_id, fold_dotdot_no_dotdot.
Qed.

Lemma resolved_fixed w p :
  absolute p = true -> ".." ∉ parts p -> resolved w p = p.
Proof.
  intros Habs Hno. destruct p as [a cs]. simpl in *. subst a.
  unfold resolved, resolve. cbn [absolute parts]. f_equal. by apply fold_dotdot_id.
Qed.

(** A plain name under a resolved directory is already resolved. *)
Lemma resolved_child w p c :
  c <> ".." -> Path_of_str c = mkPath false [c] ->
  resolved w (child (resolved w p) c) = child (resolved w p) c.
Proof.
  intros Hc Hpath. apply resolved_fixed.
  - unfold child. rewrite Hpath. done.
  - unfold child. rewrite Hpath. unfold joinpath. cbn [absolute parts].
    intros [H|H%list_elem_of_singleton]%elem_of_app; [|done].
    by apply (resolved_no_dotdot w p).
Qed.

Lemma child_parts p c :
  Path_of_str c = mkPath false [c] ->
  child p c = mkPath (absolute p) (parts p ++ [c]).
Proof. intros H. unfold child. rewrite H. done. Qed.

Lemma parent_child p c :
  Path_of_str c = mkPath false [c] -> parent (child p c) = p.
Proof.
  intros H. rewrite child_parts by done. unfold parent. cbn [absolute parts].
  rewrite removelast_last. by destruct p.
Qed.

Lemma name_of_child p c :
  Path_of_str c = mkPath false [c] -> name_of (child p c) = c.
Proof.
  intros H. rewrite child_parts by done. unfold name_of. cbn [parts].
  apply last_last.
Qed.

Lemma resolve_maybe_absolute_absolute w path_text base_dir :
  absolute (resolve_maybe_absolute w path_text base_dir) = true
  /\ ".." ∉ parts (resolve_maybe_absolute w path_text base_dir).
Proof.
  unfold resolve_maybe_absolute. case_match; (split; [done|apply resolved_no_dotdot]).
Qed.

(** ** Ancestor walk *)

Lemma ancestors_loop_acc n current out :
  ancestors_loop n current out = out ++ ancestors_loop n current [].
Proof.
  revert current out. induction n as [|n IH]; intros current out; simpl.
  - by rewrite app_nil_r.
  - case_decide; [done|]. rewrite (IH _ (out ++ [current])), (IH _ [current]).
    by rewrite <- app_assoc.
Qed.

Lemma removelast_take {A} (l : list A) : removelast l = take (length l - 1) l.
Proof. rewrite removelast_firstn_len. f_equal. lia. Qed.

Lemma removelast_length' {A} (l : list A) : length (removelast l) = length l - 1.
Proof. rewrite removelast_take, length_take. lia. Qed.

Lemma removelast_fixed {A} (l : list A) : removelast l = l <-> l = [].
Proof.
  split; [|by intros ->]. intros H. destruct l as [|x l]; [done|].
  apply (f_equal length) in H. rewrite removelast_length' in H. simpl in H. lia.
Qed.

Lemma parent_fixed p : parent p = p <-> parts p = [].
Proof.
  destruct p as [a cs]. unfold parent. cbn [absolute parts]. split.
  - intros H. injection H as H. by apply removelast_fixed.
  - by intros ->.
Qed.

Lemma ancestors_loop_spec n a cs :
  length (ancestors_loop n (mkPath a cs) []) = n `min` S (length cs)
  /\ forall i p, ancestors_loop n (mkPath a cs) [] !! i = Some p ->
       p = mkPath a (take (length cs - i) cs).
Proof.
  revert cs. induction n as [|n IH]; intros cs; [done|].
  cbn [ancestors_loop]. rewrite app_nil_l. case_decide as Htop.
  - apply parent_fixed in Htop. cbn [parts] in Htop. subst cs. split; [simpl; lia|].
    intros [|i] p Hp; cbn in Hp; [by simplify_eq|done].
  - rewrite ancestors_loop_acc.
    assert (cs <> []) as Hne by (intros ->; by apply Htop).
    unfold parent. cbn [absolute parts].
    destruct (IH (removelast cs)) as [Hlen Hat].
    assert (length (removelast cs) = length cs - 1) as Hrl by apply removelast_length'.
    assert (0 < length cs) by (destruct cs; [done|simpl; lia]).
    split.
    + cbn [app length]. rewrite Hlen, Hrl. lia.
    + intros [|i] p Hp.
      * cbn in Hp. simplify_eq. by rewrite Nat.sub_0_r, firstn_all.
      * cbn in Hp. apply Hat in Hp as ->. f_equal.
        rewrite Hrl, removelast_take, take_take. f_equal. lia.
Qed.

(** X1. The ancestor walk returns the resolved start directory followed by
    its parents, nearest first: the entry at position [i] is the start
    without its last [i] components.  It stops at the root or after
    [MAX_ANCESTOR_DEPTH] entries, whichever comes first. *)
Theorem collect_bounded_ancestors_prefixes w start_dir :
  let cs := parts (resolved w start_dir) in
  let ancestors := collect_bounded_ancestors w start_dir in
  length ancestors = MAX_ANCESTOR_DEPTH `min` S (length cs)
  /\ forall i, i < length ancestors ->
       ancestors !! i = Some (mkPath true (take (length cs - i) cs)).
Proof.
  intros cs ancestors. unfold ancestors, collect_bounded_ancestors.
  change (resolved w start_dir) with (mkPath true cs).
  destruct (ancestors_loop_spec MAX_ANCESTOR_DEPTH true cs) as [Hlen Hat].
  split; [done|]. intros i Hi.
  destruct (lookup_lt_is_Some_2 _ _ Hi) as [p Hp].
  rewrite Hp. f_equal. by apply Hat.
Qed.

Example collect_bounded_ancestors_deep :
  length (collect_bounded_ancestors Example.world
            (Path_of_str "/a/b/c/d/e/f/g/h/i/j/k/l")) = 10
  /\ last (collect_bounded_ancestors Example.world
             (Path_of_str "/a/b/c/d/e/f/g/h/i/j/k/l"))
     = Some (Path_of_str "/a/b/c").
Proof. split; reflexivity. Qed.

(** ** Skill directories and discovered roots *)

Lemma resolve_skill_directory_cases w fs root_dir found :
  resolve_skill_directory w fs root_dir = Some found ->
  has_tier_directories fs found = true
  /\ resolved w found = found
  /\ (found = resolved w root_dir \/ found = child (resolved w root_dir) "skills").
Proof.
  unfold resolve_skill_directory.
  destruct (has_tier_directories fs (resolved w root_dir)) eqn:E1.
  - intros [= <-]. split_and!; [done|apply resolved_idem|by left].
  - destruct (has_tier_directories fs (child (resolved w root_dir) "skills")) eqn:E2;
      [|done].
    intros [= <-]. rewrite resolved_child by done.
    split_and!; [done|by apply resolved_child|by right].
Qed.

(** X2. When a directory resolves to a skill directory, that directory is
    resolved, holds at least one tier directory, is the resolved input (when
    the input holds a tier directory) or else its [skills] subdirectory, and
    resolves to itself. *)
Theorem resolve_skill_directory_stable w fs root_dir found :
  resolve_skill_directory w fs root_dir = Some found ->
  has_tier_directories fs found = true
  /\ resolved w found = found
  /\ (if has_tier_directories fs (resolved w root_dir)
      then found = resolved w root_dir
      else found = child (resolved w root_dir) "skills")
  /\ resolve_skill_directory w fs found = Some found.
Proof.
  intros H. destruct (resolve_skill_directory_cases w fs root_dir found H)
    as (Htier & Hres & _).
  split_and!; [done|done| |].
  - unfold resolve_skill_directory in H.
    destruct (has_tier_directories fs (resolved w root_dir)); [by simplify_eq|].
    destruct (has_tier_directories fs (child (resolved w root_dir) "skills"));
      [|done].
    simplify_eq. by apply resolved_child.
  - unfold resolve_skill_directory. by rewrite Hres, Htier.
Qed.

Lemma resolve_skill_directory_stable_witness :
  resolve_skill_directory Example.world Example.project_fs (Path_of_str ".brewva")
  = Some Example.project_skills
  /\ resolve_skill_directory Example.world Example.project_fs Example.project_skills
     = Some Example.project_skills.
Proof.
  assert (resolve_skill_directory Example.world Example.project_fs (Path_of_str ".brewva")
          = Some Example.project_skills) as H by reflexivity.
  split; [exact H|].
  apply (resolve_skill_directory_stable Example.world Example.project_fs
           (Path_of_str ".brewva") Example.project_skills H).
Defined.

Section RootInvariant.
Context (w : World) (fs : FS).

Lemma registered_root_ok roots index dir src roots' index' :
  index_ok roots index ->
  ranked src ->
  Forall (root_ok w fs) roots ->
  registered w fs roots index dir src roots' index' ->
  Forall (root_ok w fs) roots'.
Proof.
  intros Hok Hsrc Hall Hreg.
  inversion Hreg as [Hnone|found Hfound Hfresh
                    |found i existing pn po Hfound Hidx Hex Hpn Hpo Hlt
                    |found i existing pn po Hfound Hidx Hex Hpn Hpo Hle]; subst; try done.
  - destruct (resolve_skill_directory_cases w fs dir found Hfound) as (Htier & Hres & Hor).
    apply Forall_app. split; [done|]. apply Forall_singleton.
    unfold root_ok. cbn [source skill_dir root_dir]. rewrite !Hres, resolved_idem.
    split_and!; [done..|].
    destruct Hor as [->| ->]; [by left|by right].
  - destruct (resolve_skill_directory_cases w fs dir found Hfound) as (Htier & Hres & Hor).
    assert (root_ok w fs existing) as (_ & Het & Her & _ & _).
    { rewrite Forall_forall in Hall. apply Hall. by eapply list_elem_of_lookup_2. }
    assert (str (skill_dir existing) = str found) as Hkey.
    { destruct (proj1 (Hok _ _) Hidx) as (r & Hr & Hk). simplify_eq.
      unfold root_key in Hk. by rewrite Hk, Hres. }
    apply Forall_insert; [done|].
    unfold root_ok. cbn [source skill_dir root_dir]. rewrite resolved_idem, Hkey.
    split_and!; [done..|].
    destruct Hor as [->| ->]; [by left|by right].
Qed.

Lemma append_all_root_ok src dirs roots index :
  index_ok roots index ->
  ranked src ->
  Forall (root_ok w fs) roots ->
  exists roots' index',
    append_all w fs src dirs (Ok (roots, index)) = Ok (roots', index')
    /\ index_ok roots' index'
    /\ Forall (root_ok w fs) roots'.
Proof.
  intros Hok Hsrc. revert roots index Hok.
  induction dirs as [|d dirs IH]; intros roots index Hok Hall.
  - exists roots, index. done.
  - assert (Forall (fun r => ranked r.(source)) roots) as Hranked.
    { eapply Forall_impl; [exact Hall|]. by intros r (? & _). }
    destruct (append_discovered_root_registered w fs roots index d src Hok Hsrc Hranked)
      as (r1 & i1 & Hstep & Hreg & Hok1 & _).
    change (append_all w fs src (d :: dirs) (Ok (roots, index)))
      with (append_all w fs src dirs
              (append_discovered_root w fs (roots, index) d src)).
    rewrite Hstep. apply (IH r1 i1 Hok1).
    exact (registered_root_ok roots index d src r1 i1 Hok Hsrc Hall Hreg).
Qed.

End RootInvariant.

(** X3. The roots that root discovery returns have pairwise distinct skill
    directories; each has one of the five ranked provenances, a resolved
    [skill_dir] that holds a tier directory, and a [skill_dir] that prints as
    its [root_dir] or as the [skills] directory under it. *)
Theorem discover_skill_roots_sound w fs cwd configured_roots roots :
  discover_skill_roots w fs cwd configured_roots = Ok roots ->
  NoDup ((fun r => str r.(skill_dir)) <$> roots)
  /\ Forall (root_ok w fs) roots.
Proof.
  unfold discover_skill_roots.
  destruct (append_all_root_ok w fs module_ancestor
              (rev (collect_bounded_ancestors w (module_dir w))) [] ∅)
    as (r1 & i1 & -> & Hok1 & Hall1); [apply index_ok_empty|done|done|].
  destruct (append_all_root_ok w fs exec_ancestor
              (rev (collect_bounded_ancestors w (exec_dir w))) r1 i1)
    as (r2 & i2 & -> & Hok2 & Hall2); [done..|].
  destruct (append_all_root_ok w fs global_root [resolve_global_brewva_root w cwd] r2 i2)
    as (r3 & i3 & -> & Hok3 & Hall3); [done..|].
  destruct (append_all_root_ok w fs project_root [resolve_project_brewva_root w cwd] r3 i3)
    as (r4 & i4 & -> & Hok4 & Hall4); [done..|].
  destruct (append_all_root_ok w fs config_root configured_roots r4 i4)
    as (r5 & i5 & -> & Hok5 & Hall5); [done..|].
  intros [= <-]. split; [|done]. by eapply index_ok_NoDup.
Qed.

Lemma discover_skill_roots_sound_witness :
  discover_skill_roots Example.world Example.project_fs (mkPath true ["p"]) []
  = Ok [Example2.project_root_of_p]
  /\ NoDup ((fun r => str r.(skill_dir)) <$> [Example2.project_root_of_p])
  /\ Forall (root_ok Example.world Example.project_fs) [Example2.project_root_of_p].
Proof.
  assert (discover_skill_roots Example.world Example.project_fs (mkPath true ["p"]) []
          = Ok [Example2.project_root_of_p]) as H by (vm_compute; reflexivity).
  split; [exact H|].
  exact (discover_skill_roots_sound Example.world Example.project_fs (mkPath true ["p"]) []
           [Example2.project_root_of_p] H).
Defined.

(** X4. A registration never moves or rewrites a recorded skill directory:
    the skill directories of the roots before are a prefix of those after,
    and the list grows by at most one root. *)
Theorem append_discovered_root_keeps_order w fs roots index dir src roots' index' :
  index_ok roots index ->
  ranked src ->
  Forall (fun r => ranked r.(source)) roots ->
  append_discovered_root w fs (roots, index) dir src = Ok (roots', index') ->
  (skill_dir <$> roots) `prefix_of` (skill_dir <$> roots')
  /\ length roots <= length roots' <= S (length roots).
Proof.
  intros Hok Hsrc Hall Hrun.
  destruct (append_discovered_root_registered w fs roots index dir src Hok Hsrc Hall)
    as (r1 & i1 & Hstep & Hreg & _).
  rewrite Hrun in Hstep. simplify_eq.
  inversion Hreg; subst.
  - split; [done|lia].
  - split; [rewrite fmap_app; by apply prefix_app_r|rewrite length_app; simpl; lia].
  - split; [|rewrite length_insert; lia].
    rewrite list_fmap_insert. cbn [skill_dir].
    rewrite list_insert_id; [done|]. by rewrite list_lookup_fmap, H1.
  - split; [done|lia].
Qed.

Lemma append_discovered_root_keeps_order_witness :
  (skill_dir <$> [Example.ancestor_root])
  `prefix_of` (skill_dir <$> [mkSkillRoot (mkPath true ["p"; ".brewva"])
                                Example.project_skills project_root]).
Proof.
  assert (index_ok [Example.ancestor_root] {[ "/p/.brewva/skills" := 0 ]}) as Hok.
  { apply (index_ok_append [] ∅ Example.ancestor_root index_ok_empty). reflexivity. }
  apply (append_discovered_root_keeps_order Example.world Example.project_fs
           [Example.ancestor_root] {[ "/p/.brewva/skills" := 0 ]}
           (mkPath true ["p"; ".brewva"]) project_root _ {[ "/p/.brewva/skills" := 0 ]} Hok).
  - discriminate.
  - repeat constructor; discriminate.
  - reflexivity.
Defined.

(** ** Settings *)

Lemma elem_of_normalize_string_array items fallback s :
  s ∈ normalize_string_array (Some (JArr items)) fallback
  <-> s <> "" /\ exists raw, JStr raw ∈ items /\ s = strip raw.
Proof.
  unfold normalize_string_array. rewrite list_elem_of_omap. split.
  - intros (item & Hin & Hs). destruct item as [| | |raw| |]; try done.
    case_decide as E; [done|]. simplify_eq. split; [done|]. by exists raw.
  - intros (Hne & raw & Hin & ->). exists (JStr raw). split; [done|].
    by rewrite decide_False.
Qed.

(** X5. From a JSON list [normalize_string_array] keeps exactly the trimmed
    string items that are not empty, and never the fallback, even when the
    list is empty; any value that is not a list gives the fallback. *)
Theorem normalize_string_array_members items fallback value :
  (forall s, s ∈ normalize_string_array (Some (JArr items)) fallback
             <-> s <> "" /\ exists raw, JStr raw ∈ items /\ s = strip raw)
  /\ normalize_string_array (Some (JArr [])) fallback = []
  /\ ((forall l, value <> Some (JArr l)) ->
      normalize_string_array value fallback = fallback).
Proof.
  split_and!.
  - intros s. apply elem_of_normalize_string_array.
  - reflexivity.
  - intros Hnot. unfold normalize_string_array.
    destruct value as [[| | | |l|]|]; try done. by destruct (Hnot l).
Qed.

Section SettingsFacts.
Context (lib : Lib) (w : World) (fs : FS).

Lemma load_settings_step_no_skills acc cfg :
  no_skills lib fs cfg -> load_settings_step lib w fs acc cfg = acc.
Proof.
  unfold no_skills, load_settings_step. destruct acc as [[packs croots] disabled].
  destruct (read_json_file lib fs cfg) as [[|kv loaded]|]; try done.
  destruct (Dict.get "skills" (kv :: loaded)) as [[| | | | |skills]|]; done.
Qed.

Lemma load_settings_step_skills acc cfg skills :
  skills_of lib fs cfg skills ->
  load_settings_step lib w fs acc cfg
  = (if Dict.get "packs" skills is Some _
     then normalize_string_array (Dict.get "packs" skills) acc.1.1 else acc.1.1,
     if Dict.get "roots" skills is Some roots
     then match roots with
          | JArr entries =>
              omap (fun entry =>
                      match entry with
                      | JStr s =>
                          if decide (strip s = "") then None
                          else Some (resolve_maybe_absolute w (strip s) (parent cfg))
                      | _ => None
                      end) entries
          | _ => []
          end
     else acc.1.2,
     if Dict.get "disabled" skills is Some _
     then normalize_string_array (Dict.get "disabled" skills) acc.2 else acc.2).
Proof.
  intros (loaded & Hread & Hne & Hskills). unfold load_settings_step.
  destruct acc as [[packs croots] disabled]. rewrite Hread.
  destruct loaded as [|kv loaded]; [done|]. by rewrite Hskills.
Qed.

End SettingsFacts.

(** X6. When no settings file contributes a [skills] object (missing,
    unreadable, malformed, not an object, empty, or without such an entry),
    the settings are the defaults: the four default packs, no extra roots
    and nothing disabled. *)
Theorem load_skill_settings_defaults lib w fs cwd config_path :
  Forall (no_skills lib fs) (load_skill_settings lib w fs cwd config_path).2 ->
  (load_skill_settings lib w fs cwd config_path).1 = (DEFAULT_PACKS, [], []).
Proof.
  unfold load_skill_settings.
  generalize (match truthy config_path with
              | Some config_path0 => [resolve_maybe_absolute w config_path0 cwd]
              | None => [child (resolve_global_brewva_root w cwd) "brewva.json";
                         child (resolve_project_brewva_root w cwd) "brewva.json"]
              end).
  intros files.
  assert (forall acc, Forall (no_skills lib fs) files ->
            foldl (load_settings_step lib w fs) acc files = acc) as Hfold.
  { induction files as [|f files IH]; intros acc Hall; [done|].
    inversion Hall; subst. simpl. rewrite load_settings_step_no_skills by done.
    by apply IH. }
  destruct (foldl (load_settings_step lib w fs) (DEFAULT_PACKS, [], []) files)
    as [[packs croots] disabled] eqn:E.
  cbn [fst snd]. intros Hall. rewrite Hfold in E by done. by simplify_eq.
Qed.

Lemma load_skill_settings_defaults_witness :
  load_skill_settings Example2.lib Example.world Example.project_fs
    (mkPath true ["p"]) None
  = (DEFAULT_PACKS, [], [],
     [mkPath true ["home"; "u"; ".config"; "brewva"; "brewva.json"];
      mkPath true ["p"; ".brewva"; "brewva.json"]]).
Proof.
  pose proof (load_skill_settings_defaults Example2.lib Example.world Example.project_fs
                (mkPath true ["p"]) None) as H.
  destruct (load_skill_settings Example2.lib Example.world Example.project_fs
              (mkPath true ["p"]) None) as [settings files] eqn:E.
  cbn [fst snd] in H. rewrite H.
  - f_equal. vm_compute in E. by injection E as _ <-.
  - vm_compute in E. injection E as _ <-. repeat constructor.
Defined.

Section SettingsFacts2.
Context (lib : Lib) (w : World).

Lemma read_json_file_node fs fs' cfg :
  Fs.node_at fs cfg = Fs.node_at fs' cfg ->
  read_json_file lib fs cfg = read_json_file lib fs' cfg.
Proof.
  intros H. unfold read_json_file, Fs.exists_, Fs.read_text. by rewrite H.
Qed.

Lemma load_settings_step_node fs fs' acc cfg :
  Fs.node_at fs cfg = Fs.node_at fs' cfg ->
  load_settings_step lib w fs acc cfg = load_settings_step lib w fs' acc cfg.
Proof.
  intros H. unfold load_settings_step. by rewrite (read_json_file_node fs fs' cfg H).
Qed.

Lemma skills_dichotomy fs cfg :
  no_skills lib fs cfg \/ exists skills, skills_of lib fs cfg skills.
Proof.
  unfold no_skills, skills_of.
  destruct (read_json_file lib fs cfg) as [[|kv loaded]|]; [by left|..|by left].
  destruct (Dict.get "skills" (kv :: loaded)) as [[| | | | |skills]|] eqn:E;
    try by left.
  right. exists skills, (kv :: loaded). done.
Qed.

Lemma load_skill_settings_files fs cwd config_path :
  (load_skill_settings lib w fs cwd config_path).2
  = match truthy config_path with
    | Some explicit_path => [resolve_maybe_absolute w explicit_path cwd]
    | None => [child (resolve_global_brewva_root w cwd) "brewva.json";
               child (resolve_project_brewva_root w cwd) "brewva.json"]
    end.
Proof.
  unfold load_skill_settings. by destruct (foldl _ _ _) as [[? ?] ?].
Qed.

Lemma load_skill_settings_fold fs cwd config_path :
  (load_skill_settings lib w fs cwd config_path).1
  = foldl (load_settings_step lib w fs) (DEFAULT_PACKS, [], [])
          (load_skill_settings lib w fs cwd config_path).2.
Proof.
  rewrite load_skill_settings_files. unfold load_skill_settings.
  by destruct (foldl _ _ _) as [[? ?] ?].
Qed.

End SettingsFacts2.


(** X8. The settings depend on the file system only through the settings
    files listed: two file systems that agree on those files give the same
    settings.  With [--config] that is the one file named, so the global and
    project files are not consulted. *)
Theorem load_skill_settings_reads_listed_files lib w fs fs' cwd config_path :
  Forall (fun cfg => Fs.node_at fs cfg = Fs.node_at fs' cfg)
         (load_skill_settings lib w fs cwd config_path).2 ->
  load_skill_settings lib w fs cwd config_path
  = load_skill_settings lib w fs' cwd config_path
  /\ (forall explicit_path, truthy config_path = Some explicit_path ->
        (load_skill_settings lib w fs cwd config_path).2
        = [resolve_maybe_absolute w explicit_path cwd]).
Proof.
  intros Hall.
  assert (forall files acc,
            Forall (fun cfg => Fs.node_at fs cfg = Fs.node_at fs' cfg) files ->
            foldl (load_settings_step lib w fs) acc files
            = foldl (load_settings_step lib w fs') acc files) as Hfold.
  { intros l. induction l as [|f l IH]; intros acc Hl; [done|].
    inversion Hl; subst. cbn [foldl].
    rewrite (load_settings_step_node lib w fs fs' acc f) by done. by apply IH. }
  split.
  - pose proof (load_skill_settings_fold lib w fs cwd config_path) as H1.
    pose proof (load_skill_settings_fold lib w fs' cwd config_path) as H2.
    pose proof (load_skill_settings_files lib w fs cwd config_path) as F1.
    pose proof (load_skill_settings_files lib w fs' cwd config_path) as F2.
    rewrite Hfold in H1 by done. rewrite F1, <- F2 in H1. rewrite <- H2 in H1.
    rewrite <- F2 in F1.
    destruct (load_skill_settings lib w fs cwd config_path),
             (load_skill_settings lib w fs' cwd config_path).
    cbn [fst snd] in *. by subst.
  - intros explicit_path He. by rewrite load_skill_settings_files, He.
Qed.


Lemma load_skill_settings_reads_listed_files_witness :
  load_skill_settings Example2.lib Example.world Example.project_fs (mkPath true ["p"]) None
  = load_skill_settings Example2.lib Example.world Example2.layered_fs
      (mkPath true ["p"]) None.
Proof.
  apply (load_skill_settings_reads_listed_files Example2.lib Example.world
           Example.project_fs Example2.layered_fs (mkPath true ["p"]) None).
  rewrite load_skill_settings_files. cbn [truthy].
  repeat constructor; vm_compute; reflexivity.
Defined.

Section SettingsInvariant.
Context (lib : Lib) (w : World) (fs : FS).

Lemma normalize_string_array_nonempty value fallback :
  Forall (fun s => s <> "") fallback ->
  Forall (fun s => s <> "") (normalize_string_array value fallback).
Proof.
  intros Hfb. destruct value as [[| | | |items|]|]; try done.
  apply Forall_forall. intros s Hs.
  by apply elem_of_normalize_string_array in Hs as [? _].
Qed.

Lemma load_settings_step_ok acc cfg :
  settings_ok acc -> settings_ok (load_settings_step lib w fs acc cfg).
Proof.
  intros (Hp & Hr & Hd).
  destruct (skills_dichotomy lib fs cfg) as [Hno|[skills Hsk]].
  - by rewrite load_settings_step_no_skills.
  - rewrite (load_settings_step_skills lib w fs acc cfg skills Hsk).
    unfold settings_ok. cbn [fst snd]. split_and!.
    + case_match; [by apply normalize_string_array_nonempty|done].
    + case_match; [|done]. case_match; try done.
      apply Forall_forall. intros p (entry & _ & Hp')%list_elem_of_omap.
      destruct entry; try done. case_decide; [done|]. simplify_eq.
      pose proof (resolve_maybe_absolute_absolute w (strip s) (parent cfg)) as [? ?].
      done.
    + case_match; [by apply normalize_string_array_nonempty|done].
Qed.

End SettingsInvariant.

(** X9. Whatever the settings files hold, the pack names and the disabled
    names that come out are never empty, and every configured root is an
    absolute path without [..]. *)
Theorem load_skill_settings_wellformed lib w fs cwd config_path :
  settings_ok (load_skill_settings lib w fs cwd config_path).1.
Proof.
  rewrite load_skill_settings_fold.
  generalize (load_skill_settings lib w fs cwd config_path).2. intros files.
  assert (settings_ok (DEFAULT_PACKS, [], [])) as Hinit.
  { split_and!; [repeat constructor; discriminate|constructor|constructor]. }
  revert Hinit. generalize (DEFAULT_PACKS, [] : list Path, [] : list string).
  induction files as [|f files IH]; intros acc Hacc; [done|].
  cbn [foldl]. apply IH. by apply load_settings_step_ok.
Qed.

(** ** Headers, once more *)

Lemma startswith_split p s :
  startswith p s = true -> s = (p ++ drop_str (String.length p) s)%string.
Proof.
  revert s. induction p as [|a p IH]; intros s; [done|].
  destruct s as [|b s]; [done|]. cbn [startswith].
  destruct (Ascii.eqb a b) eqn:E; [|done]. apply Ascii.eqb_eq in E as ->.
  intros H. cbn [String.length drop_str String.append]. f_equal. by apply IH.
Qed.

Lemma startswith_app p s t :
  startswith p s = true -> startswith p (s ++ t) = true.
Proof.
  revert s. induction p as [|a p IH]; intros s; [done|].
  destruct s as [|b s]; [done|]. cbn [startswith String.append].
  destruct (Ascii.eqb a b); [apply IH|done].
Qed.

Lemma find_close_unfold s :
  find_close s
  = if startswith close_delim s then Some (EmptyString, drop_str 4 s)
    else match s with
         | EmptyString => None
         | String c r =>
             match find_close r with
             | Some (pre, post) => Some (String c pre, post)
             | None => None
             end
         end.
Proof. by destruct s. Qed.

(** Where the closing delimiter is found: after a text that holds none. *)
Lemma find_close_Some s pre post :
  find_close s = Some (pre, post) ->
  s = (pre ++ close_delim ++ post)%string /\ find_close pre = None.
Proof.
  revert pre post. induction s as [|c s IH]; intros pre post.
  - rewrite find_close_unfold. done.
  - rewrite find_close_unfold.
    destruct (startswith close_delim (String c s)) eqn:Estart.
    + intros [= <- <-]. split; [|done].
      by apply (startswith_split close_delim (String c s)).
    + destruct (find_close s) as [[pre' post']|] eqn:Es; [|done].
      intros [= <- <-]. destruct (IH pre' post' eq_refl) as [-> Hnone].
      split; [done|]. rewrite find_close_unfold, Hnone.
      destruct (startswith close_delim (String c pre')) eqn:E2; [|done].
      apply (startswith_app _ _ (close_delim ++ post')) in E2.
      cbn [String.append] in E2. congruence.
Qed.

(** X10. [parse_frontmatter] either finds no header block and returns the
    empty mapping with the whole content as the body, or splits the content
    at the first closing delimiter: the content is the opening delimiter, a
    header text that holds no closing delimiter, the closing delimiter, one
    newline if there is one, and the body; the mapping is what PyYAML reads
    from the header text, or empty when that is not a mapping. *)
Theorem parse_frontmatter_decompose lib content :
  let frontmatter := (parse_frontmatter lib content).1 in
  let body := (parse_frontmatter lib content).2 in
  (frontmatter = [] /\ body = content
   /\ (startswith open_delim content = false \/ find_close (drop_str 4 content) = None))
  \/ exists yaml_text,
       find_close yaml_text = None
       /\ (content = ("---" ++ nl ++ yaml_text ++ nl ++ "---" ++ nl ++ body)%string
           \/ (content = ("---" ++ nl ++ yaml_text ++ nl ++ "---" ++ body)%string
               /\ startswith nl body = false))
       /\ frontmatter = match yaml_safe_load lib yaml_text with
                        | Some (YMap items) => items
                        | _ => []
                        end.
Proof.
  cbv zeta. unfold parse_frontmatter.
  destruct (startswith open_delim content) eqn:Eopen; [|left; auto].
  destruct (find_close (drop_str 4 content)) as [[yaml_text rest]|] eqn:Eclose;
    [|left; auto].
  right. exists yaml_text. cbn [fst snd].
  destruct (find_close_Some _ _ _ Eclose) as [Hsplit Hnone].
  apply (startswith_split open_delim content) in Eopen.
  change (String.length open_delim) with 4 in Eopen. rewrite Hsplit in Eopen.
  split_and!; [done| |done].
  destruct (startswith nl rest) eqn:Enl.
  - left. apply (startswith_split nl rest) in Enl.
    change (String.length nl) with 1 in Enl. rewrite Enl in Eopen. exact Eopen.
  - right. split; [exact Eopen|done].
Qed.

(** ** The rewritten file, byte by byte *)

Lemma byte_is_13 c : byte_is 13 c = Ascii.eqb c "013".
Proof. by destruct c as [[] [] [] [] [] [] [] []]. Qed.

Lemma contains_char_app a s t :
  contains_char a (s ++ t) = contains_char a s || contains_char a t.
Proof.
  induction s as [|c s IH]; [done|]. cbn [String.append contains_char].
  by rewrite IH, orb_assoc.
Qed.

(** A text without carriage returns is read as it is. *)
Lemma universal_newlines_id s :
  contains_char "013" s = false -> universal_newlines s = s.
Proof.
  induction s as [|c s IH]; [done|]. cbn [contains_char universal_newlines].
  intros [Hc Hs]%orb_false_iff. rewrite byte_is_13, Hc. by rewrite IH.
Qed.

(** No carriage return is left in a text that was read. *)
Lemma universal_newlines_no_cr s :
  contains_char "013" (universal_newlines s) = false.
Proof.
  assert (forall n s, String.length s <= n ->
                      contains_char "013" (universal_newlines s) = false) as H.
  { clear s. induction n as [|n IH]; intros s Hn.
    - destruct s; [done|simpl in Hn; lia].
    - destruct s as [|c s]; [done|]. cbn [universal_newlines]. simpl in Hn.
      destruct (byte_is 13 c) eqn:Ec.
      + cbn [contains_char]. change (Ascii.eqb "010" "013") with false. cbn [orb].
        destruct s as [|c' s']; [done|]. simpl in Hn.
        destruct (byte_is 10 c'); apply IH; simpl; lia.
      + cbn [contains_char]. rewrite <- byte_is_13, Ec. cbn [orb]. apply IH. lia. }
  by apply (H (String.length s)).
Qed.

(** A content with a usable header is the opening delimiter, a header text
    without a closing delimiter, the closing delimiter, one newline if there
    is one, and the body. *)
Lemma parse_frontmatter_split lib content frontmatter body :
  parse_frontmatter lib content = (frontmatter, body) ->
  frontmatter <> [] ->
  exists yaml_text,
    find_close yaml_text = None
    /\ (content = ("---" ++ nl ++ yaml_text ++ nl ++ "---" ++ nl ++ body)%string
        \/ (content = ("---" ++ nl ++ yaml_text ++ nl ++ "---" ++ body)%string
            /\ startswith nl body = false)).
Proof.
  unfold parse_frontmatter. intros Hparse Hne.
  destruct (startswith open_delim content) eqn:Eopen; [|by simplify_eq].
  destruct (find_close (drop_str 4 content)) as [[yaml_text rest]|] eqn:Eclose;
    [|by simplify_eq].
  cbv zeta in Hparse. exists yaml_text.
  destruct (find_close_Some _ _ _ Eclose) as [Hsplit Hnone].
  apply (startswith_split open_delim content) in Eopen.
  change (String.length open_delim) with 4 in Eopen. rewrite Hsplit in Eopen.
  split; [done|].
  destruct (startswith nl rest) eqn:Enl; injection Hparse as _ <-.
  - left. apply (startswith_split nl rest) in Enl.
    change (String.length nl) with 1 in Enl. rewrite Enl in Eopen. exact Eopen.
  - right. split; [exact Eopen|done].
Qed.

(** C7. When the destination definition parses to a non-empty mapping and
    PyYAML reads back what it printed, the injection succeeds, touches no
    other file, and writes the opening delimiter, the printed header, the
    closing delimiter and the body as it was read.  Re-parsing the rewritten
    file yields the header with the fork record and that body: [name] is
    unchanged, [metadata.fork] holds the source entry's name, tier, file,
    root and provenance with the timestamp, user and tool, and the entries
    under every other key are the same, in the same order.  The body was
    read with universal newlines, so its bytes are those of the file before
    when that file held no carriage return: it was then the opening
    delimiter, a header, the closing delimiter and these same body bytes. *)
Theorem inject_fork_metadata_roundtrip lib w fs destination_skill_md source_entry
    raw frontmatter body :
  Fs.read_text fs destination_skill_md = Ok raw ->
  parse_frontmatter lib raw = (frontmatter, body) ->
  frontmatter <> [] ->
  let forked := with_fork_metadata w frontmatter source_entry in
  let yaml_text := strip (yaml_safe_dump lib (YMap forked)) in
  find_close yaml_text = None ->
  contains_char "013" yaml_text = false ->
  yaml_safe_load lib yaml_text = Some (YMap forked) ->
  exists fs' rewritten,
    inject_fork_metadata lib w fs destination_skill_md source_entry = Ok fs'
    /\ (forall k, k <> parts destination_skill_md -> fs' !! k = fs !! k)
    /\ rewritten = ("---" ++ nl ++ yaml_text ++ nl ++ "---" ++ nl ++ body)%string
    /\ Fs.node_at fs' destination_skill_md = Some (File true rewritten)
    /\ Fs.read_text fs' destination_skill_md = Ok rewritten
    /\ parse_frontmatter lib rewritten = (forked, body)
    /\ Dict.get (SStr "name") forked = Dict.get (SStr "name") frontmatter
    /\ (exists metadata,
          Dict.get (SStr "metadata") forked = Some (YMap metadata)
          /\ Dict.get (SStr "fork") metadata
             = Some (YMap
                 [ (SStr "source_name", ystr source_entry.(name));
                   (SStr "source_tier", ystr (tier_str source_entry.(tier)));
                   (SStr "source_file", ystr (str source_entry.(file_path)));
                   (SStr "source_root", ystr (str source_entry.(root).(skill_dir)));
                   (SStr "source_origin", ystr (source_str source_entry.(root).(source)));
                   (SStr "forked_at", ystr (utc_now w));
                   (SStr "forked_by", ystr (environ_get w "USER"));
                   (SStr "tool", ystr "skill-creator/scripts/fork_skill.py") ]))
    /\ filter (fun kv => kv.1 <> SStr "metadata") forked
       = filter (fun kv => kv.1 <> SStr "metadata") frontmatter
    /\ (forall data,
          Fs.node_at fs destination_skill_md = Some (File true data) ->
          contains_char "013" data = false ->
          exists header,
            find_close header = None
            /\ (data = ("---" ++ nl ++ header ++ nl ++ "---" ++ nl ++ body)%string
                \/ (data = ("---" ++ nl ++ header ++ nl ++ "---" ++ body)%string
                    /\ startswith nl body = false))).
Proof.
  intros Hread Hparse Hne forked yaml_text Hclean Hcr Hload.
  assert (exists k0 ks data, parts destination_skill_md = k0 :: ks
                             /\ fs !! (k0 :: ks) = Some (File true data)
                             /\ raw = universal_newlines data)
    as (k0 & ks & data & Hk & Hnode & Hraw).
  { unfold Fs.read_text, Fs.node_at in Hread.
    destruct (parts destination_skill_md) as [|k0 ks]; [done|].
    exists k0, ks.
    destruct (fs !! (k0 :: ks)) as [[|[] data]|]; try done.
    exists data. by simplify_eq. }
  destruct (parse_frontmatter_split lib raw frontmatter body Hparse Hne)
    as (header & Hheader & Hsplit).
  assert (contains_char "013" body = false) as Hbody.
  { pose proof (universal_newlines_no_cr data) as Hno. rewrite <- Hraw in Hno.
    destruct Hsplit as [E|[E _]]; rewrite E, !contains_char_app in Hno;
      repeat (apply orb_false_iff in Hno as [_ Hno]); exact Hno. }
  set (rewritten := ("---" ++ nl ++ yaml_text ++ nl ++ "---" ++ nl ++ body)%string).
  assert (universal_newlines rewritten = rewritten) as Hsame.
  { apply universal_newlines_id. unfold rewritten.
    rewrite !contains_char_app, Hcr, Hbody. reflexivity. }
  exists (<[parts destination_skill_md := File true rewritten]> fs), rewritten.
  split_and!.
  - unfold inject_fork_metadata. rewrite Hread. cbn [rbind]. rewrite Hparse.
    destruct frontmatter as [|kv rest]; [done|].
    fold forked. fold yaml_text. fold rewritten.
    unfold Fs.write_text, Fs.node_at. rewrite Hk, Hnode. done.
  - intros k Hkne. by rewrite lookup_insert_ne.
  - done.
  - unfold Fs.node_at. rewrite Hk, <- Hk, lookup_insert_eq. done.
  - unfold Fs.read_text, Fs.node_at. rewrite Hk, <- Hk, lookup_insert_eq.
    by rewrite Hsame.
  - unfold rewritten. rewrite parse_rebuilt by done. by rewrite Hload.
  - apply with_fork_metadata_get_name.
  - apply with_fork_metadata_fork.
  - apply with_fork_metadata_others.
  - intros data' Hnode' Hcr'. unfold Fs.node_at in Hnode'. rewrite Hk, Hnode in Hnode'.
    injection Hnode' as <-. rewrite (universal_newlines_id data Hcr') in Hraw.
    subst raw. by exists header.
Qed.

Lemma inject_fork_metadata_roundtrip_witness :
  exists fs' rewritten,
    inject_fork_metadata Example2.lib Example.world Example.project_fs
      (mkPath true ["p"; ".brewva"; "skills"; "project"; "foo"; "SKILL.md"])
      Example2.foo_entry = Ok fs'
    /\ Fs.node_at fs'
         (mkPath true ["p"; ".brewva"; "skills"; "project"; "foo"; "SKILL.md"])
       = Some (File true rewritten)
    /\ Fs.read_text fs'
         (mkPath true ["p"; ".brewva"; "skills"; "project"; "foo"; "SKILL.md"])
       = Ok rewritten
    /\ parse_frontmatter Example2.lib rewritten = (Example2.forked_header, "Body").
Proof.
  destruct (inject_fork_metadata_roundtrip Example2.lib Example.world Example.project_fs
              (mkPath true ["p"; ".brewva"; "skills"; "project"; "foo"; "SKILL.md"])
              Example2.foo_entry Example.skill_text Example.header "Body")
    as (fs' & rewritten & H1 & _ & _ & H3 & H4 & H5 & _).
  - reflexivity.
  - reflexivity.
  - discriminate.
  - vm_compute. reflexivity.
  - vm_compute. reflexivity.
  - vm_compute. reflexivity.
  - exists fs', rewritten. split_and!; [exact H1|exact H3|exact H4|exact H5].
Defined.

(** C7, the counterexample.  A definition with Windows line endings is read
    with universal newlines and written back with line feeds alone: after
    the injection the file no longer ends with the bytes that followed its
    closing delimiter before. *)
Theorem crlf_body_not_byte_identical :
  let skill_md := mkPath true ["p"; ".brewva"; "skills"; "project"; "foo"; "SKILL.md"] in
  let old_body := ("Body" ++ Example10.cr ++ nl)%string in
  Fs.node_at Example10.crlf_fs skill_md
  = Some (File true ("---" ++ Example10.cr ++ nl ++ "name: foo" ++ Example10.cr ++ nl
                     ++ "---" ++ Example10.cr ++ nl ++ old_body))
  /\ exists fs' rewritten,
       inject_fork_metadata Example2.lib Example.world Example10.crlf_fs skill_md
         Example2.foo_entry = Ok fs'
       /\ Fs.node_at fs' skill_md = Some (File true rewritten)
       /\ rewritten
          = ("---" ++ nl ++ strip Example2.dumped ++ nl ++ "---" ++ nl ++ "Body" ++ nl)%string
       /\ forall head, rewritten <> (head ++ old_body)%string.
Proof.
  cbv zeta. split; [reflexivity|].
  set (rewritten :=
         ("---" ++ nl ++ strip Example2.dumped ++ nl ++ "---" ++ nl ++ "Body" ++ nl)%string).
  exists (<[ ["p"; ".brewva"; "skills"; "project"; "foo"; "SKILL.md"]
             := File true rewritten ]> Example10.crlf_fs), rewritten.
  split_and!.
  - vm_compute. reflexivity.
  - vm_compute. reflexivity.
  - reflexivity.
  - intros head E. apply (f_equal (contains_char "013")) in E.
    rewrite contains_char_app in E.
    assert (contains_char "013" rewritten = false) as Hnew by (vm_compute; reflexivity).
    assert (contains_char "013" ("Body" ++ Example10.cr ++ nl) = true) as Hold
      by (vm_compute; reflexivity).
    by rewrite Hnew, Hold, orb_true_r in E.
Qed.

(** ** Tier entries and the registry, once more *)

Lemma elem_of_sorted p l : p ∈ sorted l <-> p ∈ l.
Proof. unfold sorted. by rewrite (merge_sort_Permutation path_le l). Qed.

Lemma elem_of_rglob_skill_md fs d p :
  p ∈ Fs.rglob_skill_md fs d
  <-> absolute p = true
      /\ is_Some (fs !! parts p)
      /\ Fs.below (parts d) (parts p) = true
      /\ name_of p = "SKILL.md".
Proof.
  unfold Fs.rglob_skill_md, Fs.keys. rewrite list_elem_of_fmap. split.
  - intros (k & -> & Hk). apply list_elem_of_filter in Hk as [[Hb Hl] Hin].
    apply list_elem_of_fmap in Hin as ([k' n] & -> & Hin).
    apply elem_of_map_to_list in Hin. cbn [absolute parts fst] in *.
    split_and!; [done|by eexists|done|done].
  - intros (Ha & [n Hn] & Hb & Hl). exists (parts p). split.
    + destruct p as [a cs]. cbn in *. by subst.
    + apply list_elem_of_filter. split; [done|].
      apply list_elem_of_fmap. exists (parts p, n). split; [done|].
      by apply elem_of_map_to_list.
Qed.

(** X11. The entries of a tier directory are exactly the readable files
    named [SKILL.md] below it: each carries the tier and the root it was
    loaded for, the name its header declares (else its directory's name), its
    resolved path and its resolved directory.  The header is that of the
    file's bytes read with universal newlines.  A tier directory that is not
    a directory has no entries, and files that cannot be read give none. *)
Theorem load_tier_entries_members lib w fs tier_dir t r e :
  e ∈ load_tier_entries lib w fs tier_dir t r
  <-> Fs.is_dir fs tier_dir = true
      /\ exists skill_md raw,
           absolute skill_md = true
           /\ Fs.below (parts tier_dir) (parts skill_md) = true
           /\ name_of skill_md = "SKILL.md"
           /\ fs !! parts skill_md = Some (File true raw)
           /\ e = mkSkillEntry (entry_name (parse_frontmatter lib (universal_newlines raw)).1
                                 skill_md) t
                    (resolved w skill_md) (resolved w (parent skill_md)) r.
Proof.
  unfold load_tier_entries. destruct (Fs.is_dir fs tier_dir) eqn:Edir; cbn [negb].
  2:{ split; [by intros ?%elem_of_nil|by intros [? _]]. }
  rewrite list_elem_of_omap. split.
  - intros (skill_md & Hin & He). split; [done|].
    apply elem_of_sorted, elem_of_rglob_skill_md in Hin as (Ha & _ & Hb & Hn).
    assert (parts skill_md <> []) as Hne.
    { intros E. rewrite E in Hb. unfold Fs.below in Hb.
      apply andb_true_iff in Hb as [_ Hb]. apply bool_decide_eq_true in Hb.
      simpl in Hb. lia. }
    unfold Fs.read_text, Fs.node_at in He.
    destruct (parts skill_md) as [|k0 ks] eqn:Ek; [done|].
    destruct (fs !! (k0 :: ks)) as [[|[] raw]|] eqn:Enode; try done.
    destruct (parse_frontmatter lib (universal_newlines raw)) as [fm body] eqn:Eparse.
    exists skill_md, raw. rewrite Ek, Eparse. simplify_eq. done.
  - intros (_ & skill_md & raw & Ha & Hb & Hn & Hnode & ->).
    exists skill_md. split.
    + apply elem_of_sorted, elem_of_rglob_skill_md. by rewrite Hnode.
    + unfold Fs.read_text, Fs.node_at.
      destruct (parts skill_md) as [|k0 ks] eqn:Ek.
      { unfold Fs.below in Hb. apply andb_true_iff in Hb as [_ Hb].
        apply bool_decide_eq_true in Hb. simpl in Hb. lia. }
      rewrite Hnode. cbn [rbind].
      by destruct (parse_frontmatter lib (universal_newlines raw)).
Qed.

(** X12. The active packs are used as a set: two pack lists with the same
    members give the same registry and the same list of entries. *)
Theorem load_registry_packs_as_set lib w fs roots packs packs' :
  (forall x, x ∈ packs <-> x ∈ packs') ->
  load_registry lib w fs roots packs = load_registry lib w fs roots packs'.
Proof.
  intros Hsame. unfold load_registry.
  assert ((list_to_set packs : gset string) = list_to_set packs') as ->; [|done].
  apply set_eq. intros x. by rewrite !elem_of_list_to_set.
Qed.

Lemma load_registry_packs_as_set_witness :
  load_registry Example2.lib Example.world Example2.layered_fs [Example2.tool_root]
    ["react"; "vue"]
  = load_registry Example2.lib Example.world Example2.layered_fs [Example2.tool_root]
      ["vue"; "react"; "vue"].
Proof.
  apply (load_registry_packs_as_set Example2.lib Example.world Example2.layered_fs
           [Example2.tool_root] ["react"; "vue"] ["vue"; "react"; "vue"]).
  intros x. rewrite !elem_of_cons, !elem_of_nil. tauto.
Defined.

(** X13. The candidate chain printed for a name has one line for each entry
    of that name, and it is empty exactly when the registry has no effective
    entry for the name. *)
Theorem candidate_chain_matches_registry lib w fs roots packs skill_name :
  let loaded := (load_registry lib w fs roots packs).1 in
  let all_entries := (load_registry lib w fs roots packs).2 in
  length (format_candidate_chain skill_name all_entries)
  = length (filter (fun e => e.(name) = skill_name) all_entries)
  /\ (format_candidate_chain skill_name all_entries = [] <-> loaded !! skill_name = None).
Proof.
  intros loaded all_entries.
  assert (length (format_candidate_chain skill_name all_entries)
          = length (filter (fun e => e.(name) = skill_name) all_entries)) as Hlen.
  { unfold format_candidate_chain. by rewrite length_imap. }
  split; [done|].
  destruct (load_registry_spec lib w fs roots packs) as [Hreg _].
  specialize (Hreg skill_name). fold loaded in Hreg. fold all_entries in Hreg.
  split.
  - intros Hnil. rewrite Hnil in Hlen. simpl in Hlen.
    destruct (loaded !! skill_name) as [e|]; [|done].
    destruct Hreg as (before & after & Hsplit & Hname & _).
    assert (e ∈ filter (fun e => e.(name) = skill_name) all_entries) as Hin.
    { apply list_elem_of_filter. split; [done|]. rewrite Hsplit.
      apply elem_of_app. right. left. }
    destruct (filter _ all_entries); [by apply elem_of_nil in Hin|done].
  - intros Hnone. rewrite Hnone in Hreg.
    apply length_zero_iff_nil. rewrite Hlen. apply length_zero_iff_nil.
    destruct (filter _ all_entries) as [|e l] eqn:E; [done|].
    assert (e ∈ filter (fun e => e.(name) = skill_name) all_entries) as Hin
      by (rewrite E; left).
    apply list_elem_of_filter in Hin as [Hname Hin]. by destruct (Hreg e Hin).
Qed.

(** ** Sources and destinations *)

Lemma resolve_maybe_absolute_resolved w path_text base_dir :
  exists q, resolve_maybe_absolute w path_text base_dir = resolved w q.
Proof. unfold resolve_maybe_absolute. case_match; by eexists. Qed.

Lemma parent_resolved w p : resolved w (parent (resolved w p)) = parent (resolved w p).
Proof.
  apply resolved_fixed; [done|]. unfold parent. cbn [absolute parts].
  intros H%elem_of_removelast. by apply (resolved_no_dotdot w p).
Qed.

(** X14. An explicit source that resolves gives an entry with the requested
    name whose file is an existing [SKILL.md]; its content directory is that
    file's directory, its root is the synthetic [explicit] root at the
    directory above, and its tier is read off that directory's name: [base],
    [project], and [pack] for [packs] or anything else. *)
Theorem resolve_explicit_source_entry lib w fs skill_name source_path cwd e :
  resolve_explicit_source lib w fs skill_name source_path cwd = Ok e ->
  e.(name) = skill_name
  /\ name_of e.(file_path) = "SKILL.md"
  /\ Fs.is_file fs e.(file_path) = true
  /\ e.(base_dir) = parent e.(file_path)
  /\ e.(root) = mkSkillRoot (parent e.(base_dir)) (parent e.(base_dir)) explicit
  /\ e.(tier) = (if decide (name_of (parent e.(base_dir)) = "base") then base
                 else if decide (name_of (parent e.(base_dir)) = "project") then project
                 else pack)
  /\ (e.(file_path) = resolve_maybe_absolute w source_path cwd
      \/ e.(file_path) = child (resolve_maybe_absolute w source_path cwd) "SKILL.md").
Proof.
  unfold resolve_explicit_source.
  destruct (resolve_maybe_absolute_resolved w source_path cwd) as [q ->].
  set (skill_md := if Fs.is_dir fs (resolved w q) then child (resolved w q) "SKILL.md"
                   else resolved w q).
  assert (resolved w skill_md = skill_md) as Hres.
  { unfold skill_md. case_match; [by apply resolved_child|apply resolved_idem]. }
  assert (resolved w (parent skill_md) = parent skill_md) as Hpar.
  { rewrite <- Hres. apply parent_resolved. }
  destruct (Fs.is_file fs skill_md) eqn:Efile; [|done]. cbn [negb].
  case_decide as Hname; [done|].
  destruct (Fs.read_text fs skill_md) as [raw|err]; [|done]. cbn [rbind].
  destruct (parse_frontmatter lib raw) as [fm body].
  case_decide as Hdiff; [done|].
  intros [= <-]. cbn [name file_path base_dir root tier]. rewrite Hres, Hpar.
  split_and!; [done|done|done|done|done| |].
  - repeat case_decide; try done; congruence.
  - unfold skill_md. case_match; [by right|by left].
Qed.

Lemma resolve_explicit_source_entry_witness :
  exists e,
    resolve_explicit_source Example2.lib Example.world Example.project_fs "foo"
      ".brewva/skills/project/foo" (mkPath true ["p"]) = Ok e
    /\ e.(tier) = project
    /\ e.(base_dir) = mkPath true ["p"; ".brewva"; "skills"; "project"; "foo"].
Proof.
  eexists. split; [reflexivity|].
  destruct (resolve_explicit_source_entry Example2.lib Example.world Example.project_fs
              "foo" ".brewva/skills/project/foo" (mkPath true ["p"]) _ eq_refl)
    as (_ & _ & _ & Hbase & _ & Htier & _).
  split; [rewrite Htier; reflexivity|rewrite Hbase; reflexivity].
Defined.

(** X15. An explicit source whose [SKILL.md] exists but cannot be read does
    not end in an error line: [read_text] raises an exception that is not a
    [RuntimeError], the only kind [main] catches around the resolution, so it
    leaves [main] unhandled, with the file system untouched. *)
Theorem explicit_source_unreadable_escapes lib w args st source_path data :
  let skill_name := strip (Args.skill_name args) in
  let cwd := mkPath true (getcwd w) in
  let candidate := resolve_maybe_absolute w source_path cwd in
  let skill_md :=
    if Fs.is_dir (st_fs st) candidate then child candidate "SKILL.md" else candidate in
  skill_name <> "" ->
  truthy (Args.source_path args) = Some source_path ->
  name_of skill_md = "SKILL.md" ->
  Fs.node_at (st_fs st) skill_md = Some (File false data) ->
  exists lines,
    main lib w args st
    = (Uncaught (OSError "Permission denied"),
       mkState (st_fs st) (st_out st ++ lines)).
Proof.
  intros skill_name cwd candidate skill_md Hname Hsp Hmd Hnode.
  assert (resolve_explicit_source lib w (st_fs st) skill_name source_path cwd
          = Raise (OSError "Permission denied")) as Hraise.
  { unfold resolve_explicit_source. fold cwd. fold candidate. fold skill_md.
    unfold Fs.is_file, Fs.read_text. rewrite Hnode. cbn [negb].
    by rewrite decide_False by (by intros E). }
  assert (exists lines,
            plan lib w args st
            = (Uncaught (OSError "Permission denied"),
               mkState (st_fs st) (st_out st ++ lines))) as [lines Hplan].
  { unfold plan. rewrite decide_False by done.
    unfold mbind at 1, M_bind at 1. cbn [Run.get_fs].
    destruct (load_skill_settings lib w (st_fs st) _ _)
      as [[[packs croots] disabled] cfgs].
    destruct (discover_skill_roots_ok w (st_fs st) (mkPath true (getcwd w)) croots)
      as (roots & Hroots & _).
    rewrite Hroots. unfold mbind at 1, M_bind at 1. cbn [mret M_ret].
    destruct (load_registry lib w (st_fs st) roots packs) as [loaded all_entries].
    destruct (only_prints_when (Args.verbose args) _
                (only_prints_print_verbose cfgs roots packs disabled
                   (strip (Args.skill_name args)) all_entries) st) as [l1 Hv].
    rewrite (bind_Next _ _ _ _ _ Hv). exists l1.
    apply bind_Uncaught. unfold find_source. fold skill_name. fold cwd.
    by rewrite Hsp, Hraise. }
  exists lines. unfold main. by rewrite (bind_Uncaught _ _ _ _ _ Hplan).
Qed.

Lemma explicit_source_unreadable_escapes_witness :
  exists lines,
    main Example2.lib Example.world Example7.fork_from_unreadable
      (mkState Example7.unreadable_definition_fs [])
    = (Uncaught (OSError "Permission denied"),
       mkState Example7.unreadable_definition_fs lines).
Proof.
  destruct (explicit_source_unreadable_escapes Example2.lib Example.world
              Example7.fork_from_unreadable
              (mkState Example7.unreadable_definition_fs [])
              "/p/.brewva/skills/project/foo" "")
    as [lines H]; [discriminate|reflexivity|reflexivity|reflexivity|].
  exists lines. exact H.
Defined.

Lemma resolve_global_brewva_root_resolved w cwd :
  exists q, resolve_global_brewva_root w cwd = resolved w q.
Proof.
  unfold resolve_global_brewva_root. repeat case_decide; try by eexists.
  apply resolve_maybe_absolute_resolved.
Qed.

(** X16. The destination root is always a resolved absolute path, and it is
    either an existing skill tree (mode [explicit_existing], a directory that
    holds a tier directory) or a directory named [skills]: under the project
    directory when that exists and no path was given, else under the global
    directory, and under or at the given path otherwise. *)
Theorem resolve_destination_skill_root_shape w fs path_arg cwd :
  let destination := (resolve_destination_skill_root w fs path_arg cwd).1 in
  let mode := (resolve_destination_skill_root w fs path_arg cwd).2 in
  absolute destination = true
  /\ resolved w destination = destination
  /\ ((mode = "explicit_existing" /\ has_tier_directories fs destination = true)
      \/ (mode ∈ ["project_default"; "global_default"; "explicit_brewva_root";
                  "explicit_skills_root"; "explicit_generic"]
          /\ name_of destination = "skills"))
  /\ (truthy path_arg = None ->
      destination
      = child (if Fs.is_dir fs (resolve_project_brewva_root w cwd)
               then resolve_project_brewva_root w cwd
               else resolve_global_brewva_root w cwd) "skills").
Proof.
  cbv zeta. unfold resolve_destination_skill_root.
  assert (forall q, name_of (resolved w (child (resolved w q) "skills")) = "skills")
    as Hskills.
  { intros q. rewrite resolved_child by done. by apply name_of_child. }
  destruct (truthy path_arg) as [path_text|].
  - destruct (resolve_maybe_absolute_resolved w path_text cwd) as [q Hq].
    rewrite Hq.
    destruct (resolve_skill_directory w fs (resolved w q)) as [found|] eqn:Efound.
    + destruct (resolve_skill_directory_cases w fs _ _ Efound) as (Htier & Hres & _).
      cbn [fst snd]. rewrite Hres. split_and!; [by rewrite <- Hres|done| |done].
      by left.
    + repeat case_decide; cbn [fst snd];
        (split_and!; [done|apply resolved_idem| |done]);
        right; (split; [repeat (first [by left|right])|]);
        first [apply Hskills|by rewrite resolved_idem].
  - unfold resolve_project_brewva_root.
    destruct (resolve_global_brewva_root_resolved w cwd) as [g Hg]. rewrite Hg.
    case_match; cbn [fst snd];
      (split_and!; [done|apply resolved_idem| |intros _; by apply resolved_child]);
      right; (split; [repeat (first [by left|right])|apply Hskills]).
Qed.

(** ** Metadata, once more *)

Lemma dict_set_set {K V} `{EqDecision K} (k : K) (v v' : V) d :
  Dict.set k v' (Dict.set k v d) = Dict.set k v' d.
Proof.
  induction d as [|[k0 v0] d IH]; simpl.
  - by rewrite decide_True.
  - case_decide as E; simpl.
    + by rewrite decide_True.
    + rewrite decide_False by done. by rewrite IH.
Qed.

Lemma dict_set_keys {K V} `{EqDecision K} (k : K) (v : V) d :
  (Dict.set k v d).*1 = if Dict.get k d is Some _ then d.*1 else d.*1 ++ [k].
Proof.
  induction d as [|[k0 v0] d IH]; [done|]. cbn [Dict.set Dict.get].
  case_decide as E; [by subst|]. rewrite !fmap_cons, IH. by case_match.
Qed.

(** X17. Forking a fork does not stack records: injecting a second fork
    record into a header that already carries one gives the header the second
    injection alone would give.  The injection keeps the order of the header
    keys, adding [metadata] at the end only when it was missing, and keeps
    every other entry of an existing [metadata] mapping. *)
Theorem with_fork_metadata_overwrites w frontmatter first second :
  with_fork_metadata w (with_fork_metadata w frontmatter first) second
  = with_fork_metadata w frontmatter second
  /\ (with_fork_metadata w frontmatter second).*1
     = (if Dict.get (SStr "metadata") frontmatter is Some _ then frontmatter.*1
        else frontmatter.*1 ++ [SStr "metadata"])
  /\ (forall metadata,
        Dict.get (SStr "metadata") frontmatter = Some (YMap metadata) ->
        exists metadata',
          Dict.get (SStr "metadata") (with_fork_metadata w frontmatter second)
          = Some (YMap metadata')
          /\ filter (fun kv => kv.1 <> SStr "fork") metadata'
             = filter (fun kv => kv.1 <> SStr "fork") metadata).
Proof.
  split_and!.
  - unfold with_fork_metadata at 1 2. rewrite dict_get_set_eq, dict_set_set.
    unfold with_fork_metadata. by rewrite dict_set_set.
  - unfold with_fork_metadata. apply dict_set_keys.
  - intros metadata Hm. unfold with_fork_metadata. rewrite Hm.
    eexists. split; [apply dict_get_set_eq|apply dict_filter_set].
Qed.

(** ** Exit codes and writes *)

Lemma returns_in_ret {A} P (a : A) : returns_in P (mret a : M A).
Proof. by intros st code st' H. Qed.

Lemma returns_in_raise {A} P e : returns_in P (Run.raise e : M A).
Proof. by intros st code st' H. Qed.

Lemma returns_in_return {A} (P : Z -> Prop) code :
  P code -> returns_in P (Run.return_ code : M A).
Proof. intros HP st c st' H. unfold Run.return_ in H. by simplify_eq. Qed.

Lemma returns_in_print P line : returns_in P (Run.print line).
Proof. by intros st code st' H. Qed.

Lemma returns_in_get_fs P : returns_in P Run.get_fs.
Proof. by intros st code st' H. Qed.

Lemma returns_in_update_fs P f : returns_in P (Run.update_fs f).
Proof. intros st code st' H. unfold Run.update_fs in H. by case_match. Qed.

Lemma returns_in_copytree P src dst : returns_in P (Run.copytree src dst).
Proof.
  intros st code st' H. unfold Run.copytree in H.
  destruct (Fs.copytree (st_fs st) src dst) as [fs' [u|e]]; by simplify_eq.
Qed.

Lemma returns_in_bind {A B} P (m : M A) (k : A -> M B) :
  returns_in P m -> (forall a, returns_in P (k a)) -> returns_in P (m ≫= k).
Proof.
  intros Hm Hk st code st' H. unfold mbind, M_bind in H.
  destruct (m st) as [[a|c|e] st1] eqn:E.
  - by eapply Hk.
  - simplify_eq. by eapply Hm.
  - done.
Qed.

Lemma returns_in_when P b m : returns_in P m -> returns_in P (Run.when b m).
Proof. intros Hm. destruct b; [done|apply returns_in_ret]. Qed.

Lemma returns_in_try_except {A} P (body : M A) handler :
  returns_in P body -> (forall e, returns_in P (handler e)) ->
  returns_in P (Run.try_except body handler).
Proof.
  intros Hb Hh st code st' H. unfold Run.try_except in H.
  destruct (body st) as [[a|c|e] st1] eqn:E.
  - done.
  - simplify_eq. by eapply Hb.
  - by eapply Hh.
Qed.

Lemma returns_in_try_finally {A} P (body : M A) cleanup :
  returns_in P body -> returns_in P (Run.try_finally body cleanup).
Proof.
  intros Hb st code st' H. unfold Run.try_finally in H.
  destruct (body st) as [r st1] eqn:E. simplify_eq. by eapply Hb.
Qed.

Lemma returns_in_only_prints P m : only_prints m -> returns_in P m.
Proof. intros Hm st code st' H. destruct (Hm st) as [lines Hl]. congruence. Qed.

Section ExitCodes.
Context (lib : Lib) (w : World) (args : Args.t).

Lemma plan_returns_1 : returns_in (fun code => code = 1%Z) (plan lib w args).
Proof.
  unfold plan. case_decide.
  { apply returns_in_bind; [apply returns_in_print|]. intros _.
    by apply returns_in_return. }
  apply returns_in_bind; [apply returns_in_get_fs|]. intros fs.
  destruct (load_skill_settings _ _ _ _ _) as [[[packs croots] disabled] cfgs].
  apply returns_in_bind; [case_match; [apply returns_in_ret|apply returns_in_raise]|].
  intros roots. destruct (load_registry _ _ _ _ _) as [loaded all_entries].
  apply returns_in_bind.
  { apply returns_in_only_prints, only_prints_when, only_prints_print_verbose. }
  intros _. apply returns_in_bind.
  { unfold find_source. repeat case_match;
      repeat (first [ apply returns_in_ret | apply returns_in_raise
                    | by apply returns_in_return | apply returns_in_print
                    | apply returns_in_when
                    | apply returns_in_bind; [|intros ?] ]). }
  intros e. destruct (destination_of _ _ _ _ _ _) as [[[droot dsrc] dtier] ddir].
  repeat (first [ apply returns_in_ret | apply returns_in_print
                | apply returns_in_bind; [|intros ?] ]).
Qed.

Lemma materialize_returns_1 source_entry destination_skill_dir :
  returns_in (fun code => code = 1%Z)
             (materialize lib w args source_entry destination_skill_dir).
Proof.
  unfold materialize.
  apply returns_in_bind.
  { case_match; [|apply returns_in_ret].
    apply returns_in_bind.
    { unfold make_stage_dir. apply returns_in_bind; [apply returns_in_update_fs|].
      intros _. apply returns_in_ret. }
    intros d. apply returns_in_bind; [apply returns_in_copytree|]. intros _.
    apply returns_in_ret. }
  intros [src staged]. apply returns_in_bind.
  { apply returns_in_try_finally, returns_in_try_except.
    - repeat (first [ apply returns_in_get_fs | apply returns_in_update_fs
                    | apply returns_in_copytree | apply returns_in_when
                    | apply returns_in_bind; [|intros ?] ]).
    - intros e. apply returns_in_bind; [apply returns_in_print|]. intros _.
      by apply returns_in_return. }
  intros _. apply returns_in_bind; [apply returns_in_get_fs|]. intros fs.
  apply returns_in_bind.
  { case_match; [|apply returns_in_ret].
    apply returns_in_bind; [apply returns_in_print|]. intros _.
    by apply returns_in_return. }
  intros _. apply returns_in_bind.
  { apply returns_in_when, returns_in_try_except; [apply returns_in_update_fs|].
    intros e. apply returns_in_bind; [apply returns_in_print|]. intros _.
    by apply returns_in_return. }
  intros _. apply returns_in_bind; [apply returns_in_get_fs|]. intros fs'.
  destruct (run_validation lib fs' destination_skill_dir) as [valid message].
  apply returns_in_bind; [|intros _; apply returns_in_ret].
  destruct valid; [apply returns_in_print|].
  apply returns_in_bind; [apply returns_in_print|]. intros _.
  by apply returns_in_return.
Qed.

End ExitCodes.

(** X18. [main] returns 0, 1 or 2 and nothing else, and it returns 2 only
    when inactivity was not allowed. *)
Theorem main_exit_codes lib w args st code st' :
  main lib w args st = (Return code, st') ->
  code = 0%Z \/ code = 1%Z \/ (code = 2%Z /\ Args.allow_inactive args = false).
Proof.
  unfold main. intros H.
  destruct (plan lib w args st) as [[p|c|e] st1] eqn:Hplan.
  2:{ rewrite (bind_Return _ _ _ _ _ Hplan) in H. simplify_eq.
      right. left. by eapply plan_returns_1. }
  2:{ by rewrite (bind_Uncaught _ _ _ _ _ Hplan) in H. }
  rewrite (bind_Next _ _ _ _ _ Hplan) in H.
  unfold mbind at 1, M_bind at 1 in H. cbn [Run.get_fs] in H.
  destruct (Fs.exists_ (st_fs st1) (plan_destination_skill_dir p)
            && negb (Args.force args)).
  { run_in H. by right; left. }
  destruct (Args.dry_run args).
  { run_in H. by left. }
  destruct (materialize lib w args (plan_source_entry p)
              (plan_destination_skill_dir p) st1) as [[md|c|e] st2] eqn:Hmat.
  2:{ rewrite (bind_Return _ _ _ _ _ Hmat) in H. simplify_eq.
      right. left. by eapply materialize_returns_1. }
  2:{ by rewrite (bind_Uncaught _ _ _ _ _ Hmat) in H. }
  rewrite (bind_Next _ _ _ _ _ Hmat) in H.
  destruct (verify_run lib w args (plan_cwd p) (plan_configured_roots p) (plan_packs p)
              (plan_disabled p) (plan_skill_name p) (plan_destination_skill_dir p)
              md st2) as (roots & lines & _ & Hverify & _).
  cbv zeta in Hverify. rewrite Hverify in H. injection H as H _.
  destruct (is_active w _ _); [by left|].
  destruct (Args.allow_inactive args); [by left|]. right. right. done.
Qed.

Lemma main_exit_codes_witness :
  exists st',
    main Example2.lib Example.world Example4.fork_foo (mkState Example.project_fs [])
    = (Return 1%Z, st')
    /\ (1 = 0 \/ 1 = 1 \/ (1 = 2 /\ Args.allow_inactive Example4.fork_foo = false))%Z.
Proof.
  set (st := mkState Example.project_fs []).
  set (r := main Example2.lib Example.world Example4.fork_foo st).
  assert (main Example2.lib Example.world Example4.fork_foo st = (Return 1%Z, r.2)) as H
    by (vm_compute; reflexivity).
  exists r.2. split; [exact H|].
  exact (main_exit_codes Example2.lib Example.world Example4.fork_foo st 1 r.2 H).
Defined.

Section WriteFacts.
Context (lib : Lib) (w : World) (args : Args.t).

Lemma write_text_exists fs p text fs' :
  Fs.write_text fs p text = Ok fs' -> Fs.exists_ fs' p = true.
Proof.
  unfold Fs.write_text, Fs.exists_, Fs.node_at.
  destruct (parts p) as [|k ks] eqn:Ek; [done|].
  destruct (fs !! (k :: ks)) as [[|r d]|]; [done| |];
    [|destruct (Fs.is_dir fs (parent p)); [|done]];
    intros [= <-]; by rewrite lookup_insert_eq.
Qed.

Lemma inject_fork_metadata_exists fs md e fs' :
  inject_fork_metadata lib w fs md e = Ok fs' -> Fs.exists_ fs' md = true.
Proof.
  unfold inject_fork_metadata.
  destruct (Fs.read_text fs md) as [raw|err]; [|done]. cbn [rbind].
  destruct (parse_frontmatter lib raw) as [[|kv fm] body]; [done|].
  apply write_text_exists.
Qed.

(** What a copy that went through leaves: the destination definition. *)
Lemma materialize_Next source_entry destination_skill_dir st md st' :
  materialize lib w args source_entry destination_skill_dir st = (Next md, st') ->
  md = child destination_skill_dir "SKILL.md" /\ Fs.exists_ (st_fs st') md = true.
Proof.
  unfold materialize. intros H.
  match type of H with (?A ≫= ?K) st = _ =>
    destruct (A st) as [[[src staged]|c|e] stA] eqn:EA;
      [rewrite (bind_Next _ _ _ _ _ EA) in H
      |by rewrite (bind_Return _ _ _ _ _ EA) in H
      |by rewrite (bind_Uncaught _ _ _ _ _ EA) in H]
  end.
  match type of H with (?B ≫= ?K) stA = _ =>
    destruct (B stA) as [[[]|c|e] stB] eqn:EB;
      [rewrite (bind_Next _ _ _ _ _ EB) in H
      |by rewrite (bind_Return _ _ _ _ _ EB) in H
      |by rewrite (bind_Uncaught _ _ _ _ _ EB) in H]
  end.
  unfold mbind at 1, M_bind at 1 in H. cbn [Run.get_fs] in H.
  destruct (Fs.exists_ (st_fs stB) (child destination_skill_dir "SKILL.md")) eqn:Eex;
    cbn [negb] in H; [|by run_in H].
  unfold mbind at 1, M_bind at 1 in H. cbn [mret M_ret] in H.
  match type of H with (?C ≫= ?K) stB = _ =>
    destruct (C stB) as [[[]|c|e] stC] eqn:EC;
      [rewrite (bind_Next _ _ _ _ _ EC) in H
      |by rewrite (bind_Return _ _ _ _ _ EC) in H
      |by rewrite (bind_Uncaught _ _ _ _ _ EC) in H]
  end.
  assert (Fs.exists_ (st_fs stC) (child destination_skill_dir "SKILL.md") = true) as HexC.
  { unfold Run.when in EC. destruct (negb (Args.no_metadata args)).
    - unfold Run.try_except, Run.update_fs in EC.
      destruct (inject_fork_metadata lib w (st_fs stB) _ source_entry) as [fs'|err] eqn:Einj.
      + simplify_eq. by eapply inject_fork_metadata_exists.
      + run_in EC.
    - run_in EC. done. }
  unfold mbind at 1, M_bind at 1 in H. cbn [Run.get_fs] in H.
  destruct (run_validation lib (st_fs stC) destination_skill_dir) as [[] message];
    run_in H. done.
Qed.

Lemma reads_only_verify cwd croots packs disabled skill_name ddir md :
  reads_only (verify lib w args cwd croots packs disabled skill_name ddir md).
Proof.
  intros st.
  destruct (verify_run lib w args cwd croots packs disabled skill_name ddir md st)
    as (roots & lines & _ & Hv & _).
  cbv zeta in Hv. rewrite Hv. by eexists _, _.
Qed.

End WriteFacts.

(** X19. With [--dry-run], [main] writes nothing: however it ends, the file
    system is the one it started with.  It never returns 2, and when it
    returns 0 the plan reached the gates, the destination was free or
    forced, and the dry-run line is the last line printed. *)
Theorem dry_run_never_writes lib w args st :
  Args.dry_run args = true ->
  st_fs (main lib w args st).2 = st_fs st
  /\ forall code st',
       main lib w args st = (Return code, st') ->
       code = 1%Z
       \/ (code = 0%Z
           /\ exists p st1,
                plan lib w args st = (Next p, st1)
                /\ Fs.exists_ (st_fs st) p.(plan_destination_skill_dir)
                   && negb (Args.force args) = false
                /\ st' = mkState (st_fs st)
                           (st_out st1
                            ++ ["✅ Dry-run complete. No files were written."])).
Proof.
  intros Hdry.
  destruct (plan lib w args st) as [[p|c|e] st1] eqn:Hplan.
  - pose proof (plan_fs lib w args st _ st1 Hplan) as Hfs.
    destruct (Fs.exists_ (st_fs st) (plan_destination_skill_dir p)
              && negb (Args.force args)) eqn:Hgate.
    + assert (exists st2, main lib w args st = (Return 1, st2) /\ st_fs st2 = st_fs st)
        as (st2 & Hmain & Hfs2).
      { unfold main. rewrite (bind_Next _ _ _ _ _ Hplan).
        unfold mbind at 1, M_bind at 1. cbn [Run.get_fs]. rewrite Hfs, Hgate.
        unfold mbind, M_bind, Run.print, Run.return_. cbn [st_fs st_out].
        eexists. split; [reflexivity|done]. }
      rewrite Hmain. split; [done|]. intros code st' [= <- <-]. by left.
    + assert (main lib w args st
              = (Return 0,
                 mkState (st_fs st)
                   (st_out st1 ++ ["✅ Dry-run complete. No files were written."])))
        as Hmain.
      { unfold main. rewrite (bind_Next _ _ _ _ _ Hplan).
        unfold mbind at 1, M_bind at 1. cbn [Run.get_fs]. rewrite Hfs, Hgate, Hdry.
        unfold mbind, M_bind, Run.print, Run.return_. cbn [st_fs st_out].
        by rewrite Hfs. }
      rewrite Hmain. split; [done|]. intros code st' [= <- <-].
      right. split; [done|]. by exists p, st1.
  - assert (main lib w args st = (Return c, st1)) as Hmain
      by (unfold main; by rewrite (bind_Return _ _ _ _ _ Hplan)).
    rewrite Hmain. split; [by eapply plan_fs|]. intros code st' [= <- <-].
    left. by eapply plan_returns_1.
  - assert (main lib w args st = (Uncaught e, st1)) as Hmain
      by (unfold main; by rewrite (bind_Uncaught _ _ _ _ _ Hplan)).
    rewrite Hmain. split; [by eapply plan_fs|]. by intros code st'.
Qed.

Lemma dry_run_never_writes_witness :
  st_fs (main Example2.lib Example.world Example8.dry_fork_foo_force
           (mkState Example.project_fs [])).2 = Example.project_fs
  /\ (main Example2.lib Example.world Example8.dry_fork_foo_force
        (mkState Example.project_fs [])).1 = Return 0.
Proof.
  split.
  - apply (dry_run_never_writes Example2.lib Example.world Example8.dry_fork_foo_force
             (mkState Example.project_fs []) eq_refl).
  - vm_compute. reflexivity.
Defined.

(** X20. When [main] gets past the gates without [--dry-run] and returns 0
    or 2, the destination directory holds its [SKILL.md]: an exit code other
    than 1 means the fork is on disk. *)
Theorem fork_on_disk lib w args st p st1 code st' :
  plan lib w args st = (Next p, st1) ->
  Args.dry_run args = false ->
  main lib w args st = (Return code, st') ->
  code <> 1%Z ->
  Fs.exists_ (st_fs st') (child p.(plan_destination_skill_dir) "SKILL.md") = true.
Proof.
  intros Hplan Hdry Hmain Hcode. unfold main in Hmain.
  rewrite (bind_Next _ _ _ _ _ Hplan) in Hmain.
  unfold mbind at 1, M_bind at 1 in Hmain. cbn [Run.get_fs] in Hmain.
  destruct (Fs.exists_ (st_fs st1) (plan_destination_skill_dir p)
            && negb (Args.force args)); [by run_in Hmain|].
  rewrite Hdry in Hmain.
  destruct (materialize lib w args (plan_source_entry p)
              (plan_destination_skill_dir p) st1) as [[md|c|e] st2] eqn:Hmat.
  2:{ rewrite (bind_Return _ _ _ _ _ Hmat) in Hmain. simplify_eq.
      by destruct Hcode; eapply materialize_returns_1. }
  2:{ by rewrite (bind_Uncaught _ _ _ _ _ Hmat) in Hmain. }
  rewrite (bind_Next _ _ _ _ _ Hmat) in Hmain.
  destruct (materialize_Next lib w args _ _ _ _ _ Hmat) as [-> Hex].
  destruct (reads_only_fs _ _ _ _ (reads_only_verify lib w args _ _ _ _ _ _ _) Hmain)
    as [Hfs _].
  by rewrite Hfs.
Qed.

Lemma fork_on_disk_witness :
  (main Example2.lib Example.world Example4.fork_foo (mkState Example8.tool_only_fs [])).1
  = Return 2
  /\ Fs.exists_
       (st_fs (main Example2.lib Example.world Example4.fork_foo
                 (mkState Example8.tool_only_fs [])).2)
       (mkPath true ["home"; "u"; ".config"; "brewva"; "skills"; "packs"; "foo"; "SKILL.md"])
     = true.
Proof.
  set (st := mkState Example8.tool_only_fs []).
  set (r := plan Example2.lib Example.world Example4.fork_foo st).
  set (m := main Example2.lib Example.world Example4.fork_foo st).
  assert (plan Example2.lib Example.world Example4.fork_foo st
          = (Next (Example4.from_next Example4.no_plan r.1), r.2)) as Hplan
    by (vm_compute; reflexivity).
  assert (main Example2.lib Example.world Example4.fork_foo st = (Return 2, m.2)) as Hmain
    by (vm_compute; reflexivity).
  split; [vm_compute; reflexivity|].
  pose proof (fork_on_disk Example2.lib Example.world Example4.fork_foo st _ _ 2 m.2
                Hplan eq_refl Hmain) as H.
  assert (child (plan_destination_skill_dir (Example4.from_next Example4.no_plan r.1))
                "SKILL.md"
          = mkPath true ["home"; "u"; ".config"; "brewva"; "skills"; "packs"; "foo";
                         "SKILL.md"]) as Hd by (vm_compute; reflexivity).
  rewrite Hd in H. apply H. discriminate.
Defined.

(** ** The global root *)

Lemma fold_dotdot_snoc_dotdot cs :
  ".." ∉ cs -> fold_dotdot (cs ++ [".."]) = removelast cs.
Proof.
  intros Hno. unfold fold_dotdot. rewrite foldl_app. cbn [foldl].
  rewrite decide_True by done. by rewrite fold_dotdot_from.
Qed.

(** X22. The global root follows the environment in a fixed order: when
    [BREWVA_CODING_AGENT_DIR] is set it is the parent of that directory,
    else when [XDG_CONFIG_HOME] is set it is [brewva] under it, else
    [.config/brewva] under the home directory; a variable that is empty or
    only whitespace counts as not set.  The result is always absolute. *)
Theorem resolve_global_brewva_root_order w cwd :
  let agent_dir := strip (environ_get w "BREWVA_CODING_AGENT_DIR") in
  let xdg := strip (environ_get w "XDG_CONFIG_HOME") in
  absolute (resolve_global_brewva_root w cwd) = true
  /\ (agent_dir <> "" ->
      resolve_global_brewva_root w cwd = parent (resolve_maybe_absolute w agent_dir cwd))
  /\ (agent_dir = "" -> xdg <> "" ->
      resolve_global_brewva_root w cwd = resolve_maybe_absolute w (xdg ++ "/brewva") cwd)
  /\ (agent_dir = "" -> xdg = "" ->
      resolve_global_brewva_root w cwd
      = resolved w (child (child (home w) ".config") "brewva")).
Proof.
  intros agent_dir xdg. unfold resolve_global_brewva_root.
  fold agent_dir. fold xdg. split_and!.
  - destruct (resolve_global_brewva_root_resolved w cwd) as [q Hq].
    unfold resolve_global_brewva_root in Hq. fold agent_dir in Hq. fold xdg in Hq.
    by rewrite Hq.
  - intros Ha. rewrite decide_True by done.
    destruct (resolve_maybe_absolute_resolved w agent_dir cwd) as [q ->].
    unfold resolved at 1, resolve. rewrite child_parts by done.
    cbn [absolute parts]. unfold parent. cbn [absolute parts]. f_equal.
    apply fold_dotdot_snoc_dotdot, fold_dotdot_no_dotdot.
  - intros Ha Hx. rewrite decide_False by (by intros ?). by rewrite decide_True.
  - intros Ha Hx. rewrite decide_False by (by intros ?).
    by rewrite decide_False by (by intros ?).
Qed.

Example resolve_global_brewva_root_agent_dir :
  resolve_global_brewva_root
    (mkWorld ["p"] (mkPath true ["home"; "u"])
             {[ "BREWVA_CODING_AGENT_DIR" := " ~/.brewva/agent "; "XDG_CONFIG_HOME" := "/x" ]}
             (mkPath true []) (mkPath true []) "" (mkPath true ["tmp"; "s"]))
    (mkPath true ["p"])
  = mkPath true ["home"; "u"; ".brewva"].
Proof. reflexivity. Qed.

(** ** The source taken from the registry *)

Lemma when_print b line st :
  Run.when b (Run.print line) st
  = (Next tt, mkState (st_fs st) (st_out st ++ if b then [line] else [])).
Proof. destruct b; [done|]. cbn. by rewrite app_nil_r, state_eta. Qed.

(** X23. Without [--from], the source is the effective entry of the
    registry built from the discovered roots: when the name has none, [main]
    returns 1 after the not-found line and writes nothing; when it has one,
    the plan goes on with that entry even if the name is disabled, and then
    the warning about the disabled name has been printed. *)
Theorem implicit_source_lookup lib w args st :
  let skill_name := strip (Args.skill_name args) in
  let cwd := mkPath true (getcwd w) in
  let settings := (load_skill_settings lib w (st_fs st) cwd (Args.config_path args)).1 in
  skill_name <> "" ->
  truthy (Args.source_path args) = None ->
  exists roots,
    discover_skill_roots w (st_fs st) cwd settings.1.2 = Ok roots
    /\ match (load_registry lib w (st_fs st) roots settings.1.1).1 !! skill_name with
       | None =>
           exists lines,
             main lib w args st
             = (Return 1,
                mkState (st_fs st)
                  (st_out st ++ lines
                   ++ [("❌ Error: Skill '" ++ skill_name
                        ++ "' not found in resolved registry roots.")%string]))
       | Some e =>
           exists p st1,
             plan lib w args st = (Next p, st1)
             /\ p.(plan_source_entry) = e
             /\ (skill_name ∈ settings.2 ->
                 ("⚠️ Note: '" ++ skill_name
                  ++ "' is listed in skills.disabled and is currently inactive at runtime.")%string
                 ∈ st_out st1)
       end.
Proof.
  intros skill_name cwd settings Hname Hsp.
  unfold settings.
  destruct (load_skill_settings lib w (st_fs st) cwd (Args.config_path args))
    as [[[packs croots] disabled] cfgs] eqn:Eset. cbn [fst snd].
  destruct (discover_skill_roots_ok w (st_fs st) cwd croots) as (roots & Hroots & _).
  exists roots. split; [done|].
  destruct (load_registry lib w (st_fs st) roots packs) as [loaded all_entries] eqn:Ereg.
  cbn [fst].
  destruct (only_prints_when (Args.verbose args) _
              (only_prints_print_verbose cfgs roots packs disabled skill_name all_entries)
              st) as [l1 Hv].
  destruct (loaded !! skill_name) as [e|] eqn:Eload.
  - destruct (destination_of w args (st_fs st) cwd skill_name e)
      as [[[droot dsrc] dtier] ddir] eqn:Edest.
    eexists (mkPlan skill_name cwd packs croots disabled e ddir), _.
    split_and!; [|done|].
    + unfold plan. fold skill_name. fold cwd. rewrite decide_False by done.
      unfold mbind at 1, M_bind at 1. cbn [Run.get_fs]. rewrite Eset, Hroots.
      unfold mbind at 1, M_bind at 1. cbn [mret M_ret]. rewrite Ereg.
      rewrite (bind_Next _ _ _ _ _ Hv).
      unfold find_source. rewrite Hsp, Eload.
      unfold mbind at 1, M_bind at 1. unfold mbind at 1, M_bind at 1.
      rewrite when_print. cbn [mret M_ret]. rewrite Edest.
      unfold mbind, M_bind, Run.print, mret, M_ret. cbn [st_fs st_out].
      reflexivity.
    + intros Hdis. cbn [st_out].
      rewrite bool_decide_eq_true_2 by (by apply elem_of_list_to_set).
      rewrite !elem_of_app. do 9 left. right. left.
  - assert (exists lines,
              plan lib w args st
              = (Return 1,
                 mkState (st_fs st)
                   (st_out st ++ lines
                    ++ [("❌ Error: Skill '" ++ skill_name
                         ++ "' not found in resolved registry roots.")%string])))
      as [lines Hplan].
    { exists l1. unfold plan. fold skill_name. fold cwd. rewrite decide_False by done.
      unfold mbind at 1, M_bind at 1. cbn [Run.get_fs]. rewrite Eset, Hroots.
      unfold mbind at 1, M_bind at 1. cbn [mret M_ret]. rewrite Ereg.
      rewrite (bind_Next _ _ _ _ _ Hv). apply bind_Return.
      unfold find_source. rewrite Hsp, Eload.
      unfold mbind, M_bind, Run.print, Run.return_. cbn [st_fs st_out].
      by rewrite app_assoc. }
    exists lines. unfold main. by rewrite (bind_Return _ _ _ _ _ Hplan).
Qed.

Lemma implicit_source_lookup_witness :
  exists p st1,
    plan Example2.lib Example.world Example4.fork_foo (mkState Example.project_fs [])
    = (Next p, st1)
    /\ p.(plan_source_entry) = Example2.foo_entry.
Proof.
  destruct (implicit_source_lookup Example2.lib Example.world Example4.fork_foo
              (mkState Example.project_fs [])) as (roots & Hroots & H);
    [discriminate|reflexivity|].
  assert (discover_skill_roots Example.world Example.project_fs (mkPath true ["p"])
            (load_skill_settings Example2.lib Example.world Example.project_fs
               (mkPath true ["p"]) None).1.1.2
          = Ok [Example2.project_root_of_p]) as Hroots0 by (vm_compute; reflexivity).
  cbn [st_fs Args.config_path Example4.fork_foo getcwd Example.world] in Hroots, H.
  rewrite Hroots0 in Hroots. injection Hroots as <-.
  assert ((load_registry Example2.lib Example.world Example.project_fs
             [Example2.project_root_of_p]
             (load_skill_settings Example2.lib Example.world Example.project_fs
                (mkPath true ["p"]) None).1.1.1).1
          !! strip (Args.skill_name Example4.fork_foo)
          = Some Example2.foo_entry) as Hfoo by (vm_compute; reflexivity).
  rewrite Hfoo in H.
  destruct H as (p & st1 & Hplan & Hp & _). exists p, st1.
  split; [exact Hplan|exact Hp].
Defined.

(** ** The file system operations of the copy *)

Lemma below_iff d k : Fs.below d k = true <-> exists s, s <> [] /\ k = d ++ s.
Proof.
  unfold Fs.below. rewrite andb_true_iff, !bool_decide_eq_true. split.
  - intros [Ht Hl]. exists (drop (length d) k). split.
    + intros E. apply (f_equal length) in E. rewrite length_drop in E. simpl in E. lia.
    + rewrite <- (take_drop (length d) k) at 1. by rewrite Ht.
  - intros (s & Hs & ->). split.
    + by rewrite take_app_length.
    + rewrite length_app. destruct s; [done|simpl; lia].
Qed.

Lemma at_or_below_prefix d k : (k = d \/ Fs.below d k = true) <-> d `prefix_of` k.
Proof.
  rewrite below_iff. split.
  - intros [->|(s & _ & ->)]; [done|by exists s].
  - intros [s ->]. destruct s as [|c s]; [left; by rewrite app_nil_r|].
    right. by exists (c :: s).
Qed.

Lemma below_prefix d k : Fs.below d k = true -> d `prefix_of` k.
Proof. intros H. apply at_or_below_prefix. by right. Qed.

Lemma below_self d : Fs.below d d = false.
Proof.
  apply not_true_is_false. intros (s & Hs & E)%below_iff.
  apply (f_equal length) in E. rewrite length_app in E. destruct s; [done|simpl in E; lia].
Qed.

Lemma not_prefix_below d k : ~ d `prefix_of` k -> Fs.below d k = false.
Proof. intros H. apply not_true_is_false. intros Hb. by apply H, below_prefix. Qed.

Lemma elem_of_copied fs src dst k n :
  (k, n) ∈ Fs.copied fs src dst
  <-> exists s, s <> [] /\ k = dst ++ s /\ fs !! (src ++ s) = Some n
                /\ readable_node n = true.
Proof.
  unfold Fs.copied. rewrite list_elem_of_omap. split.
  - intros ([k0 n0] & Hin & Hg). apply elem_of_map_to_list in Hin. cbn in Hg.
    destruct (Fs.below src k0) eqn:Hb; [|done].
    apply below_iff in Hb as (s & Hs & ->).
    rewrite drop_app_length in Hg.
    exists s. destruct n0 as [|[] data]; simplify_eq; eauto.
  - intros (s & Hs & -> & Hl & Hr). exists (src ++ s, n).
    split; [by apply elem_of_map_to_list|].
    cbn. rewrite (proj2 (below_iff _ _)) by eauto. rewrite drop_app_length.
    by destruct n as [|[] data].
Qed.

Lemma lookup_copied fs src dst k n :
  (list_to_map (Fs.copied fs src dst) : FS) !! k = Some n
  <-> exists s, s <> [] /\ k = dst ++ s /\ fs !! (src ++ s) = Some n
                /\ readable_node n = true.
Proof.
  rewrite <- elem_of_copied. split.
  - apply elem_of_list_to_map_2.
  - intros Hin. apply elem_of_list_to_map_1'; [|done].
    intros n' Hin'. apply elem_of_copied in Hin as (s & _ & -> & H1 & _).
    apply elem_of_copied in Hin' as (s' & _ & E & H2 & _).
    apply app_inv_head in E as <-. congruence.
Qed.

Lemma lookup_copied_app fs src dst s :
  s <> [] ->
  (list_to_map (Fs.copied fs src dst) : FS) !! (dst ++ s)
  = match fs !! (src ++ s) with
    | Some n => if readable_node n then Some n else None
    | None => None
    end.
Proof.
  intros Hs. apply option_eq. intros n. rewrite lookup_copied. split.
  - intros (s' & _ & E & Hl & Hr). apply app_inv_head in E as <-.
    by rewrite Hl, Hr.
  - intros H. exists s. destruct (fs !! (src ++ s)) as [n'|]; [|done].
    destruct (readable_node n') eqn:Hr; by simplify_eq.
Qed.

Lemma lookup_copied_outside fs src dst k :
  Fs.below dst k = false ->
  (list_to_map (Fs.copied fs src dst) : FS) !! k = None.
Proof.
  intros Hb. apply eq_None_not_Some. intros [n (s & Hs & -> & _)%lookup_copied].
  rewrite (proj2 (below_iff _ _)) in Hb by eauto. done.
Qed.

Lemma lookup_remove_tree fs d k :
  Fs.remove_tree fs d !! k = if decide (d `prefix_of` k) then None else fs !! k.
Proof.
  unfold Fs.remove_tree. apply option_eq. intros n.
  rewrite map_lookup_filter_Some. cbn. rewrite at_or_below_prefix.
  destruct (decide (d `prefix_of` k)) as [Hp|Hp].
  - split; [by intros [_ Hn]|done].
  - split; [by intros [? _]|by intros].
Qed.

Lemma lookup_copytree (fs fs1 : FS) src dst k :
  (list_to_map (Fs.copied fs src dst) ∪ fs1) !! k
  = match (list_to_map (Fs.copied fs src dst) : FS) !! k with
    | Some n => Some n
    | None => fs1 !! k
    end.
Proof.
  rewrite lookup_union. by destruct (_ !! k), (fs1 !! k).
Qed.

Lemma has_unreadable_false fs src :
  Fs.has_unreadable fs src = false
  <-> forall s n, s <> [] -> fs !! (src ++ s) = Some n -> readable_node n = true.
Proof.
  unfold Fs.has_unreadable. rewrite <- not_true_iff_false, existsb_exists. split.
  - intros H s n Hs Hl. destruct (readable_node n) eqn:Hr; [done|]. exfalso. apply H.
    exists (src ++ s, n). split; [by apply list_elem_of_In, elem_of_map_to_list|].
    cbn. rewrite (proj2 (below_iff _ _)) by eauto. by destruct n as [|[] ?].
  - intros H ([k n] & Hin & Hb). cbn in Hb. apply andb_true_iff in Hb as [Hb Hn].
    apply list_elem_of_In, elem_of_map_to_list in Hin.
    apply below_iff in Hb as (s & Hs & ->).
    specialize (H s n Hs Hin). by destruct n as [|[] ?].
Qed.

Lemma mkdir_from_existing fs pre todo :
  (forall i, 0 < i <= length todo -> fs !! (pre ++ take i todo) = Some Dir) ->
  Fs.mkdir_from fs pre todo = Ok fs.
Proof.
  revert pre. induction todo as [|c rest IH]; intros pre H; [done|].
  cbn [Fs.mkdir_from]. cbv zeta.
  pose proof (H 1 ltac:(simpl; lia)) as H1.
  change (fs !! (pre ++ [c]) = Some Dir) in H1. rewrite H1. apply IH. intros i Hi.
  rewrite <- app_assoc. apply (H (S i)). simpl. lia.
Qed.

Lemma mkdir_from_last fs pre todo c :
  (forall i, 0 < i <= length todo -> fs !! (pre ++ take i todo) = Some Dir) ->
  fs !! (pre ++ todo ++ [c]) = None ->
  Fs.mkdir_from fs pre (todo ++ [c]) = Ok (<[pre ++ todo ++ [c] := Dir]> fs).
Proof.
  revert pre. induction todo as [|d rest IH]; intros pre H Hc.
  - cbn. cbn in Hc. by rewrite Hc.
  - cbn [Fs.mkdir_from app]. cbv zeta.
    pose proof (H 1 ltac:(simpl; lia)) as H1.
    change (fs !! (pre ++ [d]) = Some Dir) in H1. rewrite H1.
    replace (pre ++ d :: rest ++ [c]) with ((pre ++ [d]) ++ rest ++ [c])
      by (by rewrite <- app_assoc).
    apply IH.
    + intros i Hi. rewrite <- app_assoc. apply (H (S i)). simpl. lia.
    + by rewrite <- app_assoc.
Qed.

Lemma dirs_along_take fs d i :
  dirs_along fs d -> 0 < i <= length d -> fs !! take i d = Some Dir.
Proof.
  intros H Hi. apply H; [apply prefix_take|].
  intros E. apply (f_equal length) in E. rewrite length_take in E. simpl in E. lia.
Qed.

Lemma mkdir_parents_existing fs p :
  dirs_along fs (parts p) -> Fs.mkdir_parents fs p = Ok fs.
Proof.
  intros H. apply mkdir_from_existing. intros i Hi. by apply dirs_along_take.
Qed.

Lemma mkdir_parents_last fs p :
  parts p <> [] -> dirs_along fs (removelast (parts p)) -> fs !! parts p = None ->
  Fs.mkdir_parents fs p = Ok (<[parts p := Dir]> fs).
Proof.
  intros Hne H Hnone. unfold Fs.mkdir_parents.
  destruct (exists_last Hne) as (init & c & E). rewrite E in *.
  rewrite removelast_last in H.
  apply (mkdir_from_last fs [] init c); [|done].
  intros i Hi. by apply dirs_along_take.
Qed.

Lemma dirs_along_prefix fs d k :
  dirs_along fs d -> k `prefix_of` d -> dirs_along fs k.
Proof. intros H Hk j Hj Hne. apply H; [by etrans|done]. Qed.

Lemma removelast_prefix {A} (l : list A) : removelast l `prefix_of` l.
Proof.
  destruct (decide (l = [])) as [->|Hne]; [done|].
  destruct (exists_last Hne) as (init & c & ->). rewrite removelast_last.
  by exists [c].
Qed.

Section SelfFork.
Context (fs : FS) (d s : list string) (Hready : self_fork_ready fs d s).

Lemma ready_dest_dir : fs !! d = Some Dir.
Proof. destruct Hready as (Hd & Hne & _). by apply Hd. Qed.

Lemma ready_stage_outside t : ~ s `prefix_of` d ++ t.
Proof.
  destruct Hready as (_ & _ & _ & Hnew & _ & _ & Hds). intros Hp.
  destruct (prefix_weak_total s d (d ++ t) Hp (prefix_app_r d d t (reflexivity d)))
    as [Hsd|Hdsp]; [|done].
  apply Hnew in Hsd. by rewrite ready_dest_dir in Hsd.
Qed.

Lemma ready_dest_outside t : ~ d `prefix_of` s ++ t.
Proof.
  destruct Hready as (_ & _ & _ & _ & _ & _ & Hds). intros Hp.
  destruct (prefix_weak_total d s (s ++ t) Hp (prefix_app_r s s t (reflexivity s)))
    as [Hdsp|Hsd]; [done|].
  apply (ready_stage_outside []). by rewrite app_nil_r.
Qed.

Lemma ready_new t : fs !! (s ++ t) = None.
Proof. destruct Hready as (_ & _ & _ & Hnew & _). apply Hnew. by exists t. Qed.

Lemma ready_readable t n :
  fs !! (d ++ t) = Some n -> (if readable_node n then Some n else None) = Some n.
Proof.
  destruct Hready as (_ & _ & Hr & _). intros H. by rewrite (Hr t n H).
Qed.

Lemma after_staging_outside k :
  ~ s `prefix_of` k -> after_staging fs d s !! k = fs !! k.
Proof.
  intros Hk. unfold after_staging. rewrite lookup_copytree.
  rewrite lookup_copied_outside.
  2:{ apply not_prefix_below. intros [t ->]. apply Hk. exists (["source"] ++ t).
      by rewrite app_assoc. }
  rewrite !lookup_insert_ne; [done| |].
  - intros <-. by apply Hk.
  - intros <-. apply Hk. by exists ["source"].
Qed.

Lemma after_staging_stage : after_staging fs d s !! s = Some Dir.
Proof.
  unfold after_staging. rewrite lookup_copytree.
  rewrite lookup_copied_outside.
  2:{ apply not_prefix_below. intros [t E]. apply (f_equal length) in E.
      rewrite !length_app in E. simpl in E. lia. }
  rewrite lookup_insert_ne, lookup_insert_eq; [done|].
  intros E. apply (f_equal length) in E. rewrite length_app in E. simpl in E. lia.
Qed.

Lemma after_staging_source : after_staging fs d s !! (s ++ ["source"]) = Some Dir.
Proof.
  unfold after_staging. rewrite lookup_copytree.
  rewrite lookup_copied_outside by apply below_self.
  by rewrite lookup_insert_eq.
Qed.

Lemma after_staging_staged t :
  t <> [] -> after_staging fs d s !! ((s ++ ["source"]) ++ t) = fs !! (d ++ t).
Proof.
  intros Ht. unfold after_staging. rewrite lookup_copytree.
  rewrite lookup_copied_app by done.
  rewrite lookup_insert_ne.
  2:{ intros E. apply (ready_stage_outside t). by rewrite <- E. }
  destruct (fs !! (d ++ t)) as [n|] eqn:Hn.
  - by rewrite (ready_readable t n Hn).
  - rewrite !lookup_insert_ne.
    + rewrite <- app_assoc. apply ready_new.
    + intros E. apply (f_equal length) in E. rewrite !length_app in E.
      simpl in E. lia.
    + intros E. apply (f_equal length) in E. rewrite !length_app in E.
      destruct t; [done|simpl in E; lia].
Qed.

Lemma after_removal_outside k :
  ~ d `prefix_of` k -> after_removal fs d s !! k = after_staging fs d s !! k.
Proof.
  intros Hk. unfold after_removal. rewrite lookup_remove_tree. by rewrite decide_False.
Qed.

Lemma after_removal_inside k :
  d `prefix_of` k -> after_removal fs d s !! k = None.
Proof.
  intros Hk. unfold after_removal. rewrite lookup_remove_tree. by rewrite decide_True.
Qed.

Lemma after_copy_back_dest : after_copy_back fs d s !! d = Some Dir.
Proof.
  unfold after_copy_back. rewrite lookup_copytree.
  rewrite lookup_copied_outside by apply below_self.
  by rewrite lookup_insert_eq.
Qed.

Lemma after_copy_back_inside t :
  t <> [] -> after_copy_back fs d s !! (d ++ t) = fs !! (d ++ t).
Proof.
  intros Ht. unfold after_copy_back. rewrite lookup_copytree.
  rewrite lookup_copied_app by done.
  rewrite after_removal_outside.
  2:{ rewrite <- app_assoc. apply ready_dest_outside. }
  rewrite after_staging_staged by done.
  destruct (fs !! (d ++ t)) as [n|] eqn:Hn.
  - by rewrite (ready_readable t n Hn).
  - rewrite lookup_insert_ne.
    + apply after_removal_inside. by exists t.
    + intros E. apply (f_equal length) in E. rewrite !length_app in E.
      destruct t; [done|simpl in E; lia].
Qed.

Lemma after_copy_back_outside k :
  ~ d `prefix_of` k -> after_copy_back fs d s !! k = after_staging fs d s !! k.
Proof.
  intros Hk. unfold after_copy_back. rewrite lookup_copytree.
  rewrite lookup_copied_outside by by apply not_prefix_below.
  rewrite lookup_insert_ne by (by intros <-).
  by apply after_removal_outside.
Qed.

Lemma self_copy_restores : Fs.remove_tree (after_copy_back fs d s) s = fs.
Proof.
  apply map_eq. intros k. rewrite lookup_remove_tree.
  destruct (decide (s `prefix_of` k)) as [[t ->]|Hs]; [by rewrite ready_new|].
  destruct (decide (d `prefix_of` k)) as [[t ->]|Hd].
  - destruct t as [|c t].
    + rewrite app_nil_r. by rewrite after_copy_back_dest, ready_dest_dir.
    + by apply after_copy_back_inside.
  - rewrite after_copy_back_outside by done. by apply after_staging_outside.
Qed.

End SelfFork.

Lemma node_at_parts (fs : FS) p : parts p <> [] -> Fs.node_at fs p = fs !! parts p.
Proof. unfold Fs.node_at. by destruct (parts p). Qed.

Lemma is_dir_dirs_along fs p : dirs_along fs (parts p) -> Fs.is_dir fs p = true.
Proof.
  intros H. unfold Fs.is_dir, Fs.node_at.
  destruct (parts p) as [|c cs] eqn:E; [done|]. by rewrite H.
Qed.

Section SelfForkRun.
Context (w : World) (dest : Path) (fs : FS).
Context (Hready : self_fork_ready fs (parts dest) (parts (resolved w (mkdtemp w)))).

Lemma make_stage_dir_ready out :
  make_stage_dir w (mkState fs out)
  = (Next (resolved w (mkdtemp w)),
     mkState (<[parts (resolved w (mkdtemp w)) := Dir]> fs) out).
Proof.
  pose proof Hready as (_ & _ & _ & _ & Hne & Hup & _).
  unfold make_stage_dir. cbv zeta. unfold mbind, M_bind, Run.update_fs. cbn [st_fs st_out].
  unfold Fs.exists_. rewrite node_at_parts by done.
  pose proof (ready_new _ _ _ Hready []) as Hnew. rewrite app_nil_r in Hnew.
  rewrite Hnew. by rewrite is_dir_dirs_along.
Qed.

Lemma staged_source_parts :
  parts (resolved w (child (resolved w (mkdtemp w)) "source"))
  = parts (resolved w (mkdtemp w)) ++ ["source"].
Proof. by rewrite resolved_child. Qed.

Lemma dirs_along_staging k :
  ~ parts (resolved w (mkdtemp w)) `prefix_of` k ->
  dirs_along fs k ->
  dirs_along (after_staging fs (parts dest) (parts (resolved w (mkdtemp w)))) k.
Proof.
  intros Hk H j Hj Hne. rewrite after_staging_outside; [by apply H|].
  intros Hs. apply Hk. by etrans.
Qed.

Lemma copytree_staging :
  Fs.copytree (<[parts (resolved w (mkdtemp w)) := Dir]> fs) dest
    (resolved w (child (resolved w (mkdtemp w)) "source"))
  = (after_staging fs (parts dest) (parts (resolved w (mkdtemp w))), Ok tt).
Proof.
  pose proof Hready as (Hd & Hdne & Hr & _ & Hne & Hup & Hout).
  assert (parts dest <> parts (resolved w (mkdtemp w))) as Hds by (by intros E; rewrite E in Hout).
  unfold Fs.copytree.
  assert (Fs.is_dir (<[parts (resolved w (mkdtemp w)) := Dir]> fs) dest = true) as ->.
  { unfold Fs.is_dir. rewrite node_at_parts by done.
    rewrite lookup_insert_ne by done. by rewrite (ready_dest_dir _ _ _ Hready). }
  assert (Fs.exists_ (<[parts (resolved w (mkdtemp w)) := Dir]> fs)
            (resolved w (child (resolved w (mkdtemp w)) "source")) = false) as ->.
  { unfold Fs.exists_. rewrite node_at_parts; rewrite staged_source_parts.
    - rewrite lookup_insert_ne.
      + by rewrite (ready_new _ _ _ Hready).
      + intros E. apply (f_equal length) in E. rewrite length_app in E. simpl in E. lia.
    - by destruct (parts (resolved w (mkdtemp w))). }
  cbn [negb].
  rewrite mkdir_parents_last; rewrite ?staged_source_parts.
  - assert (Fs.has_unreadable (<[parts (resolved w (mkdtemp w)) := Dir]> fs) (parts dest)
            = false) as ->; [|done].
    apply has_unreadable_false. intros t n Ht Hl.
    rewrite lookup_insert_ne in Hl; [by eapply Hr|].
    intros E. apply (ready_stage_outside _ _ _ Hready t). by rewrite <- E.
  - by destruct (parts (resolved w (mkdtemp w))).
  - rewrite removelast_last. intros k Hk Hkne.
    destruct (decide (k = parts (resolved w (mkdtemp w)))) as [->|Hks].
    + by rewrite lookup_insert_eq.
    + rewrite lookup_insert_ne by done. apply Hup; [|done].
      destruct Hk as [t E]. destruct (exists_last Hne) as (init & c & Ei).
      rewrite Ei in *. rewrite removelast_last.
      destruct t as [|c' t] using rev_ind; [by rewrite app_nil_r in E|].
      rewrite app_assoc in E. apply app_inj_tail in E as [-> _]. by eexists.
  - rewrite lookup_insert_ne.
    + by rewrite (ready_new _ _ _ Hready).
    + intros E. apply (f_equal length) in E. rewrite length_app in E. simpl in E. lia.
Qed.

Lemma rmtree_staged :
  Fs.exists_ (after_staging fs (parts dest) (parts (resolved w (mkdtemp w)))) dest = true
  /\ Fs.rmtree (after_staging fs (parts dest) (parts (resolved w (mkdtemp w)))) dest
     = Ok (after_removal fs (parts dest) (parts (resolved w (mkdtemp w)))).
Proof.
  pose proof Hready as (Hd & Hdne & _).
  assert (after_staging fs (parts dest) (parts (resolved w (mkdtemp w))) !! parts dest
          = Some Dir) as Hl.
  { rewrite after_staging_outside.
    - by apply (ready_dest_dir _ _ _ Hready).
    - pose proof (ready_stage_outside _ _ _ Hready []) as H. by rewrite app_nil_r in H. }
  unfold Fs.rmtree, Fs.exists_, Fs.is_dir. rewrite node_at_parts by done. by rewrite Hl.
Qed.

Lemma dirs_along_removal k :
  ~ parts (resolved w (mkdtemp w)) `prefix_of` k ->
  ~ parts dest `prefix_of` k ->
  dirs_along fs k ->
  dirs_along (after_removal fs (parts dest) (parts (resolved w (mkdtemp w)))) k.
Proof.
  intros Hs Hd H j Hj Hne. rewrite after_removal_outside.
  - by apply (dirs_along_staging k Hs H j).
  - intros Hp. apply Hd. by etrans.
Qed.

Lemma dirs_above_dest :
  dirs_along (after_removal fs (parts dest) (parts (resolved w (mkdtemp w))))
    (removelast (parts dest)).
Proof.
  pose proof Hready as (Hd & Hdne & _).
  destruct (exists_last Hdne) as (init & c & E).
  apply dirs_along_removal.
  - intros [t Ht]. apply (ready_stage_outside _ _ _ Hready []).
    rewrite app_nil_r. etrans; [by exists t|apply removelast_prefix].
  - rewrite E, removelast_last. intros [t Ht]. apply (f_equal length) in Ht.
    rewrite !length_app in Ht. simpl in Ht. lia.
  - eapply dirs_along_prefix; [done|apply removelast_prefix].
Qed.

Lemma copytree_back :
  Fs.copytree (after_removal fs (parts dest) (parts (resolved w (mkdtemp w))))
    (resolved w (child (resolved w (mkdtemp w)) "source")) dest
  = (after_copy_back fs (parts dest) (parts (resolved w (mkdtemp w))), Ok tt).
Proof.
  pose proof Hready as (Hd & Hdne & Hr & _ & Hne & Hup & Hout).
  unfold Fs.copytree.
  assert (Fs.is_dir (after_removal fs (parts dest) (parts (resolved w (mkdtemp w))))
            (resolved w (child (resolved w (mkdtemp w)) "source")) = true) as ->.
  { unfold Fs.is_dir. rewrite node_at_parts; rewrite staged_source_parts.
    - rewrite after_removal_outside by (by apply (ready_dest_outside _ _ _ Hready)).
      by rewrite after_staging_source.
    - by destruct (parts (resolved w (mkdtemp w))). }
  assert (Fs.exists_ (after_removal fs (parts dest) (parts (resolved w (mkdtemp w)))) dest
          = false) as ->.
  { unfold Fs.exists_. rewrite node_at_parts by done.
    by rewrite after_removal_inside. }
  cbn [negb].
  rewrite mkdir_parents_last; [|done|apply dirs_above_dest|by apply after_removal_inside].
  rewrite staged_source_parts.
  assert (Fs.has_unreadable (after_removal fs (parts dest) (parts (resolved w (mkdtemp w))))
            (parts (resolved w (mkdtemp w)) ++ ["source"]) = false) as ->; [|done].
  apply has_unreadable_false. intros t n Ht Hl.
  rewrite after_removal_outside in Hl.
  2:{ rewrite <- app_assoc. by apply (ready_dest_outside _ _ _ Hready). }
  rewrite (after_staging_staged _ _ _ Hready) in Hl by done. by eapply Hr.
Qed.

Lemma cleanup_stage_restores out :
  cleanup_stage (Some (resolved w (mkdtemp w)))
    (mkState (after_copy_back fs (parts dest) (parts (resolved w (mkdtemp w)))) out)
  = mkState fs out.
Proof.
  pose proof Hready as (_ & _ & _ & _ & Hne & _ & Hout).
  assert (after_copy_back fs (parts dest) (parts (resolved w (mkdtemp w)))
          !! parts (resolved w (mkdtemp w)) = Some Dir) as Hl.
  { rewrite after_copy_back_outside by done. by apply after_staging_stage. }
  unfold cleanup_stage, Fs.rmtree_ignore_errors, Fs.rmtree, Fs.exists_, Fs.is_dir.
  cbn [st_fs st_out]. rewrite node_at_parts by done. rewrite Hl.
  by rewrite (self_copy_restores _ _ _ Hready).
Qed.

End SelfForkRun.

(** X21. [main], lines 537-556: a forced fork of a skill onto its own
    directory goes through the staging copy, and when the copy phase is over
    the file system is the one it started from: the only lasting change
    [materialize] makes is the metadata written into the forked SKILL.md. *)
Theorem self_fork_restores lib w args e dest st :
  Args.force args = true ->
  resolved w (base_dir e) = dest ->
  resolved w dest = dest ->
  self_fork_ready (st_fs st) (parts dest) (parts (resolved w (mkdtemp w))) ->
  st_fs (materialize lib w args e dest st).2
  = if Args.no_metadata args || negb (Fs.exists_ (st_fs st) (child dest "SKILL.md"))
    then st_fs st
    else match inject_fork_metadata lib w (st_fs st) (child dest "SKILL.md") e with
         | Ok fs' => fs'
         | Raise _ => st_fs st
         end.
Proof.
  intros Hforce Hsrc Hdest Hready. destruct st as [fs out]. cbn [st_fs] in *.
  unfold materialize. cbv zeta. rewrite Hsrc, Hdest, Hforce, bool_decide_true by done.
  cbn [andb].
  match goal with |- context [(?A ≫= ?K) (mkState fs out)] =>
    assert (A (mkState fs out)
            = (Next (resolved w (child (resolved w (mkdtemp w)) "source"),
                     Some (resolved w (mkdtemp w))),
               mkState (after_staging fs (parts dest) (parts (resolved w (mkdtemp w))))
                 out)) as EA
  end.
  { rewrite (bind_Next _ _ _ _ _ (make_stage_dir_ready w dest fs Hready out)).
    unfold mbind, M_bind, Run.copytree. cbn [st_fs st_out].
    by rewrite (copytree_staging w dest fs Hready). }
  rewrite (bind_Next _ _ _ _ _ EA). clear EA.
  match goal with |- context [(?B ≫= ?K) ?s] =>
    assert (B s = (Next tt, mkState fs out)) as EB
  end.
  { unfold Run.try_finally, Run.try_except.
    unfold mbind, M_bind, Run.get_fs, Run.when, Run.update_fs, Run.copytree.
    cbn [st_fs st_out].
    destruct (rmtree_staged w dest fs Hready) as [Hex Hrm]. rewrite Hex.
    cbn [andb st_fs st_out]. rewrite Hrm. cbn [st_fs st_out].
    rewrite (mkdir_parents_existing _ (parent dest) (dirs_above_dest w dest fs Hready)).
    cbn [st_fs st_out].
    rewrite (copytree_back w dest fs Hready).
    by rewrite (cleanup_stage_restores w dest fs Hready). }
  rewrite (bind_Next _ _ _ _ _ EB). clear EB.
  unfold mbind at 1, M_bind at 1. cbn [Run.get_fs st_fs].
  destruct (Fs.exists_ fs (child dest "SKILL.md")) eqn:Eex; cbn [negb].
  2:{ rewrite orb_true_r. by unfold mbind, M_bind, Run.print, Run.return_. }
  rewrite orb_false_r.
  unfold mbind at 1, M_bind at 1. cbn [mret M_ret].
  destruct (Args.no_metadata args); cbn [negb Run.when].
  - unfold mbind at 1, M_bind at 1. cbn [mret M_ret].
    unfold mbind at 1, M_bind at 1. cbn [Run.get_fs st_fs].
    destruct (run_validation lib fs dest) as [[] message];
      by unfold mbind, M_bind, Run.print, Run.return_, mret, M_ret.
  - unfold mbind at 1, M_bind at 1. unfold Run.try_except, Run.update_fs.
    cbn [st_fs st_out].
    destruct (inject_fork_metadata lib w fs (child dest "SKILL.md") e) as [fs'|err].
    + unfold mbind at 1, M_bind at 1. cbn [Run.get_fs st_fs].
      destruct (run_validation lib fs' dest) as [[] message];
        by unfold mbind, M_bind, Run.print, Run.return_, mret, M_ret.
    + by unfold mbind, M_bind, Run.print, Run.return_.
Qed.

Lemma prefix_take_iff {A} (s k : list A) : s `prefix_of` k <-> take (length s) k = s.
Proof.
  split.
  - intros [t ->]. by rewrite take_app_length.
  - intros <-. apply prefix_take.
Qed.

Lemma dirs_alongb_spec fs d : dirs_alongb fs d = true -> dirs_along fs d.
Proof.
  unfold dirs_alongb. rewrite forallb_forall. intros H k Hk Hne.
  apply prefix_take_iff in Hk.
  assert (length k <= length d) as Hlen
    by (rewrite <- Hk; rewrite length_take; lia).
  pose proof (H (length k)) as Hi. rewrite Hk in Hi.
  eapply bool_decide_eq_true_1, Hi, in_seq.
  destruct k; [done|simpl in *; lia].
Qed.

Lemma self_fork_readyb_spec fs d s :
  self_fork_readyb fs d s = true -> self_fork_ready fs d s.
Proof.
  unfold self_fork_readyb. rewrite !andb_true_iff, !negb_true_iff, !bool_decide_eq_false.
  intros ((((((Hd & Hdne) & Hr) & Hnew) & Hsne) & Hup) & Hout).
  apply dirs_alongb_spec in Hd, Hup.
  split_and!; try done.
  - intros t n Hl. destruct t as [|c t].
    + rewrite app_nil_r in Hl. rewrite Hd in Hl by done. by simplify_eq.
    + by apply (proj1 (has_unreadable_false fs d) Hr (c :: t)).
  - intros k Hk. apply eq_None_not_Some. intros [n Hn].
    rewrite forallb_forall in Hnew.
    assert (In k (Fs.keys fs)) as Hin.
    { apply list_elem_of_In. unfold Fs.keys. apply list_elem_of_fmap.
      exists (k, n). split; [done|]. by apply elem_of_map_to_list. }
    apply Hnew in Hin. apply negb_true_iff, bool_decide_eq_false in Hin.
    by apply Hin, prefix_take_iff.
  - intros Hp. by apply Hout, prefix_take_iff.
Qed.

Lemma self_fork_restores_witness :
  st_fs (materialize Example2.lib Example.world Example9.refork_foo_plain
           Example2.foo_entry (base_dir Example2.foo_entry)
           (mkState Example.project_fs [])).2
  = Example.project_fs.
Proof.
  apply (self_fork_restores Example2.lib Example.world Example9.refork_foo_plain
           Example2.foo_entry (base_dir Example2.foo_entry)
           (mkState Example.project_fs [])); try reflexivity.
  apply self_fork_readyb_spec. vm_compute. reflexivity.
Defined.
